(** * Course converter: XML/HTML course export to Markdown

    A shallow embedding of [courseconverter.js] (the transformer factory,
    the quiz handler table [xmlhandlers], the course-tree handler table
    [markdownHandlers], [readFileContent]) and of [buildTree] from
    [convertotreestructure.js], followed by the properties of the
    specification that concern them.

    Conventions of the embedding:
    - a JavaScript value is a [value]; an object is the list of its own
      properties in the order [Object.keys] enumerates them;
    - a number is kept through the two observations the converter makes of
      it: its Boolean conversion and its decimal text (ToString);
    - strings are the UTF-8 byte strings of the texts; [trim] removes the
      white space of ECMAScript, the ASCII characters and the encodings
      of the others, and [toLowerCase] folds the ASCII letters, which
      decides every comparison the converter makes with a lower-case
      text;
    - a JavaScript exception is the [Throw] result; the recursion of
      [transform] and of [buildTree] is bounded by the call stack, so the
      stack budget is explicit and its exhaustion is the [RangeError]
      the runtime raises;
    - the file system, the XML parser, the HTML converter and the [path]
      module are external: they are the fields of a [Host]. *)

From Stdlib Require Import String Ascii List ZArith Bool Lia.
From Stdlib Require Import DecimalString DecimalNat.
Import ListNotations.

Open Scope string_scope.

Set Warnings "-register-all".

(* ------------------------------------------------------------------ *)
(** ** Strings *)

Definition nl : string := String "010"%char EmptyString.

(** The white space [String.prototype.trim] removes is the ASCII
    characters tab, line feed, vertical tab, form feed, carriage return
    and space, and, in their UTF-8 encodings, U+00A0 (two bytes) and
    U+1680, U+2000 to U+200A, U+2028, U+2029, U+202F, U+205F, U+3000 and
    U+FEFF (three bytes each). *)
Definition is_ws (c : ascii) : bool :=
  match nat_of_ascii c with
  | 9 | 10 | 11 | 12 | 13 | 32 => true
  | _ => false
  end.

(** The first byte of a white-space character of two bytes, and of one
    of three bytes. *)
Definition lead2 (a : ascii) : bool := (a =? "194")%char.

Definition lead3 (a : ascii) : bool :=
  (a =? "225")%char || (a =? "226")%char || (a =? "227")%char
  || (a =? "239")%char.

Definition wide2 (a b : ascii) : bool :=
  (a =? "194")%char && (b =? "160")%char.

Definition wide3 (a b c : ascii) : bool :=
  ((a =? "225")%char && (b =? "154")%char && (c =? "128")%char)
  || ((a =? "226")%char && (b =? "128")%char
      && (((128 <=? nat_of_ascii c)%nat && (nat_of_ascii c <=? 138)%nat)
          || (c =? "168")%char || (c =? "169")%char || (c =? "175")%char))
  || ((a =? "226")%char && (b =? "129")%char && (c =? "159")%char)
  || ((a =? "227")%char && (b =? "128")%char && (c =? "128")%char)
  || ((a =? "239")%char && (b =? "187")%char && (c =? "191")%char).

(** [String.prototype.trimStart] *)
Fixpoint trimStart (s : string) : string :=
  match s with
  | EmptyString => EmptyString
  | String a r =>
      if is_ws a then trimStart r
      else if lead2 a then
        match r with
        | String b r2 => if wide2 a b then trimStart r2 else s
        | EmptyString => s
        end
      else if lead3 a then
        match r with
        | String b (String c r3) =>
            if wide3 a b c then trimStart r3 else s
        | _ => s
        end
      else s
  end.

(** A string of white space only. *)
Fixpoint blank (s : string) : bool :=
  match s with
  | EmptyString => true
  | String a r =>
      if is_ws a then blank r
      else if lead2 a then
        match r with
        | String b r2 => wide2 a b && blank r2
        | EmptyString => false
        end
      else if lead3 a then
        match r with
        | String b (String c r3) => wide3 a b c && blank r3
        | _ => false
        end
      else false
  end.

(** [String.prototype.trimEnd]: the string up to the point from which
    only white space follows. *)
Fixpoint trimEnd (s : string) : string :=
  match s with
  | EmptyString => EmptyString
  | String c r => if blank s then EmptyString else String c (trimEnd r)
  end.

(** [String.prototype.trim] *)
Definition trim (s : string) : string := trimEnd (trimStart s).

Definition lower (c : ascii) : ascii :=
  let n := nat_of_ascii c in
  if (65 <=? n)%nat && (n <=? 90)%nat then ascii_of_nat (n + 32) else c.

(** [String.prototype.toLowerCase] *)
Fixpoint toLowerCase (s : string) : string :=
  match s with
  | EmptyString => EmptyString
  | String c r => String (lower c) (toLowerCase r)
  end.

(** [s.includes(t)] *)
Fixpoint includes (s t : string) : bool :=
  String.prefix t s ||
  match s with
  | EmptyString => false
  | String _ r => includes r t
  end.

(** [s.endsWith(suffix)] *)
Definition endsWith (s suffix : string) : bool :=
  let n := String.length s in
  let m := String.length suffix in
  (m <=? n)%nat && (substring (n - m) m s =? suffix).

(** [s.repeat(n)] for a count already known to be non-negative *)
Fixpoint repeatStr (s : string) (n : nat) : string :=
  match n with
  | O => EmptyString
  | S k => s ++ repeatStr s k
  end.

Definition concatStr (l : list string) : string :=
  fold_right String.append EmptyString l.

(** [l.join(sep)] on strings *)
Fixpoint joinStr (sep : string) (l : list string) : string :=
  match l with
  | [] => EmptyString
  | [x] => x
  | x :: r => x ++ sep ++ joinStr sep r
  end.

Definition decimal (n : nat) : string := NilEmpty.string_of_uint (Nat.to_uint n).

(* ------------------------------------------------------------------ *)
(** ** Results: a value or a thrown exception *)

Inductive exn : Type := TypeError | RangeError.

Inductive res (A : Type) : Type :=
| Ok (a : A)
| Throw (e : exn).

Arguments Ok {A} a.
Arguments Throw {A} e.

Definition bind {A B : Type} (m : res A) (k : A -> res B) : res B :=
  match m with
  | Ok a => k a
  | Throw e => Throw e
  end.

Notation "x <- m ;; k" := (bind m (fun x => k))
  (at level 61, m at next level, right associativity).

(** [l.forEach(f)] where the callback updates the accumulated [content];
    a [return] inside the callback leaves the accumulator as it is. *)
Definition forEach {A : Type} (l : list A) (f : A -> string -> res string)
  (content : string) : res string :=
  fold_left (fun acc a => c <- acc ;; f a c) l (Ok content).

(** [l.map(f)] for a callback that may throw *)
Fixpoint mapM {A B : Type} (f : A -> res B) (l : list A) : res (list B) :=
  match l with
  | [] => Ok []
  | a :: r => b <- f a ;; bs <- mapM f r ;; Ok (b :: bs)
  end.

(* ------------------------------------------------------------------ *)
(** ** JavaScript values *)

(** A number, observed through [Boolean(n)] and [String(n)]. *)
Record number : Type := Num { num_truthy : bool; num_text : string }.

Inductive value : Type :=
| VUndef
| VNull
| VBool (b : bool)
| VNum (n : number)
| VStr (s : string)
| VArr (l : list value)
| VObj (o : list (string * value)).

Definition object := list (string * value).

(** [Boolean(v)], the test of [if (v)], [v ? a : b], [v || w] *)
Definition truthy (v : value) : bool :=
  match v with
  | VUndef | VNull => false
  | VBool b => b
  | VNum n => num_truthy n
  | VStr s => negb (s =? EmptyString)
  | VArr _ | VObj _ => true
  end.

(** [typeof v === "object"] (true of [null] and of arrays) *)
Definition isObjectType (v : value) : bool :=
  match v with
  | VNull | VArr _ | VObj _ => true
  | _ => false
  end.

(** ToString, as applied by [content += v] and by template literals.
    A plain object prints as [[object Object]]; [Array.prototype.join]
    prints [null] and [undefined] elements as the empty string. *)
Fixpoint toStr (v : value) : string :=
  match v with
  | VUndef => "undefined"
  | VNull => "null"
  | VBool true => "true"
  | VBool false => "false"
  | VNum n => num_text n
  | VStr s => s
  | VArr l =>
      (fix join (l : list value) : string :=
         match l with
         | [] => EmptyString
         | x :: r =>
             let e := match x with
                      | VUndef | VNull => EmptyString
                      | _ => toStr x
                      end in
             match r with
             | [] => e
             | _ => e ++ "," ++ join r
             end
         end) l
  | VObj _ => "[object Object]"
  end.

Fixpoint lookup {A : Type} (k : string) (o : list (string * A)) : option A :=
  match o with
  | [] => None
  | (k', v) :: r => if k =? k' then Some v else lookup k r
  end.

(** [o[k] = v] on a plain object: an existing property keeps its place,
    a new one is enumerated last. *)
Fixpoint setProp (o : object) (k : string) (v : value) : object :=
  match o with
  | [] => [(k, v)]
  | (k', v') :: r => if k =? k' then (k, v) :: r else (k', v') :: setProp r k v
  end.

Fixpoint indexed (i : nat) (l : list value) : object :=
  match l with
  | [] => []
  | x :: r => (decimal i, x) :: indexed (S i) r
  end.

Fixpoint chars (s : string) : list value :=
  match s with
  | EmptyString => []
  | String c r => VStr (String c EmptyString) :: chars r
  end.

(** The own enumerable properties of a value: what [{...v}] copies and
    what [Object.keys] lists. *)
Definition spread (v : value) : object :=
  match v with
  | VObj o => o
  | VArr l => indexed 0 l
  | VStr s => indexed 0 (chars s)
  | _ => []
  end.

(** [v[k]] and [v.k].  Reading a property of [undefined] or [null]
    throws; the properties the converter reads are own properties
    (no inherited member has one of their names). *)
Definition getProp (v : value) (k : string) : res value :=
  match v with
  | VUndef | VNull => Throw TypeError
  | _ => Ok (match lookup k (spread v) with
             | Some x => x
             | None => VUndef
             end)
  end.

(** [Object.keys(v)] *)
Definition keys (v : value) : res (list string) :=
  match v with
  | VUndef | VNull => Throw TypeError
  | _ => Ok (map fst (spread v))
  end.

(** [x ? (Array.isArray(x) ? x : [x]) : []], which is also [ensureArray] *)
Definition ensureArray (x : value) : list value :=
  if truthy x then
    match x with
    | VArr l => l
    | _ => [x]
    end
  else [].

(* ------------------------------------------------------------------ *)
(** ** Transformer factory *)

Section Transformer.

(** [N] is the type of nodes, [R] the type of renderings. *)
Context {N R : Type}.

Definition handler : Type := N -> (N -> Z -> res R) -> Z -> res R.

(** [kindOf node] is [None] when [!node] holds and otherwise the
    property key [node.type] selects. *)
Variable kindOf : N -> option string.
Variable empty : R.
Variable handlers : list (string * handler).

(** [makeTransformer(handlers)]: the returned [transform].  A call with
    no stack left raises [RangeError], as the runtime does.  A kind is
    looked up among the entries of the table itself; an element named
    after a member every object inherits ([constructor], [toString],
    ...) is not modelled. *)
Fixpoint makeTransformer (stack : nat) (node : N) (depth : Z) : res R :=
  match stack with
  | O => Throw RangeError
  | S stack' =>
      match kindOf node with
      | None => Ok empty
      | Some ty =>
          match lookup ty handlers with
          | Some fn => fn node (makeTransformer stack') depth
          | None =>
              match lookup "_" handlers with
              | Some fn => fn node (makeTransformer stack') depth
              | None => Throw TypeError
              end
          end
      end
  end.

End Transformer.

(* ------------------------------------------------------------------ *)
(** ** XML handlers: the quiz renderer *)

Module xmlhandlers.

Definition xhandler : Type := @handler value value.

Definition template : string := "You can use this template".

(** [x["#text"]?.trim()], or the empty string when that is falsy *)
Definition trimmedText (x : value) : res string :=
  t <- getProp x "#text" ;;
  match t with
  | VUndef | VNull => Ok EmptyString
  | VStr s => Ok (trim s)
  | _ => Throw TypeError
  end.

(** The test that drops a template paragraph:
    [text] includes the template phrase or is empty *)
Definition skipParagraph (value : value) : res bool :=
  text <- trimmedText value ;;
  Ok (includes text template || (text =? EmptyString)).

(** [typeof value === "string" && value.trim() === name] *)
Definition isOwnName (name : string) (value : value) : bool :=
  match value with
  | VStr s => trim s =? name
  | _ => false
  end.

(** [{ ...v, type: key, tagName: key }] *)
Definition tagged (v : value) (type tagName : string) : value :=
  VObj (setProp (setProp (spread v) "type" (VStr type))
          "tagName" (VStr tagName)).

(** The node built for one element of an array of children. *)
Definition childNode (key : string) (child : value) : value :=
  if isObjectType child then tagged child key key
  else VObj [("type", VStr "_"); ("#text", child)].

(** The block every pass-through handler ends its callback with:
    an array renders each element, an object renders itself, a string
    is appended as it is, anything else contributes nothing. *)
Definition appendValue (transform : value -> Z -> res value)
  (key : string) (value : value) (depth : Z) (content : string)
  : res string :=
  match value with
  | VArr l =>
      forEach l
        (fun child c =>
           r <- transform (childNode key child) depth ;;
           Ok (c ++ toStr r))
        content
  | VObj _ =>
      r <- transform (tagged value key key) depth ;;
      Ok (content ++ toStr r)
  | VStr s => Ok (content ++ s)
  | _ => Ok content
  end.

(** The [correct] flag of a choice or option, as each of the four
    handlers that read it computes it. *)
Definition correctFlag (c : value) : bool :=
  match c with
  | VUndef => false
  | VBool b => b
  | VStr s => toLowerCase s =? "true"
  | v => truthy v
  end.

Definition problem : xhandler := fun node transform depth =>
  ks <- keys node ;;
  content <-
    forEach ks
      (fun key content =>
         v <- getProp node key ;;
         if negb (key =? "#text") && negb (key =? "display_name")
            && negb (key =? "markdown") && isObjectType v
         then r <- transform (tagged v key key) depth ;;
              Ok (content ++ toStr r)
         else Ok content)
      EmptyString ;;
  Ok (VStr content).

Definition multiplechoiceresponse : xhandler := fun node transform depth =>
  ks <- keys node ;;
  content <-
    forEach ks
      (fun key content =>
         if negb (key =? "#text") && negb (key =? "type")
            && negb (key =? "display_name") && negb (key =? "markdown")
         then
           value <- getProp node key ;;
           skip <- (if key =? "p" then skipParagraph value else Ok false) ;;
           if skip then Ok content
           else if isOwnName "multiplechoiceresponse" value then Ok content
           else appendValue transform key value depth content
         else Ok content)
      EmptyString ;;
  Ok (VStr content).

Definition choiceresponse : xhandler := fun node transform depth =>
  ks <- keys node ;;
  content <-
    forEach ks
      (fun key content =>
         if negb (key =? "#text") && negb (key =? "type")
            && negb (key =? "display_name") && negb (key =? "markdown")
         then
           value <- getProp node key ;;
           skip <- (if key =? "p" then skipParagraph value else Ok false) ;;
           if skip then Ok content
           else if isOwnName "choiceresponse" value then Ok content
           else appendValue transform key value depth content
         else Ok content)
      EmptyString ;;
  Ok (VStr content).

(** The prompt of a [stringresponse]: the [content] its loop builds. *)
Definition stringresponse_content (node : value)
  (transform : value -> Z -> res value) (depth : Z) : res string :=
  ks <- keys node ;;
  forEach ks
    (fun key content =>
       if negb (key =? "#text") && negb (key =? "answer")
          && negb (key =? "type") && negb (key =? "additional_answer")
       then
         value <- getProp node key ;;
         if isOwnName "stringresponse" value then Ok content
         else
           skip <- (if key =? "p" then skipParagraph value else Ok false) ;;
           if skip then Ok content
           else appendValue transform key value depth content
       else Ok content)
    EmptyString.

(** [node.answer], or the empty string when it is falsy, printed inside
    the template literal *)
Definition answerText (node : value) : res string :=
  a <- getProp node "answer" ;;
  Ok (toStr (if truthy a then a else VStr EmptyString)).

Definition stringresponse : xhandler := fun node transform depth =>
  content <- stringresponse_content node transform depth ;;
  mainAnswer <- answerText node ;;
  Ok (VStr (trim content ++ nl ++ nl ++ "[[" ++ mainAnswer ++ "]]" ++ nl)).

Definition numericalresponse_content (node : value)
  (transform : value -> Z -> res value) (depth : Z) : res string :=
  ks <- keys node ;;
  forEach ks
    (fun key content =>
       if negb (key =? "#text") && negb (key =? "answer")
       then
         value <- getProp node key ;;
         if isOwnName "numericalresponse" value then Ok content
         else
           skip <- (if key =? "p" then skipParagraph value else Ok false) ;;
           if skip then Ok content
           else appendValue transform key value depth content
       else Ok content)
    EmptyString.

Definition numericalresponse : xhandler := fun node transform depth =>
  content <- numericalresponse_content node transform depth ;;
  answer <- answerText node ;;
  Ok (VStr (trim content ++ nl ++ nl ++ "[[" ++ answer ++ "]]" ++ nl)).

Definition responseparam : xhandler := fun _ _ _ => Ok (VStr EmptyString).

Definition choicegroup : xhandler := fun node transform depth =>
  c <- getProp node "choice" ;;
  content <-
    forEach (ensureArray c)
      (fun choice content =>
         flag <- getProp choice "correct" ;;
         text <- trimmedText choice ;;
         let box := if correctFlag flag then "[(x)]" else "[( )]" in
         Ok (content ++ "- " ++ box ++ " " ++ text ++ nl))
      (nl ++ nl) ;;
  Ok (VStr content).

Definition choice : xhandler := fun node transform depth =>
  flag <- getProp node "correct" ;;
  text <- trimmedText node ;;
  let box := if correctFlag flag then "[(x)]" else "[( )]" in
  Ok (VStr ("- " ++ box ++ " " ++ text ++ nl)).

Definition checkboxgroup : xhandler := fun node transform depth =>
  c <- getProp node "choice" ;;
  content <-
    forEach (ensureArray c)
      (fun choice content =>
         flag <- getProp choice "correct" ;;
         text <- trimmedText choice ;;
         let box := if correctFlag flag then "[[x]]" else "[[ ]]" in
         Ok (content ++ "- " ++ box ++ " " ++ text ++ nl))
      (nl ++ nl) ;;
  Ok (VStr content).

Definition demandhint : xhandler := fun node transform depth =>
  h <- getProp node "hint" ;;
  match ensureArray h with
  | [] => Ok (VStr EmptyString)
  | hints =>
      lines <-
        mapM (fun h =>
                r <- transform (tagged h "_" "hint") depth ;;
                match r with
                | VStr s => Ok ("- [[?]] " ++ trim s)
                | _ => Throw TypeError
                end)
          hints ;;
      Ok (VStr (joinStr nl lines))
  end.

Definition choicehint : xhandler := fun _ _ _ => Ok (VStr EmptyString).

Definition optionresponse : xhandler := fun node transform depth =>
  ks <- keys node ;;
  content <-
    forEach ks
      (fun key content =>
         if negb (key =? "#text")
         then
           value <- getProp node key ;;
           if isOwnName "optionresponse" value then Ok content
           else
             skip <- (if key =? "p" then skipParagraph value else Ok false) ;;
             if skip then Ok content
             else appendValue transform key value depth content
         else Ok content)
      EmptyString ;;
  Ok (VStr content).

Definition optioninput : xhandler := fun node transform depth =>
  o <- getProp node "option" ;;
  match ensureArray o with
  | [] => Ok (VStr EmptyString)
  | options =>
      texts <-
        mapM (fun opt =>
                text <- trimmedText opt ;;
                flag <- getProp opt "correct" ;;
                Ok (if correctFlag flag then "(" ++ text ++ ")" else text))
          options ;;
      Ok (VStr (nl ++ nl ++ "[[" ++ joinStr (nl ++ "| ") texts
                ++ nl ++ "]]" ++ nl ++ nl))
  end.

Definition option : xhandler := fun _ _ _ => Ok (VStr EmptyString).
Definition textline : xhandler := fun _ _ _ => Ok (VStr EmptyString).
Definition additional_answer : xhandler := fun _ _ _ => Ok (VStr EmptyString).
Definition compoundhint : xhandler := fun _ _ _ => Ok (VStr EmptyString).

(** [node?.tagName || node?.type || "unknown"] *)
Definition tagNameOf (node : value) : value :=
  let prop k := match lookup k (spread node) with
                | Some x => x
                | None => VUndef
                end in
  let t := match node with
           | VUndef | VNull => VUndef
           | _ => prop "tagName"
           end in
  if truthy t then t
  else
    let y := match node with
             | VUndef | VNull => VUndef
             | _ => prop "type"
             end in
    if truthy y then y else VStr "unknown".

Definition unsupported (tagName : string) : string :=
  "> **Unsupported content: " ++ tagName ++ " component omitted**" ++ nl ++ nl.

(** The rendering of the child elements in the default handler. *)
Definition default_content (node : value)
  (transform : value -> Z -> res value) (depth : Z) : res string :=
  if isObjectType node && negb (match node with VNull => true | _ => false end)
  then
    ks <- keys node ;;
    forEach ks
      (fun childKey content =>
         if (childKey =? "#text") || (childKey =? "tagName")
            || (childKey =? "type")
         then Ok content
         else
           value <- getProp node childKey ;;
           appendValue transform childKey value depth content)
      EmptyString
  else Ok EmptyString.

(** [xmlhandlers._], the handler of every kind the table does not name *)
Definition default : xhandler := fun node transform depth =>
  match node with
  | VStr _ => Ok node
  | _ =>
      text <- (if truthy node then getProp node "#text" else Ok VUndef) ;;
      if truthy node && truthy text then Ok text
      else
        content <- default_content node transform depth ;;
        if negb (trim content =? EmptyString) then Ok (VStr content)
        else Ok (VStr (unsupported (toStr (tagNameOf node))))
  end.

Definition table : list (string * xhandler) :=
  [ ("problem", problem);
    ("multiplechoiceresponse", multiplechoiceresponse);
    ("choiceresponse", choiceresponse);
    ("stringresponse", stringresponse);
    ("numericalresponse", numericalresponse);
    ("responseparam", responseparam);
    ("choicegroup", choicegroup);
    ("choice", choice);
    ("checkboxgroup", checkboxgroup);
    ("demandhint", demandhint);
    ("choicehint", choicehint);
    ("optionresponse", optionresponse);
    ("optioninput", optioninput);
    ("option", option);
    ("textline", textline);
    ("additional_answer", additional_answer);
    ("compoundhint", compoundhint);
    ("_", default) ].

End xmlhandlers.

(** The property key [node.type] selects in a handler table; [None]
    when [!node] holds. *)
Definition kindOfValue (node : value) : Datatypes.option string :=
  if truthy node then
    Some (match lookup "type" (spread node) with
          | Some t => toStr t
          | None => "undefined"
          end)
  else None.

(** [xmlToMarkdown = makeTransformer(xmlhandlers)] *)
Definition xmlToMarkdown (stack : nat) (node : value) (depth : Z) : res value :=
  makeTransformer kindOfValue (VStr EmptyString) xmlhandlers.table stack node depth.

(* ------------------------------------------------------------------ *)
(** ** The host: file system, parsers, HTML converter, [path] module *)

Record Host : Type := {
  existsSync : string -> bool;            (* fs.existsSync *)
  readFileSync : string -> res string;    (* fs.readFileSync(p, "utf8") *)
  xmlParse : string -> res value;         (* xmlParser.parse, courseconverter.js *)
  treeParse : string -> res value;        (* parser.parse, convertotreestructure.js *)
  translate : string -> res string;       (* nhm.translate *)
  basename : string -> string;            (* path.basename(p) *)
  basenameExt : string -> string -> string; (* path.basename(p, ext) *)
  extname : string -> string;             (* path.extname *)
  dirname : string -> string;             (* path.dirname *)
  join : list string -> string            (* path.join *)
}.

(** [o.k] for a value [o] already known to be truthy *)
Definition prop (o : value) (k : string) : value :=
  match lookup k (spread o) with
  | Some x => x
  | None => VUndef
  end.

(** [a || b] *)
Definition orElse (a b : value) : value := if truthy a then a else b.

(** [readXmlFile]: the parsed file, or [null] when reading or parsing
    throws. *)
Definition readXmlFile (h : Host) (filePath : string) : value :=
  match readFileSync h filePath with
  | Ok xmlContent =>
      match xmlParse h xmlContent with
      | Ok parsed => parsed
      | Throw _ => VNull
      end
  | Throw _ => VNull
  end.

(** The [return] statement of [readFileContent] that produced a result. *)
Inductive branch : Type :=
| FileNotFound | XmlRendered | XmlParseError | HtmlTranslated | PlainText
| ReadError.

Definition banner (what filePath : string) : value :=
  VStr ("> **" ++ what ++ ": " ++ filePath ++ "**" ++ nl ++ nl).

(** [readFileContent(filePath, type)], with the [return] that was taken.
    An exception raised inside the [try] block is caught and becomes the
    last banner. *)
Definition readFileContent_at (h : Host) (stack : nat)
  (filePath type : string) : branch * value :=
  if negb (existsSync h filePath) then
    (FileNotFound, banner "File not found" filePath)
  else
    let ext := toLowerCase (extname h filePath) in
    if (type =? "xml") || (ext =? ".xml") then
      let xmlData := readXmlFile h filePath in
      if truthy xmlData then
        let first := match spread xmlData with
                     | (k, _) :: _ => VStr k
                     | [] => VUndef
                     end in
        let rootNode :=
          VObj (setProp (setProp (spread xmlData) "type" first)
                  "tagName" first) in
        match xmlToMarkdown stack rootNode 0 with
        | Ok md => (XmlRendered, md)
        | Throw _ => (ReadError, banner "Error reading file" filePath)
        end
      else (XmlParseError, banner "Error parsing XML file" filePath)
    else if (type =? "html") || (ext =? ".html") || (ext =? ".htm") then
      match (htmlContent <- readFileSync h filePath ;; translate h htmlContent) with
      | Ok md => (HtmlTranslated, VStr md)
      | Throw _ => (ReadError, banner "Error reading file" filePath)
      end
    else
      match readFileSync h filePath with
      | Ok content => (PlainText, VStr content)
      | Throw _ => (ReadError, banner "Error reading file" filePath)
      end.

Definition readFileContent (h : Host) (stack : nat)
  (filePath type : string) : value :=
  snd (readFileContent_at h stack filePath type).

(* ------------------------------------------------------------------ *)
(** ** Course tree nodes *)

(** The object literals [buildTree] returns.  A field the literal does
    not set is [None] (or [VUndef] for a field holding parsed data). *)
Inductive tnode : Type :=
  TNode {
    type : string;
    display_name : value;
    file : option string;
    children : option (list tnode);
    verticals : option (list tnode);
    problems : option (list tnode);
    url_name : value;
    problemData : value;
    videoData : value
  }.

(* ------------------------------------------------------------------ *)
(** ** Markdown handlers: the course-tree renderer *)

Module markdownHandlers.

Definition mhandler : Type := @handler tnode string.

(** [s.repeat(count)]: a negative count is a [RangeError]. *)
Definition repeat (s : string) (count : Z) : res string :=
  if (count <? 0)%Z then Throw RangeError
  else Ok (repeatStr s (Z.to_nat count)).

(** The renderings [transform(child, depth)] of the list, joined, when the
    list is present, nothing otherwise *)
Definition renderAll (transform : tnode -> Z -> res string)
  (list : option (list tnode)) (depth : Z) : res string :=
  match list with
  | Some l => parts <- mapM (fun child => transform child depth) l ;;
              Ok (concatStr parts)
  | None => Ok EmptyString
  end.

(** [node.display_name || path.basename(node.file)] inside the
    template literal; [path.basename] rejects a missing path. *)
Definition title (h : Host) (node : tnode) : res string :=
  if truthy (display_name node) then Ok (toStr (display_name node))
  else match file node with
       | Some f => Ok (basename h f)
       | None => Throw TypeError
       end.

Definition about : mhandler := fun node transform depth =>
  let headingLevel := Z.min (depth + 1) 6 in
  hashes <- repeat "#" headingLevel ;;
  let md := hashes ++ " " ++ toStr (display_name node) ++ nl ++ nl in
  body <- renderAll transform (children node) (depth + 1) ;;
  Ok (md ++ body).

Definition course (h : Host) : mhandler := fun node transform depth =>
  let headingLevel := Z.min (depth + 1) 6 in
  hashes <- repeat "#" headingLevel ;;
  name <- title h node ;;
  let md := hashes ++ " " ++ name ++ nl ++ nl in
  body <- renderAll transform (children node) (depth + 1) ;;
  Ok (md ++ body).

Definition chapter (h : Host) : mhandler := fun node transform depth =>
  let headingLevel := Z.min (depth + 1) 6 in
  hashes <- repeat "#" headingLevel ;;
  name <- title h node ;;
  let md := hashes ++ " " ++ name ++ nl ++ nl in
  body <- renderAll transform (children node) (depth + 1) ;;
  Ok (md ++ body).

Definition sequential (h : Host) : mhandler := fun node transform depth =>
  let headingLevel := Z.min (depth + 1) 6 in
  hashes <- repeat "#" headingLevel ;;
  name <- title h node ;;
  let md := hashes ++ " " ++ name ++ nl ++ nl in
  vs <- renderAll transform (verticals node) (depth + 1) ;;
  ps <- renderAll transform (problems node) (depth + 1) ;;
  cs <- renderAll transform (children node) (depth + 1) ;;
  Ok (((md ++ vs) ++ ps) ++ cs).

Definition vertical : mhandler := fun node transform depth =>
  renderAll transform (children node) depth.

(** The guarded call of [readFileContent] in the [problem] handler:
    [None] when the guard [node.file && fs.existsSync(node.file)]
    fails, otherwise the call's result with the [return] it took. *)
Definition problem_read (h : Host) (stack : nat) (node : tnode)
  : option (branch * value) :=
  match file node with
  | Some f =>
      if negb (f =? EmptyString) && existsSync h f then
        let ext := toLowerCase (extname h f) in
        let type := if ext =? ".xml" then "xml" else "problem" in
        Some (readFileContent_at h stack f type)
      else None
  | None => None
  end.

Definition separator : string := nl ++ nl ++ "---" ++ nl ++ nl.

Definition problem (h : Host) (stack : nat) : mhandler :=
  fun node transform depth =>
    let md := match problem_read h stack node with
              | Some (_, content) => toStr content ++ nl
              | None => EmptyString
              end in
    body <- renderAll transform (children node) depth ;;
    Ok ((md ++ body) ++ separator).

Definition html : mhandler := fun node transform depth =>
  renderAll transform (children node) depth.

(** The guarded call of [readFileContent] in [htmlContent]. *)
Definition htmlContent_read (h : Host) (stack : nat) (node : tnode)
  : option (branch * value) :=
  match file node with
  | Some f =>
      if negb (f =? EmptyString) && existsSync h f then
        Some (readFileContent_at h stack f "html")
      else None
  | None => None
  end.

Definition htmlContent (h : Host) (stack : nat) : mhandler :=
  fun node _ _ =>
    match htmlContent_read h stack node with
    | Some (_, content) => Ok (toStr content ++ nl ++ nl)
    | None => Ok EmptyString
    end.

Definition image (h : Host) : mhandler := fun node _ _ =>
  match file node with
  | Some f =>
      if negb (f =? EmptyString) && existsSync h f then
        let altText :=
          if truthy (display_name node) then toStr (display_name node)
          else basenameExt h f (extname h f) in
        let imageName := basename h f in
        Ok ("![" ++ altText ++ "](../images/" ++ imageName ++ ")" ++ nl ++ nl)
      else Ok EmptyString
  | None => Ok EmptyString
  end.

Definition video : mhandler := fun node _ _ =>
  if negb (truthy (videoData node)) then Ok EmptyString
  else
    let video := videoData node in
    let displayName := orElse (prop video "display_name") (VStr "Video") in
    let youtubeId := orElse (prop video "youtube_id_1_0") (prop video "youtube") in
    if truthy youtubeId then
      Ok ("!?[" ++ toStr displayName ++ "](https://www.youtube.com/watch?v="
          ++ toStr youtubeId ++ ")" ++ nl ++ nl)
    else Ok EmptyString.

(** [markdownHandlers._] *)
Definition default : mhandler := fun node transform depth =>
  renderAll transform (children node) (depth + 1).

Definition table (h : Host) (stack : nat) : list (string * mhandler) :=
  [ ("about", about);
    ("course", course h);
    ("chapter", chapter h);
    ("sequential", sequential h);
    ("vertical", vertical);
    ("problem", problem h stack);
    ("html", html);
    ("htmlContent", htmlContent h stack);
    ("image", image h);
    ("video", video);
    ("_", default) ].

End markdownHandlers.

(** [treeToMarkdown = makeTransformer(markdownHandlers)], on a node that
    is present.  [xmlStack] is the stack left to the quiz renderer that
    [readFileContent] starts, [stack] the one left to the tree walk. *)
Definition treeToMarkdown (h : Host) (xmlStack stack : nat) (node : tnode)
  (depth : Z) : res string :=
  makeTransformer (fun n => Some (type n)) EmptyString
    (markdownHandlers.table h xmlStack) stack node depth.

(** [treeToMarkdown(tree)] as [main] calls it, on what [buildTree]
    returned: [null] renders as the empty string. *)
Definition renderTree (h : Host) (xmlStack stack : nat) (tree : option tnode)
  : res string :=
  match tree with
  | None => Ok EmptyString
  | Some node => treeToMarkdown h xmlStack stack node 0
  end.

(* ------------------------------------------------------------------ *)
(** ** Building the course tree *)

(** [parseXmlFile]: the parsed file, or [null] when reading or parsing
    throws. *)
Definition parseXmlFile (h : Host) (filePath : string) : value :=
  match readFileSync h filePath with
  | Ok xmlContent =>
      match treeParse h xmlContent with
      | Ok parsed => parsed
      | Throw _ => VNull
      end
  | Throw _ => VNull
  end.

(** [l.filter(Boolean)] on a list of nodes and [null]s *)
Fixpoint compact {A : Type} (l : list (option A)) : list A :=
  match l with
  | [] => []
  | Some a :: r => a :: compact r
  | None :: r => compact r
  end.

(** [path.join(parentDir, kind, ref.url_name + ".xml")] *)
Definition refPath (h : Host) (parentDir kind : string) (ref : value)
  : res string :=
  u <- getProp ref "url_name" ;;
  Ok (join h [parentDir; kind; toStr u ++ ".xml"]).

Definition leaf (type : string) (display_name : value) (file : string) : tnode :=
  {| type := type; display_name := display_name; file := Some file;
     children := None; verticals := None; problems := None;
     url_name := VUndef; problemData := VUndef; videoData := VUndef |}.

Definition inner (type : string) (display_name : value) (file : option string)
  (children : list tnode) : tnode :=
  {| type := type; display_name := display_name; file := file;
     children := Some children; verticals := None; problems := None;
     url_name := VUndef; problemData := VUndef; videoData := VUndef |}.

(** [buildTree(filePath, type)]: a node, or [None] for [null]. *)
Fixpoint buildTree (h : Host) (stack : nat) (filePath type : string)
  : res (option tnode) :=
  match stack with
  | O => Throw RangeError
  | S stack' =>
    if negb (existsSync h filePath) || negb (endsWith filePath ".xml") then
      Ok None
    else
    let obj := parseXmlFile h filePath in
    if negb (truthy obj) then Ok None
    else
    let dir := dirname h filePath in
    let parentDir := dirname h dir in
    if (type =? "about") && truthy (prop obj "about") then
      let overviewHtmlPath := join h [dir; "course"; "overview.html"] in
      let children :=
        if existsSync h overviewHtmlPath
        then [leaf "htmlContent" (VStr "Course Overview") overviewHtmlPath]
        else [] in
      Ok (Some (inner "about"
                  (orElse (prop (prop obj "about") "display_name") (VStr "About"))
                  (Some filePath) children))
    else if truthy (prop obj "course") then
      let chapters := ensureArray (prop (prop obj "course") "chapter") in
      let courseRootDir := dirname h dir in
      let overviewPath := join h [courseRootDir; "about"; "overview.html"] in
      let aboutFirst :=
        if existsSync h overviewPath
        then [inner "about" (VStr "About") None
                [leaf "htmlContent" (VStr "Course Overview") overviewPath]]
        else [] in
      built <-
        mapM (fun ch =>
                chapterPath <- refPath h parentDir "chapter" ch ;;
                buildTree h stack' chapterPath "chapter")
          chapters ;;
      Ok (Some (inner "course" (prop (prop obj "course") "display_name")
                  (Some filePath) (aboutFirst ++ compact built)))
    else if truthy (prop obj "chapter") then
      let sequentials := ensureArray (prop (prop obj "chapter") "sequential") in
      built <-
        mapM (fun seq =>
                sequentialPath <- refPath h parentDir "sequential" seq ;;
                buildTree h stack' sequentialPath "sequential")
          sequentials ;;
      Ok (Some (inner "chapter"
                  (orElse (prop (prop obj "chapter") "display_name") VNull)
                  (Some filePath) (compact built)))
    else if truthy (prop obj "sequential") then
      let verticals := ensureArray (prop (prop obj "sequential") "vertical") in
      verticalContainers <-
        mapM (fun vert =>
                verticalPath <- refPath h parentDir "vertical" vert ;;
                verticalNode <- buildTree h stack' verticalPath "vertical" ;;
                u <- getProp vert "url_name" ;;
                Ok (match verticalNode with
                    | Some v =>
                        match children v with
                        | Some cs =>
                            Some {| type := "vertical-container";
                                    display_name := display_name v;
                                    file := None;
                                    children := Some cs;
                                    verticals := None; problems := None;
                                    url_name := u;
                                    problemData := VUndef;
                                    videoData := VUndef |}
                        | None => None
                        end
                    | None => None
                    end))
          verticals ;;
      Ok (Some (inner "sequential"
                  (orElse (prop (prop obj "sequential") "display_name") VNull)
                  (Some filePath) (compact verticalContainers)))
    else if truthy (prop obj "vertical") then
      let problems := ensureArray (prop (prop obj "vertical") "problem") in
      let htmls := ensureArray (prop (prop obj "vertical") "html") in
      let videos := ensureArray (prop (prop obj "vertical") "video") in
      let resolve kind :=
        mapM (fun ref =>
                refd <- refPath h parentDir kind ref ;;
                if existsSync h refd then buildTree h stack' refd kind
                else Ok None) in
      ps <- resolve "problem" problems ;;
      hs <- resolve "html" htmls ;;
      vs <- resolve "video" videos ;;
      Ok (Some (inner "vertical"
                  (orElse (prop (prop obj "vertical") "display_name") VNull)
                  (Some filePath) (compact ps ++ compact hs ++ compact vs)))
    else if truthy (prop obj "problem") then
      Ok (Some {| type := "problem";
                  display_name :=
                    orElse (prop (prop obj "problem") "display_name") VNull;
                  file := Some filePath;
                  children := Some [];
                  verticals := None; problems := None;
                  url_name := VUndef;
                  problemData := prop obj "problem";
                  videoData := VUndef |})
    else if truthy (prop obj "html") then
      let baseName :=
        orElse (prop (prop obj "html") "filename")
          (VStr (basenameExt h filePath ".xml")) in
      let htmlFilePath := join h [dir; toStr baseName ++ ".html"] in
      let children :=
        if existsSync h htmlFilePath
        then [leaf "htmlContent"
                (orElse (prop (prop obj "html") "display_name") baseName)
                htmlFilePath]
        else [] in
      Ok (Some (inner "html"
                  (orElse (prop (prop obj "html") "display_name") VNull)
                  (Some filePath) children))
    else if truthy (prop obj "video") then
      Ok (Some {| type := "video";
                  display_name :=
                    orElse (prop (prop obj "video") "display_name") VNull;
                  file := Some filePath;
                  children := Some [];
                  verticals := None; problems := None;
                  url_name := VUndef;
                  problemData := VUndef;
                  videoData := prop obj "video" |})
    else Ok None
  end.

(* ------------------------------------------------------------------ *)
(** ** Vocabulary of the specification *)

(** The representations of a [correct] attribute that mean "correct":
    the boolean [true] and any spelling of the string "true". *)
Inductive trueRepr : value -> Prop :=
| TrueBool : trueRepr (VBool true)
| TrueString (s : string) : toLowerCase s = "true" -> trueRepr (VStr s).

(** The representations that mean "not correct": the boolean [false],
    any spelling of the string "false", and the attribute being absent. *)
Inductive falseRepr : value -> Prop :=
| FalseBool : falseRepr (VBool false)
| FalseString (s : string) : toLowerCase s = "false" -> falseRepr (VStr s)
| FalseAbsent : falseRepr VUndef.

(** The block of two choice lines with the given pair of markers. *)
Definition twoLines (yes no A B : string) : string :=
  nl ++ nl ++ "- " ++ yes ++ " " ++ trim A ++ nl
  ++ "- " ++ no ++ " " ++ trim B ++ nl.

(** A child reference resolves when its file exists and [buildTree]
    returns a node for it. *)
Definition builds (h : Host) (stack : nat) (kind filePath : string) : bool :=
  match buildTree h stack filePath kind with
  | Ok (Some _) => true
  | _ => false
  end.

Definition resolves (h : Host) (stack : nat) (kind filePath : string) : bool :=
  existsSync h filePath && builds h stack kind filePath.

Definition childList (n : tnode) : list tnode :=
  match children n with
  | Some l => l
  | None => []
  end.

(** The name a heading shows: the display name, or the base name of the
    file when there is no display name. *)
Inductive headingName (h : Host) (node : tnode) : string -> Prop :=
| NameDisplayed :
    truthy (display_name node) = true ->
    headingName h node (toStr (display_name node))
| NameOfFile (f : string) :
    truthy (display_name node) = false ->
    file node = Some f ->
    headingName h node (basename h f).

(** What a heading-bearing handler renders below its heading. *)
Definition headingBody (kind : string) (transform : tnode -> Z -> res string)
  (node : tnode) (depth : Z) : res string :=
  if kind =? "sequential" then
    vs <- markdownHandlers.renderAll transform (verticals node) depth ;;
    ps <- markdownHandlers.renderAll transform (problems node) depth ;;
    cs <- markdownHandlers.renderAll transform (children node) depth ;;
    Ok (vs ++ ps ++ cs)
  else markdownHandlers.renderAll transform (children node) depth.

(** A paragraph child, when there is one, has a text the template test
    can read: a string or no text at all. *)
Definition readableParagraph (node : value) : Prop :=
  forall v, lookup "p" (spread node) = Some v ->
            exists b, xmlhandlers.skipParagraph v = Ok b.

(** The nodes a pass-through handler hands to [transform] for the
    property [key] of value [v]. *)
Definition childNodesAt (key : string) (v : value) : list value :=
  match v with
  | VArr l => map (xmlhandlers.childNode key) l
  | VObj _ => [xmlhandlers.tagged v key key]
  | _ => []
  end.

Definition childNodes (node : value) : list value :=
  flat_map (fun kv => childNodesAt (fst kv) (snd kv)) (spread node).

(** [transform] renders every child of [node] at [depth]. *)
Definition rendersChildren (transform : value -> Z -> res value)
  (node : value) (depth : Z) : Prop :=
  forall c, In c (childNodes node) -> exists r, transform c depth = Ok r.

(** The ways a referenced file can be absent for [buildTree]: it does
    not exist, it is not an [.xml] file, it cannot be read, or it does
    not parse. *)
Inductive absentFile (h : Host) (filePath : string) : Prop :=
| Missing :
    existsSync h filePath = false -> absentFile h filePath
| NotXml :
    endsWith filePath ".xml" = false -> absentFile h filePath
| Unreadable (e : exn) :
    readFileSync h filePath = Throw e -> absentFile h filePath
| Unparseable (text : string) (e : exn) :
    readFileSync h filePath = Ok text ->
    treeParse h text = Throw e ->
    absentFile h filePath.

(** The [url_name] of a reference, and whether a [vertical] reference
    ends up as a container. *)
Definition urlOf (ref : value) : value := prop ref "url_name".

Definition contained (h : Host) (stack : nat) (parentDir : string)
  (ref : value) : bool :=
  match refPath h parentDir "vertical" ref with
  | Ok p => builds h stack "vertical" p
  | Throw _ => false
  end.

(** A rendering is followed by a blank line when it ends with two line
    breaks. *)
Definition endsWithBlankLine (s : string) : Prop :=
  exists s', s = s' ++ nl ++ nl.

Module Samples.

Definition choiceA : value :=
  VObj [("#text", VStr "A"); ("correct", VBool true)].
Definition choiceB : value :=
  VObj [("#text", VStr "B"); ("correct", VStr "false")].
Definition choicegroupAB : value :=
  VObj [("choice", VArr [choiceA; choiceB]); ("type", VStr "choicegroup");
        ("tagName", VStr "choicegroup")].
Definition checkboxgroupAB : value :=
  VObj [("choice", VArr [choiceA; choiceB]); ("type", VStr "checkboxgroup");
        ("tagName", VStr "checkboxgroup")].

(** The node of a [stringresponse] element with the given [answer]
    attribute, a [label] child holding the prompt and one
    [additional_answer] child. *)
Definition enterValue (answer : value) : value :=
  VObj [("answer", answer);
        ("label", VStr "Enter value");
        ("additional_answer", VObj [("answer", VNum (Num true "43"))]);
        ("type", VStr "stringresponse");
        ("tagName", VStr "stringresponse")].

Definition zero : value := VNum (Num false "0").

(** A response element of the given kind with a prompt and no answer. *)
Definition noAnswer (kind : string) : value :=
  VObj [("label", VStr "How many?"); ("type", VStr kind);
        ("tagName", VStr kind)].

(** An element no handler knows, with direct text, with a child, empty. *)
Definition withText : value :=
  VObj [("#text", VStr "See the figure"); ("type", VStr "figure");
        ("tagName", VStr "figure")].
Definition withChild : value :=
  VObj [("caption", VStr "Figure 1"); ("type", VStr "figure");
        ("tagName", VStr "figure")].
Definition emptyElement : value :=
  VObj [("type", VStr "figure"); ("tagName", VStr "figure")].

(** A small [path] module on slash-separated paths. *)
Definition revStr (s : string) : string :=
  string_of_list_ascii (rev (list_ascii_of_string s)).

Fixpoint beforeSlash (s : string) : string :=
  match s with
  | EmptyString => EmptyString
  | String c r => if (c =? "/")%char then EmptyString
                  else String c (beforeSlash r)
  end.

Fixpoint afterSlash (s : string) : string :=
  match s with
  | EmptyString => EmptyString
  | String c r => if (c =? "/")%char then r else afterSlash r
  end.

Definition baseOf (p : string) : string := revStr (beforeSlash (revStr p)).
Definition dirOf (p : string) : string := revStr (afterSlash (revStr p)).
Definition extOf (p : string) : string :=
  if endsWith p ".xml" then ".xml"
  else if endsWith p ".html" then ".html" else EmptyString.
Definition baseWithout (p ext : string) : string :=
  let b := baseOf p in
  if endsWith b ext
  then substring 0 (String.length b - String.length ext) b
  else b.

(** The files of a small course export. *)
Definition courseXml : string :=
  "<course display_name='X'><chapter url_name='ch1'/><chapter url_name='gone'/></course>".
Definition chapterXml : string :=
  "<chapter display_name='Y'><sequential url_name='s1'/></chapter>".
Definition sequentialXml : string :=
  "<sequential display_name='Z'><vertical url_name='v1'/></sequential>".
Definition verticalXml : string :=
  "<vertical><html url_name='h1'/><problem url_name='p1'/></vertical>".
Definition problemXml : string :=
  "<problem><stringresponse answer='42'><label>Enter value</label></stringresponse></problem>".
Definition htmlXml : string := "<html filename='h1' display_name='Text'/>".
Definition htmlText : string := "<p>Hello</p>".

Definition disk : list (string * string) :=
  [ ("c/course/course.xml", courseXml);
    ("c/chapter/ch1.xml", chapterXml);
    ("c/sequential/s1.xml", sequentialXml);
    ("c/vertical/v1.xml", verticalXml);
    ("c/problem/p1.xml", problemXml);
    ("c/html/h1.xml", htmlXml);
    ("c/html/h1.html", htmlText);
    ("c/html/broken.xml", "<html") ].

Definition ref (u : string) : value := VObj [("url_name", VStr u)].

(** What the parser of [convertotreestructure.js] returns for them
    (attribute values stay strings). *)
Definition treeParsed : list (string * value) :=
  [ (courseXml,
     VObj [("course", VObj [("chapter", VArr [ref "ch1"; ref "gone"]);
                            ("display_name", VStr "X")])]);
    (chapterXml,
     VObj [("chapter", VObj [("sequential", ref "s1");
                             ("display_name", VStr "Y")])]);
    (sequentialXml,
     VObj [("sequential", VObj [("vertical", ref "v1");
                                ("display_name", VStr "Z")])]);
    (verticalXml,
     VObj [("vertical", VObj [("html", ref "h1"); ("problem", ref "p1")])]);
    (problemXml,
     VObj [("problem",
            VObj [("stringresponse",
                   VObj [("label", VStr "Enter value");
                         ("answer", VStr "42")])])]);
    (htmlXml,
     VObj [("html", VObj [("filename", VStr "h1");
                          ("display_name", VStr "Text")])]) ].

(** What the parser of [courseconverter.js] returns (attribute values
    are parsed). *)
Definition xmlParsed : list (string * value) :=
  [ (problemXml,
     VObj [("problem",
            VObj [("stringresponse",
                   VObj [("label", VStr "Enter value");
                         ("answer", VNum (Num true "42"))])])]) ].

Definition orThrow {A : Type} (o : Datatypes.option A) : res A :=
  match o with
  | Some a => Ok a
  | None => Throw TypeError
  end.

Definition host : Host :=
  {| existsSync := fun p => match lookup p disk with
                            | Some _ => true
                            | None => false
                            end;
     readFileSync := fun p => orThrow (lookup p disk);
     xmlParse := fun text => orThrow (lookup text xmlParsed);
     treeParse := fun text => orThrow (lookup text treeParsed);
     translate := fun text =>
       if text =? htmlText then Ok ("Hello" ++ nl ++ nl) else Ok text;
     basename := baseOf;
     basenameExt := baseWithout;
     extname := extOf;
     dirname := dirOf;
     join := joinStr "/" |}.

Definition named (type : string) (name : value) (file : Datatypes.option string)
  (children : list tnode) : tnode :=
  inner type name file children.

Definition chapterY : tnode := named "chapter" (VStr "Y") (Some "c/chapter/ch1.xml") [].

(** A container as the [sequential] branch of [buildTree] builds it,
    around a heading-bearing child. *)
Definition container : tnode :=
  {| type := "vertical-container"; display_name := VNull; file := None;
     children := Some [chapterY]; verticals := None; problems := None;
     url_name := VStr "v1"; problemData := VUndef; videoData := VUndef |}.

Definition verticalOfChapter : tnode :=
  named "vertical" VNull (Some "c/vertical/v1.xml") [chapterY].

(** An [about] node without a display name. *)
Definition namelessAbout : tnode :=
  named "about" VUndef (Some "c/about/about.xml") [].
Definition namelessCourse : tnode :=
  named "course" VUndef (Some "c/course/course.xml") [].

(** A [problem] node whose file is not on the disk. *)
Definition lostProblem : tnode :=
  {| type := "problem"; display_name := VNull;
     file := Some "c/problem/lost.xml"; children := Some [];
     verticals := None; problems := None; url_name := VUndef;
     problemData := VUndef; videoData := VUndef |}.

End Samples.

(* ------------------------------------------------------------------ *)
(** ** Further vocabulary *)

(** A choice or option whose text the group handlers can read: the
    element is not [null] or [undefined] and its [#text] is a string or
    is missing. *)
Definition plainText (ch : value) : Prop :=
  match ch with
  | VUndef | VNull => False
  | _ => match prop ch "#text" with
         | VUndef | VNull | VStr _ => True
         | _ => False
         end
  end.

(** The entry of a dropdown for an option of the given flag and text. *)
Definition optionEntry (ft : value * string) : string :=
  if xmlhandlers.correctFlag (fst ft) then "(" ++ snd ft ++ ")" else snd ft.

(** An object without the properties named [k]. *)
Definition removeKey (k : string) (o : object) : object :=
  filter (fun kv => negb (fst kv =? k)) o.

(** The callback of the two group handlers, for a pair of markers. *)
Definition groupStep (yes no : string) (choice : value) (content : string)
  : res string :=
  flag <- getProp choice "correct" ;;
  text <- xmlhandlers.trimmedText choice ;;
  Ok (content ++ "- " ++ (if xmlhandlers.correctFlag flag then yes else no)
      ++ " " ++ text ++ nl).

Module MoreSamples.

(** The node of a choice group whose only choice has a numeric text. *)
Definition numericChoice : value :=
  VObj [("#text", VNum (Num true "42")); ("correct", VBool true)].
Definition numericGroup : value :=
  VObj [("choice", numericChoice); ("type", VStr "choicegroup");
        ("tagName", VStr "choicegroup")].

(** The node of a group whose choices carry no attribute: the parser
    hands each one over as a bare string. *)
Definition bareGroup : value :=
  VObj [("choice", VArr [VStr "Yes"; VStr "No"]);
        ("type", VStr "choicegroup"); ("tagName", VStr "choicegroup")].

(** The node of a dropdown with the options A and B, B being correct. *)
Definition dropdownAB : value :=
  VObj [("option",
         VArr [VObj [("#text", VStr "A"); ("correct", VBool false)];
               VObj [("#text", VStr "B"); ("correct", VBool true)]]);
        ("type", VStr "optioninput"); ("tagName", VStr "optioninput")].

(** The node of a problem with a display name, its authoring markdown
    and one string response. *)
Definition problemNode : value :=
  VObj [("display_name", VStr "Question 1");
        ("markdown", VStr "Enter value = 42");
        ("stringresponse",
         VObj [("answer", VNum (Num true "42"));
               ("label", VStr "Enter value")]);
        ("type", VStr "problem")].

(** The node of [<problem></problem>]. *)
Definition emptyProblem : value := VObj [("type", VStr "problem")].

(** A string response whose prompt is a paragraph without attributes:
    the parser hands the paragraph over as a bare string. *)
Definition promptInParagraph : object :=
  [("answer", VStr "Paris"); ("p", VStr "Name the capital of France");
   ("type", VStr "stringresponse"); ("tagName", VStr "stringresponse")].

(** A course file that lists itself as its chapter. *)
Definition loopXml : string :=
  "<course display_name='Loop'><chapter url_name='loop'/></course>".

Definition loopHost : Host :=
  {| existsSync := fun p => p =? "c/chapter/loop.xml";
     readFileSync := fun p =>
       if p =? "c/chapter/loop.xml" then Ok loopXml else Throw TypeError;
     xmlParse := fun _ => Throw TypeError;
     treeParse := fun text =>
       if text =? loopXml
       then Ok (VObj [("course",
                       VObj [("chapter", Samples.ref "loop");
                             ("display_name", VStr "Loop")])])
       else Throw TypeError;
     translate := fun text => Ok text;
     basename := Samples.baseOf;
     basenameExt := Samples.baseWithout;
     extname := Samples.extOf;
     dirname := Samples.dirOf;
     join := joinStr "/" |}.

(** The node of [<figure class="wide" id="f1" width="3"/>], an element
    no handler knows, with attributes only. *)
Definition figureAttributes : object :=
  [("class", VStr "wide"); ("id", VStr "f1");
   ("width", VNum (Num true "3"));
   ("type", VStr "figure"); ("tagName", VStr "figure")].

(** A container as the builder makes it, around a problem. *)
Definition containerOfProblem : tnode :=
  {| type := "vertical-container"; display_name := VNull; file := None;
     children := Some [Samples.lostProblem];
     verticals := None; problems := None;
     url_name := VStr "v1"; problemData := VUndef; videoData := VUndef |}.

Definition twoHints : value :=
  VObj [("hint", VArr [VObj [("id", VStr "h1"); ("#text", VStr " Count again ")];
                       VStr "Try 42"])].

Definition numberedHint : value :=
  VObj [("hint", VObj [("id", VStr "h1"); ("#text", VNum {| num_truthy := true; num_text := "42" |})])].

Definition listing (dir : string) : res (list string) :=
  if dir =? "c/html"
  then Ok ["h1.xml"; "h1.html"; "h2.html"; "h1"]
  else Throw TypeError.

(** A host whose only file is an XML file the parser finds empty. *)
Definition emptyHost : Host :=
  {| existsSync := fun p => p =? "c/problem/empty.XML";
     readFileSync := fun p =>
       if p =? "c/problem/empty.XML" then Ok EmptyString else Throw TypeError;
     xmlParse := fun text =>
       if text =? EmptyString then Ok (VObj []) else Throw TypeError;
     treeParse := fun _ => Throw TypeError;
     translate := fun text => Ok text;
     basename := Samples.baseOf;
     basenameExt := Samples.baseWithout;
     extname := fun p => if endsWith p ".XML" then ".XML" else Samples.extOf p;
     dirname := Samples.dirOf;
     join := joinStr "/" |}.

(** The node of a figure no handler knows, with a caption, a note that
    has an attribute, and two items of which one has an attribute. *)
Definition captionedFigure : object :=
  [("caption", VStr "Figure 1");
   ("note", VObj [("kind", VStr "x"); ("#text", VStr " see above")]);
   ("item", VArr [VObj [("n", VNum (Num true "1")); ("#text", VStr "a")];
                  VStr "b"]);
   ("type", VStr "figure"); ("tagName", VStr "figure")].

(** A response element of the given kind without an answer, with a
    prompt paragraph and a label that both carry an attribute. *)
Definition promptedNoAnswer (kind : string) : value :=
  VObj [("p", VObj [("class", VStr "q"); ("#text", VStr "How many?")]);
        ("label", VObj [("id", VStr "l1"); ("#text", VStr " Count them")]);
        ("type", VStr kind); ("tagName", VStr kind)].

(** The same without a label, the text of the paragraph being the
    number 42: the node of [<p class="x">42</p>] inside the response. *)
Definition numericParagraph (kind : string) : value :=
  VObj [("p", VObj [("class", VStr "x"); ("#text", VNum (Num true "42"))]);
        ("type", VStr kind); ("tagName", VStr kind)].

End MoreSamples.

(** The properties of a [problem] node that are rendered: elements
    (object-typed values) other than the metadata fields. *)
Definition problemChild (kv : string * value) : bool :=
  negb (fst kv =? "#text") && negb (fst kv =? "display_name")
  && negb (fst kv =? "markdown") && isObjectType (snd kv).

(** A paragraph value the pass-through handlers drop: a bare string, a
    list of paragraphs, an element without text, or an element whose
    trimmed text is empty or holds the template phrase. *)
Inductive droppedParagraph : value -> Prop :=
| DropBare (s : string) : droppedParagraph (VStr s)
| DropList (l : list value) : droppedParagraph (VArr l)
| DropNoText (o : object) :
    lookup "#text" o = None -> droppedParagraph (VObj o)
| DropText (o : object) (t : string) :
    lookup "#text" o = Some (VStr t) ->
    trim t = EmptyString \/ includes (trim t) xmlhandlers.template = true ->
    droppedParagraph (VObj o).

(** The shape of a node the renderer cannot fail on by itself: a known
    kind, a file to name a course, chapter or sequential after, and no
    [verticals] or [problems] list. *)
Definition plainShape (t : tnode) : Prop :=
  verticals t = None /\
  problems t = None /\
  (In (type t) ["about"; "vertical"; "html"; "problem"; "video";
                "htmlContent"; "vertical-container"] \/
   (In (type t) ["course"; "chapter"; "sequential"] /\
    exists f, file t = Some f)).

(** Trees of plain nodes, of height at most [k]. *)
Fixpoint plainTree (k : nat) (t : tnode) : Prop :=
  match k with
  | O => False
  | S k' => plainShape t /\ Forall (plainTree k') (childList t)
  end.

(** Trees without a heading-bearing node. *)
Inductive headingFree : tnode -> Prop :=
| HeadingFree (t : tnode) :
    ~ In (type t) ["about"; "course"; "chapter"; "sequential"] ->
    Forall headingFree (childList t) ->
    headingFree t.

(* ------------------------------------------------------------------ *)
(** ** HTML handlers *)

Fixpoint dropChars (n : nat) (s : string) : string :=
  match n, s with
  | O, _ => s
  | S n', String _ r => dropChars n' r
  | S _, EmptyString => EmptyString
  end.

(** [s.replace(pattern, replacement)] for a string pattern: the first
    occurrence is replaced (the replacements of the handlers hold no
    dollar sign). *)
Fixpoint replace (s pattern replacement : string) : string :=
  if String.prefix pattern s
  then replacement ++ dropChars (String.length pattern) s
  else match s with
       | EmptyString => EmptyString
       | String c r => String c (replace r pattern replacement)
       end.

(** [s.split(sep)] for a separator of one character *)
Fixpoint split (sep : ascii) (s : string) : list string :=
  match s with
  | EmptyString => [EmptyString]
  | String c r =>
      if (c =? sep)%char then EmptyString :: split sep r
      else match split sep r with
           | x :: xs => String c x :: xs
           | [] => [String c EmptyString]
           end
  end.

Fixpoint hasChar (c : ascii) (s : string) : bool :=
  match s with
  | EmptyString => false
  | String c' r => (c' =? c)%char || hasChar c r
  end.

Module htmlHandlers.

(** The [postprocess] of each handler, as a function of [content]. *)
Definition strong (content : string) : string := "**" ++ trim content ++ "**".
Definition em (content : string) : string := "*" ++ trim content ++ "*".
Definition li (content : string) : string := "- " ++ trim content ++ nl.
Definition ul (content : string) : string := trim content ++ nl ++ nl.

(** The callback of [lines.map] in [ol], with its counter. *)
Fixpoint numberedLines (counter : nat) (lines : list string) : list string :=
  match lines with
  | [] => []
  | line :: rest =>
      if String.prefix "-" (trim line)
      then replace line "-" (decimal counter ++ ".")
           :: numberedLines (S counter) rest
      else line :: numberedLines counter rest
  end.

Definition ol (content : string) : string :=
  let lines := split "010"%char (trim content) in
  joinStr nl (numberedLines 1 lines) ++ nl ++ nl.

Definition h1 (content : string) : string := "**" ++ trim content ++ nl ++ nl.
Definition h2 (content : string) : string :=
  "**" ++ trim content ++ "**" ++ nl ++ nl.
Definition h3 (content : string) : string :=
  "**" ++ trim content ++ "**" ++ nl ++ nl.
Definition p (content : string) : string := trim content ++ nl ++ nl.
Definition label (content : string) : string := trim content ++ nl ++ nl.
Definition description (content : string) : string :=
  " " ++ trim content ++ nl ++ nl.

(** [node.getAttribute(name) || fallback]: [getAttribute] gives the
    attribute's string or [null]; a missing attribute and an empty one
    both give the fallback. *)
Definition attributeOr (attribute : Datatypes.option string)
  (fallback : string) : string :=
  match attribute with
  | Some s => if s =? EmptyString then fallback else s
  | None => fallback
  end.

(** The [postprocess] of [img], as a function of the two attributes
    it reads from the node. *)
Definition img (h : Host) (srcAttribute altAttribute : Datatypes.option string)
  : string :=
  let src := attributeOr srcAttribute EmptyString in
  let alt := attributeOr altAttribute "Image" in
  if src =? EmptyString then EmptyString
  else
    let cleanSrc := match src with
                    | String "/"%char r => r
                    | _ => src
                    end in
    let imageName := basename h cleanSrc in
    "![" ++ alt ++ "](../images/" ++ imageName ++ ")" ++ nl ++ nl.

End htmlHandlers.

(** The lines of an ordered list: each text after its number. *)
Fixpoint numbered (counter : nat) (texts : list string) : list string :=
  match texts with
  | [] => []
  | x :: rest => (decimal counter ++ ". " ++ x) :: numbered (S counter) rest
  end.

(** A list item that stays on one line: its trimmed text is not empty
    and holds no line break. *)
Definition oneLine (content : string) : Prop :=
  trim content <> EmptyString /\ hasChar "010"%char (trim content) = false.

(** The properties the fallback handler walks through: all but
    [#text], [tagName] and [type]. *)
Definition walked (kv : string * value) : bool :=
  negb ((fst kv =? "#text") || (fst kv =? "tagName") || (fst kv =? "type")).

(** What a property that is not an element adds to the content: a
    string adds itself, any other scalar nothing. *)
Definition scalarText (v : value) : string :=
  match v with
  | VStr s => s
  | _ => EmptyString
  end.

Definition isElement (v : value) : bool :=
  match v with
  | VArr _ | VObj _ => true
  | _ => false
  end.

(** A hint as the demand-hint handler meets it: an element with a
    non-empty string text (attributes beside it), or the bare string of
    an element without attributes, which is not blank. *)
Inductive hintText : value -> string -> Prop :=
| hint_element (o : object) (s : string) :
    lookup "#text" o = Some (VStr s) -> s <> EmptyString ->
    hintText (VObj o) s
| hint_bare (s : string) :
    trim s <> EmptyString -> hintText (VStr s) s.

Definition hintLine (text : string) : string := "- [[?]] " ++ trim text.

(* ------------------------------------------------------------------ *)
(** ** Assets beside an XML file *)

Section Assets.

Variable h : Host.

(** [fs.readdirSync]: the names found in a directory, in the order the
    file system gives them. *)
Variable readdirSync : string -> res (list string).

(** The kind an extension gives an asset. *)
Definition assetType (ext : string) : string :=
  if ext =? ".html" then "htmlContent"
  else if (ext =? ".jpg") || (ext =? ".png") then "image"
  else "asset".

(** [collectAssets]: a directory that cannot be read gives no asset. *)
Definition collectAssets (filePath : string) : list tnode :=
  let dir := dirname h filePath in
  let baseName := basenameExt h filePath ".xml" in
  match readdirSync dir with
  | Ok files =>
      fold_left
        (fun assets file =>
           let fullPath := join h [dir; file] in
           let fileBaseName := basenameExt h file (extname h file) in
           if endsWith file ".xml" then assets
           else if fileBaseName =? baseName
                then (assets
                      ++ [leaf (assetType (extname h file)) (VStr file)
                            fullPath])%list
                else assets)
        files []
  | Throw _ => []
  end.

(** The files [collectAssets] is after: those that share the base name
    of the XML file and are not XML files themselves. *)
Definition companion (filePath file : string) : bool :=
  negb (endsWith file ".xml")
  && (basenameExt h file (extname h file) =? basenameExt h filePath ".xml").

End Assets.

(* ------------------------------------------------------------------ *)
(** ** Vocabulary of the fallback handler and of the references *)

(** What one property of a node adds to the content of the fallback
    handler: an array adds the rendering of each of its elements, an
    element (an object) adds its rendering, a string adds itself, and
    any other value adds nothing. *)
Inductive contributes (transform : value -> Z -> res value) (depth : Z)
  : string * value -> string -> Prop :=
| AddsElements (key : string) (l rs : list value) :
    Forall2 (fun child r =>
               transform (xmlhandlers.childNode key child) depth = Ok r)
      l rs ->
    contributes transform depth (key, VArr l) (concatStr (map toStr rs))
| AddsElement (key : string) (o : object) (r : value) :
    transform (xmlhandlers.tagged (VObj o) key key) depth = Ok r ->
    contributes transform depth (key, VObj o) (toStr r)
| AddsScalar (key : string) (v : value) :
    isElement v = false ->
    contributes transform depth (key, v) (scalarText v).

(** A direct text as the parser gives it: a string, a number or a
    boolean, where a number prints as a non-empty string. *)
Definition parsedText (t : value) : Prop :=
  match t with
  | VArr _ | VObj _ => False
  | VNum n => num_text n <> EmptyString
  | _ => True
  end.

(** The parsed file has the root element [kind] and no other root the
    builder looks for before the leaves. *)
Definition rootElement (obj : value) (kind : string) : Prop :=
  truthy (prop obj kind) = true /\
  forall k, In k ["about"; "course"; "chapter"; "sequential"; "vertical"] ->
            k <> kind -> truthy (prop obj k) = false.

(** What the builder gets for one reference of a parent: nothing when
    the referenced file is absent, and otherwise what building that file
    gives. *)
Inductive referenced (h : Host) (stack : nat) (parentDir kind : string)
  (ref : value) : Datatypes.option tnode -> Prop :=
| ReferenceAbsent (p : string) :
    refPath h parentDir kind ref = Ok p ->
    absentFile h p ->
    referenced h stack parentDir kind ref None
| ReferenceBuilt (p : string) (r : Datatypes.option tnode) :
    refPath h parentDir kind ref = Ok p ->
    buildTree h stack p kind = Ok r ->
    referenced h stack parentDir kind ref r.

(** The container a sequential makes of a built vertical. *)
Definition containerOf (ref : value) (v : tnode) : tnode :=
  {| type := "vertical-container";
     display_name := display_name v;
     file := None;
     children := children v;
     verticals := None; problems := None;
     url_name := prop ref "url_name";
     problemData := VUndef;
     videoData := VUndef |}.

(** The containers of the references that gave a vertical, in order. *)
Fixpoint containers (refs : list value) (rs : list (Datatypes.option tnode))
  : list tnode :=
  match refs, rs with
  | ref :: refs', Some v :: rs' => containerOf ref v :: containers refs' rs'
  | _ :: refs', None :: rs' => containers refs' rs'
  | _, _ => []
  end.

(** The [about] node a course starts with when the overview exists. *)
Definition aboutFirst (h : Host) (parentDir : string) : list tnode :=
  let overviewPath := join h [parentDir; "about"; "overview.html"] in
  if existsSync h overviewPath
  then [inner "about" (VStr "About") None
          [leaf "htmlContent" (VStr "Course Overview") overviewPath]]
  else [].

(* ------------------------------------------------------------------ *)
(** ** Auxiliary facts *)

Lemma append_assoc (a b c : string) : (a ++ b) ++ c = a ++ (b ++ c).
Proof.
  induction a as [|x a IH]; simpl; [reflexivity | now rewrite IH].
Qed.

Lemma append_nil_r (a : string) : a ++ EmptyString = a.
Proof.
  induction a as [|x a IH]; simpl; [reflexivity | now rewrite IH].
Qed.

Lemma correctFlag_true (r : value) :
  trueRepr r -> xmlhandlers.correctFlag r = true.
Proof.
  intros [|s Hs]; simpl; [reflexivity|].
  rewrite Hs. reflexivity.
Qed.

Lemma correctFlag_false (r : value) :
  falseRepr r -> xmlhandlers.correctFlag r = false.
Proof.
  intros [|s Hs|]; simpl; try reflexivity.
  rewrite Hs. reflexivity.
Qed.

Lemma trimmedText_string (x : value) (s : string) :
  getProp x "#text" = Ok (VStr s) -> xmlhandlers.trimmedText x = Ok (trim s).
Proof.
  intros H. unfold xmlhandlers.trimmedText. rewrite H. reflexivity.
Qed.

(* ------------------------------------------------------------------ *)
(** ** Choice groups and checkbox groups *)

Section TwoChoices.

Variables (node cA cB rA rB : value) (A B : string).
Hypothesis Hchoices : getProp node "choice" = Ok (VArr [cA; cB]).
Hypothesis HcorrectA : getProp cA "correct" = Ok rA.
Hypothesis HtextA : getProp cA "#text" = Ok (VStr A).
Hypothesis HcorrectB : getProp cB "correct" = Ok rB.
Hypothesis HtextB : getProp cB "#text" = Ok (VStr B).
Hypothesis HrA : trueRepr rA.
Hypothesis HrB : falseRepr rB.

Lemma choicegroup_two (transform : value -> Z -> res value) (depth : Z) :
  xmlhandlers.choicegroup node transform depth
  = Ok (VStr (twoLines "[(x)]" "[( )]" A B)).
Proof.
  unfold xmlhandlers.choicegroup. rewrite Hchoices.
  cbn [bind ensureArray truthy forEach fold_left].
  rewrite HcorrectA. cbn [bind].
  rewrite (trimmedText_string _ _ HtextA). cbn [bind].
  rewrite (correctFlag_true _ HrA).
  rewrite HcorrectB. cbn [bind].
  rewrite (trimmedText_string _ _ HtextB). cbn [bind].
  rewrite (correctFlag_false _ HrB).
  unfold twoLines. rewrite !append_assoc. reflexivity.
Qed.

Lemma checkboxgroup_two (transform : value -> Z -> res value) (depth : Z) :
  xmlhandlers.checkboxgroup node transform depth
  = Ok (VStr (twoLines "[[x]]" "[[ ]]" A B)).
Proof.
  unfold xmlhandlers.checkboxgroup. rewrite Hchoices.
  cbn [bind ensureArray truthy forEach fold_left].
  rewrite HcorrectA. cbn [bind].
  rewrite (trimmedText_string _ _ HtextA). cbn [bind].
  rewrite (correctFlag_true _ HrA).
  rewrite HcorrectB. cbn [bind].
  rewrite (trimmedText_string _ _ HtextB). cbn [bind].
  rewrite (correctFlag_false _ HrB).
  unfold twoLines. rewrite !append_assoc. reflexivity.
Qed.

End TwoChoices.

(* ------------------------------------------------------------------ *)
(** ** White space and [trim] *)

Lemma ws_ascii (c : ascii) :
  is_ws c = true ->
  forall a b, wide2 a c = false /\ wide3 a b c = false.
Proof.
  intros W a b. unfold wide2, wide3.
  destruct c as [[] [] [] [] [] [] [] []]; try discriminate W;
    cbn [Ascii.eqb Bool.eqb nat_of_ascii Nat.leb andb orb];
    rewrite ?andb_false_r; split; reflexivity.
Qed.

Lemma string_length_ind (P : string -> Prop) :
  (forall s, (forall t, (String.length t < String.length s)%nat -> P t) -> P s) ->
  forall s, P s.
Proof.
  intros H s.
  assert (G : forall n t, (String.length t < n)%nat -> P t).
  { induction n as [|n IH]; intros t L; [lia|].
    apply H. intros u Lu. apply IH. lia. }
  apply (G (S (String.length s))). lia.
Qed.

Lemma trimEnd_nil (s : string) : trimEnd s = EmptyString -> blank s = true.
Proof.
  destruct s as [|a r]; [reflexivity|]. cbn [trimEnd].
  destruct (blank (String a r)); [reflexivity | discriminate].
Qed.

Lemma trimEnd_blank (s : string) : blank s = true -> trimEnd s = EmptyString.
Proof.
  destruct s as [|a r]; [reflexivity|]. cbn [trimEnd]. intros ->. reflexivity.
Qed.

Lemma trimEnd_cons (a : ascii) (r : string) :
  blank (String a r) = false ->
  trimEnd (String a r) = String a (trimEnd r).
Proof. cbn [trimEnd]. intros ->. reflexivity. Qed.

Lemma trimEnd_length (s : string) :
  (String.length (trimEnd s) <= String.length s)%nat.
Proof.
  induction s as [|a r IH]; cbn [trimEnd]; [lia|].
  destruct (blank (String a r)); cbn [String.length]; lia.
Qed.

(** What [trimEnd] leaves is empty or is not white space only. *)
Lemma trimEnd_not_blank (s : string) :
  blank s = false -> blank (trimEnd s) = false.
Proof.
  induction s as [s IH] using string_length_ind. intros B.
  destruct s as [|a r]; [discriminate B|].
  rewrite (trimEnd_cons a r B).
  cbn [blank] in B |- *.
  destruct (is_ws a).
  { apply IH; [cbn [String.length]; lia | exact B]. }
  destruct (lead2 a).
  { destruct r as [|b r2]; [reflexivity|].
    cbn [trimEnd]. destruct (blank (String b r2)); [reflexivity|].
    destruct (wide2 a b); [|reflexivity]. cbn [andb] in B |- *.
    apply IH; [cbn [String.length]; lia | exact B]. }
  destruct (lead3 a); [|reflexivity].
  destruct r as [|b [|c r3]]; [reflexivity| |].
  { cbn [trimEnd]. destruct (blank (String b EmptyString)); reflexivity. }
  cbn [trimEnd].
  destruct (blank (String b (String c r3))); [reflexivity|].
  destruct (blank (String c r3)); [reflexivity|].
  destruct (wide3 a b c); [|reflexivity]. cbn [andb] in B |- *.
  apply IH; [cbn [String.length]; lia | exact B].
Qed.

Lemma trimEnd_idem (s : string) : trimEnd (trimEnd s) = trimEnd s.
Proof.
  induction s as [|a r IH]; [reflexivity|].
  destruct (blank (String a r)) eqn:B.
  - rewrite (trimEnd_blank _ B). reflexivity.
  - pose proof (trimEnd_not_blank _ B) as N.
    rewrite (trimEnd_cons a r B) in N |- *.
    rewrite (trimEnd_cons _ _ N), IH. reflexivity.
Qed.

(** An ASCII white-space character at the end does not count. *)
Lemma blank_app_ws (c : ascii) (u : string) :
  is_ws c = true -> blank (u ++ String c EmptyString) = blank u.
Proof.
  intros W. induction u as [u IH] using string_length_ind.
  destruct u as [|a r]; cbn [append blank].
  { rewrite W. reflexivity. }
  destruct (is_ws a).
  { apply IH. cbn [String.length]. lia. }
  destruct (lead2 a).
  { destruct r as [|b r2]; cbn [append].
    - rewrite (proj1 (ws_ascii c W a a)). reflexivity.
    - rewrite IH; [reflexivity | cbn [String.length]; lia]. }
  destruct (lead3 a); [|reflexivity].
  destruct r as [|b [|b2 r3]]; cbn [append]; [reflexivity| |].
  - rewrite (proj2 (ws_ascii c W a b)). reflexivity.
  - rewrite IH; [reflexivity | cbn [String.length]; lia].
Qed.

Lemma trimEnd_app_ws (c : ascii) (u : string) :
  is_ws c = true -> trimEnd (u ++ String c EmptyString) = trimEnd u.
Proof.
  intros W. induction u as [|a r IH]; cbn [append].
  - apply trimEnd_blank. apply (blank_app_ws c EmptyString W).
  - cbn [trimEnd].
    change (String a (r ++ String c EmptyString))
      with (String a r ++ String c EmptyString).
    rewrite (blank_app_ws c (String a r) W), IH. reflexivity.
Qed.

Lemma trimEnd_line_break (a : string) : trimEnd (a ++ nl) = trimEnd a.
Proof. apply (trimEnd_app_ws "010"%char a). reflexivity. Qed.

Lemma length_append (a b : string) :
  String.length (a ++ b) = (String.length a + String.length b)%nat.
Proof. induction a as [|x a IH]; cbn [append String.length]; [reflexivity|]. rewrite IH. reflexivity. Qed.

(** A trimmed text does not end with an ASCII white-space character. *)
Lemma trimEnd_no_final_ws (s r : string) (c : ascii) :
  is_ws c = true -> trimEnd s <> r ++ String c EmptyString.
Proof.
  intros W E.
  pose proof (trimEnd_idem s) as I. rewrite E in I.
  rewrite (trimEnd_app_ws c r W) in I.
  pose proof (trimEnd_length r) as L. rewrite I, length_append in L.
  cbn [String.length] in L. lia.
Qed.

Lemma chars_append (a b : string) :
  list_ascii_of_string (a ++ b)
  = (list_ascii_of_string a ++ list_ascii_of_string b)%list.
Proof.
  induction a as [|x a IH]; simpl; [reflexivity | now rewrite IH].
Qed.

Lemma trimEnd_last (s : string) (l : list ascii) (c : ascii) :
  list_ascii_of_string (trimEnd s) = (l ++ [c])%list -> is_ws c = false.
Proof.
  intros H. destruct (is_ws c) eqn:W; [|reflexivity].
  exfalso. apply (trimEnd_no_final_ws s (string_of_list_ascii l) c W).
  rewrite <- (string_of_list_ascii_of_string (trimEnd s)), H.
  clear H. induction l as [|x l IH]; cbn [app string_of_list_ascii append];
    [reflexivity|]. rewrite IH. reflexivity.
Qed.

(** Nothing before a dash makes it white space. *)
Lemma wide_dash (a b : ascii) :
  wide2 a "-" = false /\ wide3 a "-" b = false /\ wide3 a b "-" = false.
Proof.
  unfold wide2, wide3.
  cbn [Ascii.eqb Bool.eqb nat_of_ascii Nat.leb andb orb].
  rewrite ?andb_false_r. cbn [orb]. rewrite ?andb_false_r. auto.
Qed.

Lemma blank_before_dash (v r : string) :
  blank (v ++ String "-" r) = false.
Proof.
  induction v as [v IH] using string_length_ind.
  destruct v as [|a v1]; cbn [append]; [reflexivity|].
  cbn [blank].
  destruct (is_ws a).
  { apply IH. cbn [String.length]. lia. }
  destruct (lead2 a).
  { destruct v1 as [|b v2]; cbn [append].
    - rewrite (proj1 (wide_dash a a)). reflexivity.
    - rewrite IH; [apply andb_false_r | cbn [String.length]; lia]. }
  destruct (lead3 a); [|reflexivity].
  destruct v1 as [|b [|c v3]]; cbn [append].
  - destruct r as [|c r]; [reflexivity|].
    rewrite (proj1 (proj2 (wide_dash a c))). reflexivity.
  - rewrite (proj2 (proj2 (wide_dash a b))). reflexivity.
  - rewrite IH; [apply andb_false_r | cbn [String.length]; lia].
Qed.

Lemma trimEnd_before_dash (v r : string) :
  trimEnd (v ++ String "-" r) = v ++ trimEnd (String "-" r).
Proof.
  induction v as [|a v IH]; cbn [append]; [reflexivity|].
  rewrite trimEnd_cons, IH; [reflexivity|].
  apply (blank_before_dash (String a v) r).
Qed.

Lemma trimEnd_dash (r : string) :
  trimEnd (String "-" r) = String "-" (trimEnd r).
Proof. reflexivity. Qed.

Lemma trimEnd_space (r : string) :
  blank r = false -> trimEnd (String " " r) = String " " (trimEnd r).
Proof. intros B. apply trimEnd_cons. exact B. Qed.

(** A choice line ends its rendering without a blank line: the text is
    trimmed and a space precedes it. *)
Lemma line_not_blank (p t : string) :
  ~ endsWithBlankLine (p ++ " " ++ trim t ++ nl).
Proof.
  intros [s' H].
  apply (f_equal list_ascii_of_string) in H.
  rewrite !chars_append in H. simpl in H.
  change ["010"%char; "010"%char] with (["010"%char] ++ ["010"%char])%list in H.
  change (" "%char :: (list_ascii_of_string (trim t) ++ ["010"%char])%list)
    with ((" "%char :: list_ascii_of_string (trim t)) ++ ["010"%char])%list in H.
  rewrite !app_assoc in H.
  apply app_inj_tail in H as [H _].
  destruct (list_ascii_of_string (trim t)) as [|c0 l0] eqn:E
    using rev_ind.
  - apply app_inj_tail in H as [_ H]. discriminate.
  - rewrite app_comm_cons, app_assoc in H.
    apply app_inj_tail in H as [_ H]. subst c0.
    pose proof (trimEnd_last _ _ _ E) as W. discriminate.
Qed.

Lemma twoLines_not_blank (yes no A B : string) :
  ~ endsWithBlankLine (twoLines yes no A B).
Proof.
  intros H.
  apply (line_not_blank
           (nl ++ nl ++ "- " ++ yes ++ " " ++ trim A ++ nl ++ "- " ++ no) B).
  unfold twoLines in H. rewrite !append_assoc. exact H.
Qed.







(* ------------------------------------------------------------------ *)
(** ** The course-tree renderer *)

Lemma repeatStr_length (n : nat) : String.length (repeatStr "#" n) = n.
Proof.
  induction n as [|n IH]; simpl; [reflexivity | now rewrite IH].
Qed.

(** C3 (as amended).  A [vertical] or [html] node renders as the
    concatenation of its children rendered at the node's own depth, with
    no heading.  A [vertical-container] node has no handler of its own:
    the fallback renders it, also without a heading, with its children
    one level deeper. *)
Theorem containers_render_children
  (h : Host) (xmlStack stack : nat) (node : tnode) (depth : Z) :
  In (type node) ["vertical"; "html"; "vertical-container"] ->
  treeToMarkdown h xmlStack (S stack) node depth
  = markdownHandlers.renderAll (treeToMarkdown h xmlStack stack)
      (children node)
      (if type node =? "vertical-container" then (depth + 1)%Z else depth).
Proof.
  intros [H|[H|[H|[]]]]; unfold treeToMarkdown; simpl makeTransformer;
    rewrite <- H; reflexivity.
Qed.

Lemma containers_render_children_witness :
  treeToMarkdown Samples.host 1 2 Samples.verticalOfChapter 0
  = markdownHandlers.renderAll (treeToMarkdown Samples.host 1 1)
      (children Samples.verticalOfChapter) 0%Z.
Proof.
  apply (containers_render_children Samples.host 1 1
           Samples.verticalOfChapter 0).
  simpl. left. reflexivity.
Defined.

(** C3 as stated fails for [vertical-container]: the table has no entry
    for it, the fallback hands its children the depth 1 when it is
    rendered at depth 0, and so its chapter child gets a second-level
    heading, while the same child rendered at the container's own depth
    gets a first-level one. *)
Lemma container_same_depth_refuted :
  lookup "vertical-container" (markdownHandlers.table Samples.host 1) = None /\
  markdownHandlers.default Samples.container
    (fun _ d => Ok (if (d =? 1)%Z then "depth 1" else "another depth")) 0%Z
  = Ok "depth 1" /\
  treeToMarkdown Samples.host 1 2 Samples.container 0
  = Ok ("## Y" ++ nl ++ nl) /\
  markdownHandlers.renderAll (treeToMarkdown Samples.host 1 1)
    (children Samples.container) 0%Z
  = Ok ("# Y" ++ nl ++ nl) /\
  treeToMarkdown Samples.host 1 2 Samples.container 0
  <> markdownHandlers.renderAll (treeToMarkdown Samples.host 1 1)
       (children Samples.container) 0%Z.
Proof.
  split; [reflexivity|]. split; [reflexivity|].
  split; [reflexivity|]. split; [reflexivity|]. discriminate.
Qed.

Lemma repeat_level (depth : Z) :
  (0 <= depth)%Z ->
  markdownHandlers.repeat "#" (Z.min (depth + 1) 6)
  = Ok (repeatStr "#" (Z.to_nat (Z.min (depth + 1) 6))).
Proof.
  intros Hd. unfold markdownHandlers.repeat.
  replace (Z.min (depth + 1) 6 <? 0)%Z with false
    by (symmetry; apply Z.ltb_ge; lia).
  reflexivity.
Qed.

Ltac heading_step :=
  match goal with
  | |- context [bind ?m _] =>
      match m with
      | markdownHandlers.renderAll _ _ _ =>
          destruct m; cbn [bind]; [|reflexivity]
      end
  end.

Lemma headingName_title (h : Host) (node : tnode) (name : string) :
  headingName h node name -> markdownHandlers.title h node = Ok name.
Proof.
  intros [Ht|f Ht Hf]; unfold markdownHandlers.title; rewrite Ht.
  - reflexivity.
  - rewrite Hf. reflexivity.
Qed.

Section Headings.

Variables (h : Host) (node : tnode) (transform : tnode -> Z -> res string).
Variables (depth : Z) (name : string).
Hypothesis Hdepth : (0 <= depth)%Z.

Lemma about_heading :
  name = toStr (display_name node) ->
  markdownHandlers.about node transform depth
  = (body <- headingBody "about" transform node (depth + 1) ;;
     Ok ((repeatStr "#" (Z.to_nat (Z.min (depth + 1) 6))
        ++ " " ++ name ++ nl ++ nl) ++ body)).
Proof.
  intros ->. unfold markdownHandlers.about, headingBody.
  change ("about" =? "sequential") with false. cbv iota.
  rewrite (repeat_level depth Hdepth). cbn [bind].
  heading_step. rewrite !append_assoc. reflexivity.
Qed.

Hypothesis Hname : markdownHandlers.title h node = Ok name.

Lemma course_heading :
  markdownHandlers.course h node transform depth
  = (body <- headingBody "course" transform node (depth + 1) ;;
     Ok ((repeatStr "#" (Z.to_nat (Z.min (depth + 1) 6))
        ++ " " ++ name ++ nl ++ nl) ++ body)).
Proof.
  unfold markdownHandlers.course, headingBody.
  change ("course" =? "sequential") with false. cbv iota.
  rewrite (repeat_level depth Hdepth). cbn [bind]. rewrite Hname. cbn [bind].
  heading_step. rewrite !append_assoc. reflexivity.
Qed.

Lemma chapter_heading :
  markdownHandlers.chapter h node transform depth
  = (body <- headingBody "chapter" transform node (depth + 1) ;;
     Ok ((repeatStr "#" (Z.to_nat (Z.min (depth + 1) 6))
        ++ " " ++ name ++ nl ++ nl) ++ body)).
Proof.
  unfold markdownHandlers.chapter, headingBody.
  change ("chapter" =? "sequential") with false. cbv iota.
  rewrite (repeat_level depth Hdepth). cbn [bind]. rewrite Hname. cbn [bind].
  heading_step. rewrite !append_assoc. reflexivity.
Qed.

Lemma sequential_heading :
  markdownHandlers.sequential h node transform depth
  = (body <- headingBody "sequential" transform node (depth + 1) ;;
     Ok ((repeatStr "#" (Z.to_nat (Z.min (depth + 1) 6))
        ++ " " ++ name ++ nl ++ nl) ++ body)).
Proof.
  unfold markdownHandlers.sequential, headingBody.
  change ("sequential" =? "sequential") with true. cbv iota.
  rewrite (repeat_level depth Hdepth). cbn [bind]. rewrite Hname. cbn [bind].
  repeat heading_step. rewrite !append_assoc. reflexivity.
Qed.

End Headings.

(** C8 (as amended).  A [course], [chapter] or [sequential] node rendered
    at a depth [d >= 0] starts with a heading of exactly [min (d+1, 6)]
    hashes, between one and six, followed by its display name, or by
    the base name of its file when it has no display name; an [about]
    node has the same heading with its display name printed as it is,
    without that fallback.  In the four cases what the node holds is
    rendered below the heading at depth [d+1]. *)
Theorem heading_level_clamped
  (h : Host) (xmlStack stack : nat) (node : tnode) (depth : Z)
  (name : string) :
  (0 <= depth)%Z ->
  (type node = "about" /\ name = toStr (display_name node)) \/
  (In (type node) ["course"; "chapter"; "sequential"] /\
   headingName h node name) ->
  let hashes := repeatStr "#" (Z.to_nat (Z.min (depth + 1) 6)) in
  Z.of_nat (String.length hashes) = Z.min (depth + 1) 6 /\
  (1 <= String.length hashes <= 6)%nat /\
  treeToMarkdown h xmlStack (S stack) node depth
  = (body <- headingBody (type node) (treeToMarkdown h xmlStack stack)
               node (depth + 1) ;;
     Ok (hashes ++ " " ++ name ++ nl ++ nl ++ body)).
Proof.
  intros Hd H hashes. unfold hashes. rewrite repeatStr_length.
  split; [lia|]. split; [lia|].
  unfold treeToMarkdown. simpl makeTransformer.
  destruct H as [[Ht Hn]|[[Ht|[Ht|[Ht|[]]]] Hn]].
  - rewrite Ht. cbn [lookup String.eqb Ascii.eqb Bool.eqb].
    rewrite (about_heading node _ depth name Hd Hn).
    destruct (headingBody _ _ _ _); cbn [bind]; [|reflexivity].
    rewrite !append_assoc. reflexivity.
  - rewrite <- Ht. cbn [lookup String.eqb Ascii.eqb Bool.eqb].
    rewrite (course_heading h node _ depth name Hd (headingName_title _ _ _ Hn)).
    destruct (headingBody _ _ _ _); cbn [bind]; [|reflexivity].
    rewrite !append_assoc. reflexivity.
  - rewrite <- Ht. cbn [lookup String.eqb Ascii.eqb Bool.eqb].
    rewrite (chapter_heading h node _ depth name Hd (headingName_title _ _ _ Hn)).
    destruct (headingBody _ _ _ _); cbn [bind]; [|reflexivity].
    rewrite !append_assoc. reflexivity.
  - rewrite <- Ht. cbn [lookup String.eqb Ascii.eqb Bool.eqb].
    rewrite (sequential_heading h node _ depth name Hd (headingName_title _ _ _ Hn)).
    destruct (headingBody _ _ _ _); cbn [bind]; [|reflexivity].
    rewrite !append_assoc. reflexivity.
Qed.

Lemma heading_level_clamped_witness :
  let hashes := repeatStr "#" (Z.to_nat (Z.min (7 + 1) 6)) in
  Z.of_nat (String.length hashes) = Z.min (7 + 1) 6 /\
  (1 <= String.length hashes <= 6)%nat /\
  treeToMarkdown Samples.host 1 2 Samples.namelessCourse 7
  = (body <- headingBody (type Samples.namelessCourse)
               (treeToMarkdown Samples.host 1 1)
               Samples.namelessCourse (7 + 1) ;;
     Ok (hashes ++ " " ++ "course.xml" ++ nl ++ nl ++ body)).
Proof.
  apply (heading_level_clamped Samples.host 1 1 Samples.namelessCourse 7
           "course.xml").
  - lia.
  - right. split.
    + simpl. left. reflexivity.
    + exact (NameOfFile Samples.host Samples.namelessCourse
               "c/course/course.xml" eq_refl eq_refl).
Defined.

(** C8 as stated fails for [about]: without a display name its heading
    does not show the base name of the file. *)
Lemma about_basename_fallback_refuted :
  headingName Samples.host Samples.namelessAbout "about.xml" /\
  treeToMarkdown Samples.host 1 2 Samples.namelessAbout 0
  = Ok ("# undefined" ++ nl ++ nl) /\
  treeToMarkdown Samples.host 1 2 Samples.namelessAbout 0
  <> Ok ("# about.xml" ++ nl ++ nl).
Proof.
  split.
  - exact (NameOfFile Samples.host Samples.namelessAbout
             "c/about/about.xml" eq_refl eq_refl).
  - split; [reflexivity | discriminate].
Qed.

(* ------------------------------------------------------------------ *)
(** ** Reading files from the renderer *)

Lemma readFileContent_found (h : Host) (stack : nat) (filePath type : string) :
  existsSync h filePath = true ->
  fst (readFileContent_at h stack filePath type) <> FileNotFound.
Proof.
  intros E. unfold readFileContent_at. rewrite E. cbn [negb].
  repeat match goal with
         | |- context [if ?c then _ else _] => destruct c
         | |- context [match ?m with Ok _ => _ | Throw _ => _ end] => destruct m
         end; cbn [fst]; discriminate.
Qed.

Lemma guarded_read (h : Host) (stack : nat) (f ty : string) (b : branch)
  (v : value) :
  (if negb (f =? EmptyString) && existsSync h f
   then Some (readFileContent_at h stack f ty) else None) = Some (b, v) ->
  b <> FileNotFound.
Proof.
  destruct (negb (f =? EmptyString)); cbn [andb]; [|discriminate].
  destruct (existsSync h f) eqn:E; [|discriminate].
  intros H. injection H as H.
  pose proof (readFileContent_found h stack f ty E) as N.
  rewrite H in N. exact N.
Qed.

(** C9.  Whenever the [problem] or the [htmlContent] handler calls
    [readFileContent], the call does not return through its "File not
    found" branch; and a [problem] node whose file is missing renders its
    children followed by the separator, nothing else. *)
Theorem file_not_found_unreachable
  (h : Host) (xmlStack stack : nat) (node : tnode) (depth : Z) :
  (forall (b : branch) (v : value),
      markdownHandlers.problem_read h xmlStack node = Some (b, v) \/
      markdownHandlers.htmlContent_read h xmlStack node = Some (b, v) ->
      b <> FileNotFound) /\
  (forall f : string,
      type node = "problem" ->
      file node = Some f ->
      existsSync h f = false ->
      treeToMarkdown h xmlStack (S stack) node depth
      = (body <- markdownHandlers.renderAll (treeToMarkdown h xmlStack stack)
                   (children node) depth ;;
         Ok (body ++ markdownHandlers.separator))).
Proof.
  split.
  - intros b v [H|H].
    + unfold markdownHandlers.problem_read in H.
      destruct (file node) as [f|]; [|discriminate].
      exact (guarded_read _ _ _ _ _ _ H).
    + unfold markdownHandlers.htmlContent_read in H.
      destruct (file node) as [f|]; [|discriminate].
      exact (guarded_read _ _ _ _ _ _ H).
  - intros f Ht Hf He.
    unfold treeToMarkdown. simpl makeTransformer. rewrite Ht.
    cbn [lookup String.eqb Ascii.eqb Bool.eqb].
    unfold markdownHandlers.problem, markdownHandlers.problem_read.
    rewrite Hf, He, andb_false_r. reflexivity.
Qed.

Lemma file_not_found_unreachable_witness :
  (exists (b : branch) (v : value),
      markdownHandlers.htmlContent_read Samples.host 1
        (leaf "htmlContent" (VStr "Text") "c/html/h1.html") = Some (b, v) /\
      b <> FileNotFound) /\
  treeToMarkdown Samples.host 1 2 Samples.lostProblem 0
  = Ok markdownHandlers.separator.
Proof.
  split.
  - exists HtmlTranslated, (VStr ("Hello" ++ nl ++ nl)).
    split; [reflexivity|].
    apply (proj1 (file_not_found_unreachable Samples.host 1 1
                    (leaf "htmlContent" (VStr "Text") "c/html/h1.html") 0)
             HtmlTranslated (VStr ("Hello" ++ nl ++ nl))).
    right. reflexivity.
  - apply (proj2 (file_not_found_unreachable Samples.host 1 1
                    Samples.lostProblem 0) "c/problem/lost.xml").
    + reflexivity.
    + reflexivity.
    + reflexivity.
Defined.

(* ------------------------------------------------------------------ *)
(** ** The fallback of the quiz renderer *)

Lemma trim_empty_content (content : string) :
  trim content <> EmptyString -> content <> EmptyString.
Proof.
  intros H E. apply H. rewrite E. reflexivity.
Qed.

Lemma truthy_unsupported (tagName : string) :
  truthy (VStr (xmlhandlers.unsupported tagName)) = true.
Proof. reflexivity. Qed.

Lemma tagNameOf_tagged (v : value) (key : string) :
  key <> EmptyString ->
  xmlhandlers.tagNameOf (xmlhandlers.tagged v key key) = VStr key.
Proof.
  intros Hk. unfold xmlhandlers.tagNameOf, xmlhandlers.tagged.
  cbn [spread].
  assert (L : forall o k x, lookup k (setProp o k x) = Some x).
  { intros o k x. induction o as [|[k' v'] o IH]; cbn [setProp lookup].
    - rewrite String.eqb_refl. reflexivity.
    - destruct (k =? k') eqn:E; cbn [lookup].
      + rewrite String.eqb_refl. reflexivity.
      + rewrite E. exact IH. }
  rewrite L. cbn [truthy].
  destruct (key =? EmptyString) eqn:E.
  - apply String.eqb_eq in E. contradiction.
  - reflexivity.
Qed.



(* ------------------------------------------------------------------ *)
(** ** Answers of string and numerical responses *)

Lemma forEach_ok {A : Type} (l : list A) (f : A -> string -> res string) :
  (forall a c, In a l -> exists c', f a c = Ok c') ->
  forall c, exists c', forEach l f c = Ok c'.
Proof.
  unfold forEach. induction l as [|a l IH]; intros Hf c; cbn [fold_left].
  - exists c. reflexivity.
  - destruct (Hf a c (or_introl eq_refl)) as [c1 H1]. cbn [bind].
    rewrite H1. apply IH. intros a' c' Hin. apply Hf. right. exact Hin.
Qed.

Lemma appendValue_ok (transform : value -> Z -> res value) (key : string)
  (v : value) (depth : Z) (content : string) :
  (forall c, In c (childNodesAt key v) -> exists r, transform c depth = Ok r) ->
  exists c', xmlhandlers.appendValue transform key v depth content = Ok c'.
Proof.
  intros Ht. destruct v; cbn [xmlhandlers.appendValue]; eauto.
  - apply forEach_ok. intros child c Hin.
    destruct (Ht (xmlhandlers.childNode key child)) as [r Hr].
    { cbn [childNodesAt]. apply in_map. exact Hin. }
    rewrite Hr. cbn [bind]. eauto.
  - destruct (Ht (xmlhandlers.tagged (VObj o) key key)) as [r Hr].
    { cbn [childNodesAt In]. left. reflexivity. }
    rewrite Hr. cbn [bind]. eauto.
Qed.

Lemma lookup_in_keys {A : Type} (k : string) (o : list (string * A)) :
  In k (map fst o) -> exists x, lookup k o = Some x /\ In (k, x) o.
Proof.
  induction o as [|[k' x] o IH]; cbn [map fst In lookup]; [tauto|].
  intros H. destruct (k =? k') eqn:E.
  - apply String.eqb_eq in E. subst k'. exists x. split; [reflexivity|].
    left. reflexivity.
  - destruct H as [H|H].
    + subst k'. rewrite String.eqb_refl in E. discriminate.
    + destruct (IH H) as [y [Hy Hin]]. exists y. split; [exact Hy|].
      right. exact Hin.
Qed.

Lemma response_step_ok (node : value) (name key : string)
  (transform : value -> Z -> res value) (depth : Z) (content : string) :
  truthy node = true ->
  readableParagraph node ->
  rendersChildren transform node depth ->
  In key (map fst (spread node)) ->
  exists c',
    (value <- getProp node key ;;
     if xmlhandlers.isOwnName name value then Ok content
     else
       skip <- (if key =? "p" then xmlhandlers.skipParagraph value
                else Ok false) ;;
       if skip then Ok content
       else xmlhandlers.appendValue transform key value depth content)
    = Ok c'.
Proof.
  intros Hn Hp Ht Hk.
  destruct (lookup_in_keys key (spread node) Hk) as [x [Hx Hin]].
  assert (G : getProp node key = Ok x).
  { unfold getProp. rewrite Hx. destruct node; try reflexivity; discriminate. }
  assert (R : forall c, In c (childNodesAt key x) ->
                        exists r, transform c depth = Ok r).
  { intros c Hc. apply Ht. unfold childNodes. apply in_flat_map.
    exists (key, x). split; [exact Hin | exact Hc]. }
  rewrite G. cbn [bind].
  destruct (xmlhandlers.isOwnName name x); [eauto|].
  destruct (key =? "p") eqn:E.
  - apply String.eqb_eq in E. subst key.
    destruct (Hp x Hx) as [b Hb]. rewrite Hb. cbn [bind].
    destruct b; [eauto|]. apply appendValue_ok. exact R.
  - cbn [bind]. apply appendValue_ok. exact R.
Qed.

Lemma keys_truthy (node : value) :
  truthy node = true -> keys node = Ok (map fst (spread node)).
Proof.
  destruct node; try reflexivity; discriminate.
Qed.

Lemma stringresponse_content_ok (node : value)
  (transform : value -> Z -> res value) (depth : Z) :
  truthy node = true ->
  readableParagraph node ->
  rendersChildren transform node depth ->
  exists c, xmlhandlers.stringresponse_content node transform depth = Ok c.
Proof.
  intros Hn Hp Ht. unfold xmlhandlers.stringresponse_content.
  rewrite (keys_truthy node Hn). cbn [bind].
  apply forEach_ok. intros key c Hk.
  destruct (negb (key =? "#text") && negb (key =? "answer")
            && negb (key =? "type") && negb (key =? "additional_answer"));
    [|eauto].
  apply response_step_ok; assumption.
Qed.

Lemma numericalresponse_content_ok (node : value)
  (transform : value -> Z -> res value) (depth : Z) :
  truthy node = true ->
  readableParagraph node ->
  rendersChildren transform node depth ->
  exists c, xmlhandlers.numericalresponse_content node transform depth = Ok c.
Proof.
  intros Hn Hp Ht. unfold xmlhandlers.numericalresponse_content.
  rewrite (keys_truthy node Hn). cbn [bind].
  apply forEach_ok. intros key c Hk.
  destruct (negb (key =? "#text") && negb (key =? "answer")); [|eauto].
  apply response_step_ok; assumption.
Qed.

(** C10 (as amended).  A [stringresponse] or [numericalresponse] node
    without an [answer] renders its trimmed prompt followed by a blank
    line and the empty placeholder line [[[]]]: the missing answer is the
    empty string.  The rendering fails only if the rendering of the
    prompt does; it succeeds whenever the children render and a
    paragraph child, if any, has a readable text (a string, or none). *)
Theorem absent_answer_renders_empty_placeholder
  (node : value) (transform : value -> Z -> res value) (depth : Z) :
  truthy node = true ->
  getProp node "answer" = Ok VUndef ->
  xmlhandlers.stringresponse node transform depth
  = (content <- xmlhandlers.stringresponse_content node transform depth ;;
     Ok (VStr (trim content ++ nl ++ nl ++ "[[]]" ++ nl))) /\
  xmlhandlers.numericalresponse node transform depth
  = (content <- xmlhandlers.numericalresponse_content node transform depth ;;
     Ok (VStr (trim content ++ nl ++ nl ++ "[[]]" ++ nl))) /\
  (readableParagraph node ->
   rendersChildren transform node depth ->
   exists prompt1 prompt2 : string,
     xmlhandlers.stringresponse node transform depth
     = Ok (VStr (trim prompt1 ++ nl ++ nl ++ "[[]]" ++ nl)) /\
     xmlhandlers.numericalresponse node transform depth
     = Ok (VStr (trim prompt2 ++ nl ++ nl ++ "[[]]" ++ nl))).
Proof.
  intros Hn Ha.
  assert (S1 : xmlhandlers.stringresponse node transform depth
    = (content <- xmlhandlers.stringresponse_content node transform depth ;;
       Ok (VStr (trim content ++ nl ++ nl ++ "[[]]" ++ nl)))).
  { unfold xmlhandlers.stringresponse, xmlhandlers.answerText.
    rewrite Ha. reflexivity. }
  assert (S2 : xmlhandlers.numericalresponse node transform depth
    = (content <- xmlhandlers.numericalresponse_content node transform depth ;;
       Ok (VStr (trim content ++ nl ++ nl ++ "[[]]" ++ nl)))).
  { unfold xmlhandlers.numericalresponse, xmlhandlers.answerText.
    rewrite Ha. reflexivity. }
  split; [exact S1|]. split; [exact S2|].
  intros Hp Ht.
  destruct (stringresponse_content_ok node transform depth Hn Hp Ht) as [c1 H1].
  destruct (numericalresponse_content_ok node transform depth Hn Hp Ht)
    as [c2 H2].
  exists c1, c2. rewrite S1, S2, H1, H2. split; reflexivity.
Qed.

Lemma absent_answer_renders_empty_placeholder_witness :
  xmlhandlers.stringresponse (MoreSamples.promptedNoAnswer "stringresponse")
    (xmlToMarkdown 2) 0%Z
  = Ok (VStr ("How many? Count them" ++ nl ++ nl ++ "[[]]" ++ nl)) /\
  xmlhandlers.numericalresponse
    (MoreSamples.promptedNoAnswer "numericalresponse") (xmlToMarkdown 2) 0%Z
  = Ok (VStr ("How many? Count them" ++ nl ++ nl ++ "[[]]" ++ nl)) /\
  (exists prompt1 prompt2 : string,
     xmlhandlers.stringresponse
       (MoreSamples.promptedNoAnswer "numericalresponse")
       (xmlToMarkdown 2) 0%Z
     = Ok (VStr (trim prompt1 ++ nl ++ nl ++ "[[]]" ++ nl)) /\
     xmlhandlers.numericalresponse
       (MoreSamples.promptedNoAnswer "numericalresponse")
       (xmlToMarkdown 2) 0%Z
     = Ok (VStr (trim prompt2 ++ nl ++ nl ++ "[[]]" ++ nl))).
Proof.
  split; [|split].
  - exact (proj1 (absent_answer_renders_empty_placeholder
                    (MoreSamples.promptedNoAnswer "stringresponse")
                    (xmlToMarkdown 2) 0 eq_refl eq_refl)).
  - exact (proj1 (proj2 (absent_answer_renders_empty_placeholder
                    (MoreSamples.promptedNoAnswer "numericalresponse")
                    (xmlToMarkdown 2) 0 eq_refl eq_refl))).
  - apply (proj2 (proj2 (absent_answer_renders_empty_placeholder
                    (MoreSamples.promptedNoAnswer "numericalresponse")
                    (xmlToMarkdown 2) 0 eq_refl eq_refl))).
    + intros v H. injection H as <-. exists false. reflexivity.
    + intros c [<-|[<-|[]]]; eexists; reflexivity.
Defined.

(** C10 as stated fails: a response without an answer whose paragraph
    has an attribute and the number 42 as its text does not render; both
    handlers throw a [TypeError] when they trim the text of the
    paragraph. *)
Lemma absent_answer_numeric_paragraph_refuted :
  getProp (MoreSamples.numericParagraph "stringresponse") "answer"
  = Ok VUndef /\
  xmlhandlers.stringresponse (MoreSamples.numericParagraph "stringresponse")
    (xmlToMarkdown 2) 0%Z
  = Throw TypeError /\
  xmlhandlers.numericalresponse
    (MoreSamples.numericParagraph "numericalresponse") (xmlToMarkdown 2) 0%Z
  = Throw TypeError /\
  xmlToMarkdown 3 (MoreSamples.numericParagraph "stringresponse") 0%Z
  = Throw TypeError /\
  xmlToMarkdown 3 (MoreSamples.numericParagraph "numericalresponse") 0%Z
  = Throw TypeError.
Proof.
  repeat split.
Qed.

(** C7 at a failing input.  A [stringresponse] whose answer is the
    number 0 renders the empty placeholder, not [[[0]]]; with the answer
    42 it renders as the claim says, and the additional answer of the
    sample contributes nothing. *)
Theorem stringresponse_zero_answer_blank :
  toStr Samples.zero = "0" /\
  xmlToMarkdown 2 (Samples.enterValue Samples.zero) 0
  = Ok (VStr ("Enter value" ++ nl ++ nl ++ "[[]]" ++ nl)) /\
  xmlToMarkdown 2 (Samples.enterValue (VStr "42")) 0
  = Ok (VStr ("Enter value" ++ nl ++ nl ++ "[[42]]" ++ nl)) /\
  xmlToMarkdown 2 (Samples.enterValue (VNum (Num true "42"))) 0
  = Ok (VStr ("Enter value" ++ nl ++ nl ++ "[[42]]" ++ nl)).
Proof.
  repeat split.
Qed.

(** What holds of every [stringresponse]: the trimmed prompt, a blank
    line, and the answer between double brackets when the answer is
    truthy. *)
Lemma stringresponse_truthy_answer (node answer : value)
  (transform : value -> Z -> res value) (depth : Z) :
  getProp node "answer" = Ok answer ->
  truthy answer = true ->
  xmlhandlers.stringresponse node transform depth
  = (content <- xmlhandlers.stringresponse_content node transform depth ;;
     Ok (VStr (trim content ++ nl ++ nl ++ "[[" ++ toStr answer ++ "]]" ++ nl))).
Proof.
  intros Ha Ht. unfold xmlhandlers.stringresponse, xmlhandlers.answerText.
  rewrite Ha. cbn [bind]. rewrite Ht. reflexivity.
Qed.

(* ------------------------------------------------------------------ *)
(** ** The tree builder *)

Lemma mapM_bind {A B C : Type} (f : A -> res B) (g : B -> res C)
  (l : list A) (rs : list C) :
  mapM (fun a => b <- f a ;; g b) l = Ok rs ->
  exists bs, mapM f l = Ok bs /\ mapM g bs = Ok rs.
Proof.
  revert rs. induction l as [|a l IH]; intros rs H; cbn [mapM] in *.
  - injection H as <-. exists []. split; reflexivity.
  - destruct (f a) as [b|e] eqn:Fa; cbn [bind] in H; [|discriminate].
    destruct (g b) as [c|e] eqn:Gb; cbn [bind] in H; [|discriminate].
    destruct (mapM (fun a => b <- f a ;; g b) l) as [cs|e] eqn:M;
      cbn [bind] in H; [|discriminate].
    injection H as <-.
    destruct (IH cs eq_refl) as [bs [Hf Hg]].
    exists (b :: bs). cbn [mapM bind]. rewrite Hf, Gb, Hg.
    split; reflexivity.
Qed.

Lemma mapM_In {A B : Type} (f : A -> res B) (l : list A) (rs : list B) :
  mapM f l = Ok rs ->
  forall r, In r rs -> exists a, In a l /\ f a = Ok r.
Proof.
  revert rs. induction l as [|a l IH]; intros rs H r Hr; cbn [mapM] in H.
  - injection H as <-. destruct Hr.
  - destruct (f a) as [b|e] eqn:Fa; cbn [bind] in H; [|discriminate].
    destruct (mapM f l) as [bs|e] eqn:M; cbn [bind] in H; [|discriminate].
    injection H as <-. destruct Hr as [<-|Hr].
    + exists a. split; [left; reflexivity | exact Fa].
    + destruct (IH bs eq_refl r Hr) as [a' [Hin Ha]].
      exists a'. split; [right; exact Hin | exact Ha].
Qed.

Lemma compact_In {A : Type} (l : list (option A)) (a : A) :
  In a (compact l) <-> In (Some a) l.
Proof.
  induction l as [|[x|] l IH]; cbn [compact In].
  - tauto.
  - rewrite IH. split; intros [H|H]; auto.
    + left. now f_equal.
    + left. now injection H.
  - rewrite IH. split; [auto|]. intros [H|H]; [discriminate | exact H].
Qed.

(** The files of the nodes kept by [filter(Boolean)] are, in order, the
    paths for which the builder returned a node. *)
Lemma compact_files (g : string -> res (option tnode)) (paths : list string)
  (rs : list (option tnode)) :
  (forall p c, g p = Ok (Some c) -> file c = Some p) ->
  mapM g paths = Ok rs ->
  map file (compact rs)
  = map Some (filter (fun p => match g p with
                               | Ok (Some _) => true
                               | _ => false
                               end) paths).
Proof.
  intros Hg. revert rs.
  induction paths as [|p paths IH]; intros rs H; cbn [mapM] in H.
  - injection H as <-. reflexivity.
  - destruct (g p) as [o|e] eqn:Gp; cbn [bind] in H; [|discriminate].
    destruct (mapM g paths) as [os|e] eqn:M; cbn [bind] in H; [|discriminate].
    injection H as <-. cbn [filter]. rewrite Gp.
    destruct o as [c|]; cbn [compact map].
    + rewrite (Hg p c Gp), (IH os eq_refl). reflexivity.
    + exact (IH os eq_refl).
Qed.

Ltac build_step H :=
  match type of H with
  | context [if ?c then _ else _] =>
      let E := fresh "E" in destruct c eqn:E
  | context [bind ?m _] =>
      let E := fresh "M" in destruct m eqn:E; cbn [bind] in H
  end.

(** A node is returned only for an existing [.xml] file that parses,
    and it records the path it was built from. *)
Lemma buildTree_some (h : Host) (stack : nat) (filePath type0 : string)
  (n : tnode) :
  buildTree h stack filePath type0 = Ok (Some n) ->
  file n = Some filePath /\
  existsSync h filePath = true /\
  endsWith filePath ".xml" = true /\
  truthy (parseXmlFile h filePath) = true.
Proof.
  destruct stack as [|k]; cbn [buildTree]; [discriminate|].
  intros H.
  destruct (existsSync h filePath) eqn:Ex; cbn [negb orb] in H;
    [|discriminate].
  destruct (endsWith filePath ".xml") eqn:En; cbn [negb] in H;
    [|discriminate].
  destruct (truthy (parseXmlFile h filePath)) eqn:Tr; cbn [negb] in H;
    [|discriminate].
  repeat split.
  repeat build_step H; try discriminate; injection H as <-; reflexivity.
Qed.

Lemma In_compact_mapM {A : Type} (g : A -> res (option tnode)) (l : list A)
  (rs : list (option tnode)) (c : tnode) :
  mapM g l = Ok rs -> In c (compact rs) ->
  exists a, In a l /\ g a = Ok (Some c).
Proof.
  intros M Hin. apply compact_In in Hin.
  exact (mapM_In g l rs M (Some c) Hin).
Qed.

Ltac option_step H :=
  match type of H with
  | context [match ?m with Some _ => _ | None => _ end] =>
      let E := fresh "O" in destruct m eqn:E
  end.

Ltac child_built H :=
  repeat (build_step H || option_step H); try discriminate;
  try (injection H as <-);
  first [ left; eexists; eexists; eassumption
        | right; right; reflexivity
        | idtac ].

(** Where the children of a built node come from: a recursive call of
    the builder, the companion HTML file that was probed, or a synthetic
    node without a file ([about] under a course, a container). *)
Lemma buildTree_children (h : Host) (stack : nat) (filePath type0 : string)
  (n c : tnode) :
  buildTree h (S stack) filePath type0 = Ok (Some n) ->
  In c (childList n) ->
  (exists p kind, buildTree h stack p kind = Ok (Some c)) \/
  (exists f, file c = Some f /\ existsSync h f = true
             /\ type c = "htmlContent") \/
  file c = None.
Proof.
  cbn [buildTree]. intros H Hin.
  repeat build_step H; try discriminate; injection H as <-;
    cbn [childList children inner leaf] in Hin.
  all: try (destruct Hin as [<-|[]]; right; left; eexists; split;
            [reflexivity|]; split; [eassumption|reflexivity]).
  all: try (destruct Hin; fail).
  all: repeat match goal with
         | Hin : In _ (_ :: _) |- _ => destruct Hin as [<-|Hin]
         | Hin : In _ (_ ++ _) |- _ =>
             apply in_app_or in Hin; destruct Hin as [Hin|Hin]
         end.
  all: try (right; right; reflexivity).
  all: match goal with
       | M : mapM _ _ = Ok ?a, Hin : In _ (compact ?a) |- _ =>
           destruct (In_compact_mapM _ _ _ _ M Hin) as [x [_ Hx]];
           child_built Hx
       end.
Qed.

Lemma parseXmlFile_absent (h : Host) (filePath : string) :
  absentFile h filePath ->
  existsSync h filePath = false \/
  endsWith filePath ".xml" = false \/
  truthy (parseXmlFile h filePath) = false.
Proof.
  intros [H|H|e H|text e H1 H2]; auto; right; right; unfold parseXmlFile.
  - rewrite H. reflexivity.
  - rewrite H1, H2. reflexivity.
Qed.


Lemma getProp_ok (v x : value) (k : string) :
  getProp v k = Ok x -> x = prop v k.
Proof.
  unfold getProp, prop. destruct v; intros H; try discriminate;
    injection H as <-; reflexivity.
Qed.

Lemma buildTree_has_children (h : Host) (stack : nat)
  (filePath type0 : string) (n : tnode) :
  buildTree h stack filePath type0 = Ok (Some n) ->
  exists cs, children n = Some cs.
Proof.
  destruct stack as [|k]; cbn [buildTree]; [discriminate|].
  intros H.
  repeat build_step H; try discriminate; injection H as <-;
    cbn [children inner]; eauto.
Qed.

(** The containers of a sequential keep the order of its [vertical]
    references. *)
Lemma containers_urls (h : Host) (stack : nat) (parentDir : string)
  (refs : list value) (rs : list (option tnode)) :
  mapM (fun vert =>
          verticalPath <- refPath h parentDir "vertical" vert ;;
          verticalNode <- buildTree h stack verticalPath "vertical" ;;
          u <- getProp vert "url_name" ;;
          Ok (match verticalNode with
              | Some v =>
                  match children v with
                  | Some cs =>
                      Some {| type := "vertical-container";
                              display_name := display_name v;
                              file := None;
                              children := Some cs;
                              verticals := None; problems := None;
                              url_name := u;
                              problemData := VUndef;
                              videoData := VUndef |}
                  | None => None
                  end
              | None => None
              end))
    refs = Ok rs ->
  map url_name (compact rs)
  = map urlOf (filter (contained h stack parentDir) refs)
  /\ Forall (fun c => type c = "vertical-container") (compact rs).
Proof.
  revert rs. induction refs as [|r refs IH]; intros rs H; cbn [mapM] in H.
  - injection H as <-. split; [reflexivity | constructor].
  - destruct (refPath h parentDir "vertical" r) as [p|e] eqn:P;
      cbn [bind] in H; [|discriminate].
    destruct (buildTree h stack p "vertical") as [o|e] eqn:B;
      cbn [bind] in H; [|discriminate].
    destruct (getProp r "url_name") as [u|e] eqn:U;
      cbn [bind] in H; [|discriminate].
    match type of H with
    | context [bind ?m _] => destruct m as [os|e] eqn:M
    end; cbn [bind] in H; [|discriminate].
    injection H as <-.
    destruct (IH os eq_refl) as [IH1 IH2].
    cbn [filter]. unfold contained at 1. rewrite P. unfold builds. rewrite B.
    destruct o as [v|].
    + destruct (buildTree_has_children h stack p "vertical" v B) as [cs C].
      rewrite C. cbn [compact map url_name].
      rewrite IH1. unfold urlOf at 1. rewrite (getProp_ok r u "url_name" U).
      split; [reflexivity|]. constructor; [reflexivity | exact IH2].
    + cbn [compact]. split; [exact IH1 | exact IH2].
Qed.

Lemma resolved_files (h : Host) (stack : nat) (kind : string)
  (paths : list string) (rs : list (option tnode)) :
  mapM (fun p => if existsSync h p then buildTree h stack p kind else Ok None)
    paths = Ok rs ->
  map file (compact rs) = map Some (filter (resolves h stack kind) paths).
Proof.
  intros M.
  rewrite (compact_files _ paths rs) with (2 := M).
  - f_equal. apply filter_ext. intros p. unfold resolves, builds.
    destruct (existsSync h p); reflexivity.
  - intros p c H. destruct (existsSync h p); [|discriminate].
    exact (proj1 (buildTree_some h stack p kind c H)).
Qed.

Lemma built_files (h : Host) (stack : nat) (kind : string)
  (paths : list string) (rs : list (option tnode)) :
  mapM (fun p => buildTree h stack p kind) paths = Ok rs ->
  map file (compact rs) = map Some (filter (builds h stack kind) paths).
Proof.
  intros M.
  rewrite (compact_files _ paths rs) with (2 := M).
  - reflexivity.
  - intros p c H. exact (proj1 (buildTree_some h stack p kind c H)).
Qed.

(** C4 (as amended).  The children of a built node follow the order of
    the references of their kind in the parent file, references that do
    not resolve being left out: the chapters of a course (after the
    [about] node, when there is an overview), the sequentials of a
    chapter, the containers of a sequential.  The children of a vertical
    are grouped by kind: the problems in reference order, then the
    htmls, then the videos. *)
Theorem children_grouped_in_reference_order
  (h : Host) (stack : nat) (filePath type0 : string) (n : tnode) :
  buildTree h (S stack) filePath type0 = Ok (Some n) ->
  let obj := parseXmlFile h filePath in
  let parentDir := dirname h (dirname h filePath) in
  (type n = "course" ->
   exists chapters : list string,
     mapM (refPath h parentDir "chapter")
       (ensureArray (prop (prop obj "course") "chapter")) = Ok chapters /\
     map file (childList n)
     = ((if existsSync h (join h [parentDir; "about"; "overview.html"])
         then [None] else [])
        ++ map Some (filter (builds h stack "chapter") chapters))%list) /\
  (type n = "chapter" ->
   exists sequentials : list string,
     mapM (refPath h parentDir "sequential")
       (ensureArray (prop (prop obj "chapter") "sequential"))
     = Ok sequentials /\
     map file (childList n)
     = map Some (filter (builds h stack "sequential") sequentials)) /\
  (type n = "sequential" ->
   map url_name (childList n)
   = map urlOf (filter (contained h stack parentDir)
                  (ensureArray (prop (prop obj "sequential") "vertical")))
   /\ Forall (fun c => type c = "vertical-container") (childList n)) /\
  (type n = "vertical" ->
   exists problems htmls videos : list string,
     mapM (refPath h parentDir "problem")
       (ensureArray (prop (prop obj "vertical") "problem")) = Ok problems /\
     mapM (refPath h parentDir "html")
       (ensureArray (prop (prop obj "vertical") "html")) = Ok htmls /\
     mapM (refPath h parentDir "video")
       (ensureArray (prop (prop obj "vertical") "video")) = Ok videos /\
     map file (childList n)
     = map Some (filter (resolves h stack "problem") problems
                 ++ filter (resolves h stack "html") htmls
                 ++ filter (resolves h stack "video") videos)%list).
Proof.
  intros H. cbv zeta. cbn [buildTree] in H.
  repeat build_step H; try discriminate; injection H as <-;
    cbn [type inner childList children].
  all: split; [|split; [|split]]; intros T; try discriminate T; clear T.
  - apply mapM_bind in M. destruct M as [paths [P B]].
    exists paths. split; [exact P|].
    cbn [map file inner app]. rewrite (built_files _ _ _ _ _ B). reflexivity.
  - apply mapM_bind in M. destruct M as [paths [P B]].
    exists paths. split; [exact P|].
    cbn [app]. exact (built_files _ _ _ _ _ B).
  - apply mapM_bind in M. destruct M as [paths [P B]].
    exists paths. split; [exact P|].
    exact (built_files _ _ _ _ _ B).
  - exact (containers_urls _ _ _ _ _ M).
  - apply mapM_bind in M. destruct M as [pp [Pp Bp]].
    apply mapM_bind in M0. destruct M0 as [hp [Ph Bh]].
    apply mapM_bind in M1. destruct M1 as [vp [Pv Bv]].
    exists pp, hp, vp. repeat (split; [assumption|]).
    rewrite !map_app.
    rewrite (resolved_files _ _ _ _ _ Bp), (resolved_files _ _ _ _ _ Bh),
      (resolved_files _ _ _ _ _ Bv).
    reflexivity.
Qed.

Lemma children_grouped_in_reference_order_witness :
  exists n : tnode,
    buildTree Samples.host 2 "c/vertical/v1.xml" "vertical" = Ok (Some n) /\
    map file (childList n)
    = [Some "c/problem/p1.xml"; Some "c/html/h1.xml"].
Proof.
  destruct (buildTree Samples.host 2 "c/vertical/v1.xml" "vertical")
    as [[n|]|e] eqn:B; try (vm_compute in B; discriminate B).
  exists n. split; [reflexivity|].
  assert (T : type n = "vertical").
  { vm_compute in B. injection B as <-. reflexivity. }
  destruct (proj2 (proj2 (proj2
              (children_grouped_in_reference_order Samples.host 1
                 "c/vertical/v1.xml" "vertical" n B))) T)
    as [pp [hp [vp [Pp [Ph [Pv F]]]]]].
  vm_compute in Pp. injection Pp as <-.
  vm_compute in Ph. injection Ph as <-.
  vm_compute in Pv. injection Pv as <-.
  rewrite F. reflexivity.
Defined.

(** C4 as stated fails for a vertical: the sample vertical refers to an
    html and then to a problem, and its children are the problem and
    then the html. *)
Lemma vertical_interleaving_refuted :
  Samples.verticalXml
  = "<vertical><html url_name='h1'/><problem url_name='p1'/></vertical>" /\
  map fst (spread (prop (parseXmlFile Samples.host "c/vertical/v1.xml")
                     "vertical"))
  = ["html"; "problem"] /\
  exists n : tnode,
    buildTree Samples.host 2 "c/vertical/v1.xml" "vertical" = Ok (Some n) /\
    map type (childList n) = ["problem"; "html"] /\
    map type (childList n) <> ["html"; "problem"].
Proof.
  split; [reflexivity|]. split; [reflexivity|].
  eexists. split; [vm_compute; reflexivity|].
  split; [reflexivity | discriminate].
Qed.

(* ------------------------------------------------------------------ *)
(** ** More on the quiz renderer *)

Lemma forEach_ext {A : Type} (l : list A) (f g : A -> string -> res string) :
  (forall a c, In a l -> f a c = g a c) ->
  forall c, forEach l f c = forEach l g c.
Proof.
  unfold forEach. induction l as [|a l IH]; intros H c; cbn [fold_left].
  - reflexivity.
  - cbn [bind]. rewrite (H a c (or_introl eq_refl)).
    destruct (g a c) as [c'|e].
    + apply IH. intros a' c'' Hin. apply H. right. exact Hin.
    + clear. induction l as [|b l IH]; cbn [fold_left bind];
        [reflexivity | exact IH].
Qed.

Lemma forEach_throw {A : Type} (l : list A) (f : A -> string -> res string)
  (e : exn) :
  fold_left (fun acc a => c <- acc ;; f a c) l (Throw e) = Throw e.
Proof.
  induction l as [|b l IH]; cbn [fold_left bind]; [reflexivity | exact IH].
Qed.

(** A loop that appends one piece per element is the concatenation of
    the pieces. *)
Lemma forEach_mapM {A : Type} (g : A -> res string) (l : list A) (c : string) :
  forEach l (fun a content => s <- g a ;; Ok (content ++ s)) c
  = (pieces <- mapM g l ;; Ok (c ++ concatStr pieces)).
Proof.
  revert c. unfold forEach.
  induction l as [|a l IH]; intros c; cbn [fold_left mapM bind].
  - cbn [concatStr fold_right]. rewrite append_nil_r. reflexivity.
  - destruct (g a) as [s|e]; cbn [bind].
    + rewrite IH. destruct (mapM g l) as [ss|e]; cbn [bind];
        [|reflexivity].
      cbn [concatStr fold_right]. rewrite append_assoc. reflexivity.
    + apply forEach_throw.
Qed.

Lemma mapM_map {A B C : Type} (g : A -> res B) (F : B -> C) (l : list A) :
  mapM (fun a => b <- g a ;; Ok (F b)) l
  = (bs <- mapM g l ;; Ok (map F bs)).
Proof.
  induction l as [|a l IH]; cbn [mapM bind map]; [reflexivity|].
  destruct (g a) as [b|e]; cbn [bind]; [|reflexivity].
  rewrite IH. destruct (mapM g l); reflexivity.
Qed.

Lemma mapM_ext {A B : Type} (f g : A -> res B) (l : list A) :
  (forall a, In a l -> f a = g a) -> mapM f l = mapM g l.
Proof.
  induction l as [|a l IH]; intros H; cbn [mapM]; [reflexivity|].
  rewrite (H a (or_introl eq_refl)), IH; [reflexivity|].
  intros a' Hin. apply H. right. exact Hin.
Qed.

Lemma map_toStr_VStr (l : list string) : map toStr (map VStr l) = l.
Proof.
  induction l as [|s l IH]; cbn [map toStr]; [reflexivity | now rewrite IH].
Qed.

(** X1.  A choice group renders the blank separator followed by what
    the [choice] handler renders for each of its choices, in order; it
    fails exactly where the first failing choice does. *)
Theorem choicegroup_renders_each_choice
  (node : value) (transform : value -> Z -> res value) (depth : Z) :
  xmlhandlers.choicegroup node transform depth
  = (c <- getProp node "choice" ;;
     lines <- mapM (fun ch => xmlhandlers.choice ch transform depth)
                (ensureArray c) ;;
     Ok (VStr (nl ++ nl ++ concatStr (map toStr lines)))).
Proof.
  unfold xmlhandlers.choicegroup.
  destruct (getProp node "choice") as [c|e]; cbn [bind]; [|reflexivity].
  rewrite (forEach_ext _ _
             (fun ch content =>
                s <- (flag <- getProp ch "correct" ;;
                      text <- xmlhandlers.trimmedText ch ;;
                      Ok ("- " ++ (if xmlhandlers.correctFlag flag
                                   then "[(x)]" else "[( )]")
                          ++ " " ++ text ++ nl)) ;;
                Ok (content ++ s))).
  2:{ intros ch content _.
      destruct (getProp ch "correct"); cbn [bind]; [|reflexivity].
      destruct (xmlhandlers.trimmedText ch); reflexivity. }
  rewrite forEach_mapM.
  rewrite (mapM_ext (fun ch => xmlhandlers.choice ch transform depth)
             (fun ch =>
                s <- (flag <- getProp ch "correct" ;;
                      text <- xmlhandlers.trimmedText ch ;;
                      Ok ("- " ++ (if xmlhandlers.correctFlag flag
                                   then "[(x)]" else "[( )]")
                          ++ " " ++ text ++ nl)) ;;
                Ok (VStr s))).
  2:{ intros ch _. unfold xmlhandlers.choice.
      destruct (getProp ch "correct"); cbn [bind]; [|reflexivity].
      destruct (xmlhandlers.trimmedText ch); reflexivity. }
  rewrite mapM_map.
  match goal with |- context [mapM ?g ?l] => destruct (mapM g l) end;
    cbn [bind]; [|reflexivity].
  rewrite map_toStr_VStr, append_assoc. reflexivity.
Qed.

Lemma getProp_truthy (v : value) (k : string) :
  truthy v = true -> getProp v k = Ok (prop v k).
Proof.
  destruct v; intros H; try reflexivity; discriminate.
Qed.

Lemma plainText_dec (ch : value) : plainText ch \/ ~ plainText ch.
Proof.
  unfold plainText. destruct ch; try (right; tauto);
    destruct (prop _ "#text"); tauto.
Qed.

Lemma groupStep_plain (yes no : string) (ch : value) (c : string) :
  plainText ch -> exists r, groupStep yes no ch c = Ok r.
Proof.
  unfold plainText, groupStep, xmlhandlers.trimmedText, getProp, prop.
  destruct ch; try tauto;
    destruct (lookup "#text" _) as [[]|]; cbn [bind]; try tauto; eauto.
Qed.

Lemma groupStep_not_plain (yes no : string) (ch : value) (c : string) :
  ~ plainText ch -> groupStep yes no ch c = Throw TypeError.
Proof.
  unfold plainText, groupStep, xmlhandlers.trimmedText, getProp, prop.
  destruct ch; try reflexivity;
    destruct (lookup "#text" _) as [[]|]; cbn [bind]; tauto.
Qed.

Lemma groupLoop (yes no : string) (l : list value) (c : string) :
  (Forall plainText l /\ exists r, forEach l (groupStep yes no) c = Ok r) \/
  (~ Forall plainText l /\ forEach l (groupStep yes no) c = Throw TypeError).
Proof.
  revert c. unfold forEach. induction l as [|a l IH]; intros c.
  - left. split; [constructor|]. exists c. reflexivity.
  - cbn [fold_left bind]. destruct (plainText_dec a) as [P|P].
    + destruct (groupStep_plain yes no a c P) as [r Hr]. rewrite Hr.
      destruct (IH r) as [[F R]|[F R]].
      * left. split; [constructor; assumption | exact R].
      * right. split; [|exact R]. intros H. inversion H. contradiction.
    + rewrite (groupStep_not_plain yes no a c P). right. split.
      * intros H. inversion H. contradiction.
      * apply forEach_throw.
Qed.

Lemma choicegroup_loop (node : value) (transform : value -> Z -> res value)
  (depth : Z) :
  xmlhandlers.choicegroup node transform depth
  = (c <- getProp node "choice" ;;
     content <- forEach (ensureArray c) (groupStep "[(x)]" "[( )]")
                  (nl ++ nl) ;;
     Ok (VStr content)).
Proof. reflexivity. Qed.

Lemma checkboxgroup_loop (node : value) (transform : value -> Z -> res value)
  (depth : Z) :
  xmlhandlers.checkboxgroup node transform depth
  = (c <- getProp node "choice" ;;
     content <- forEach (ensureArray c) (groupStep "[[x]]" "[[ ]]")
                  (nl ++ nl) ;;
     Ok (VStr content)).
Proof. reflexivity. Qed.

(** X2.  The two group handlers succeed exactly when every choice has a
    readable text (a string, or none): a choice that is [null], or whose
    text is a number, a boolean or a nested element, makes the whole
    group throw a [TypeError]. *)
Theorem choice_groups_need_plain_text
  (node : value) (transform : value -> Z -> res value) (depth : Z) :
  truthy node = true ->
  (Forall plainText (ensureArray (prop node "choice")) ->
   exists choices checkboxes : string,
     xmlhandlers.choicegroup node transform depth = Ok (VStr choices) /\
     xmlhandlers.checkboxgroup node transform depth = Ok (VStr checkboxes)) /\
  (~ Forall plainText (ensureArray (prop node "choice")) ->
   xmlhandlers.choicegroup node transform depth = Throw TypeError /\
   xmlhandlers.checkboxgroup node transform depth = Throw TypeError).
Proof.
  intros Hn.
  rewrite choicegroup_loop, checkboxgroup_loop.
  rewrite (getProp_truthy node "choice" Hn). cbn [bind].
  destruct (groupLoop "[(x)]" "[( )]" (ensureArray (prop node "choice"))
              (nl ++ nl)) as [[F [r R]]|[F R]];
    destruct (groupLoop "[[x]]" "[[ ]]" (ensureArray (prop node "choice"))
                (nl ++ nl)) as [[F' [r' R']]|[F' R']];
    try contradiction; rewrite R, R'; cbn [bind].
  - split; [|intros N; contradiction].
    intros _. exists r, r'. split; reflexivity.
  - split; [intros N; contradiction|].
    intros _. split; reflexivity.
Qed.

Lemma choice_groups_need_plain_text_witness :
  (exists choices checkboxes : string,
     xmlhandlers.choicegroup Samples.choicegroupAB (xmlToMarkdown 1) 0%Z
     = Ok (VStr choices) /\
     xmlhandlers.checkboxgroup Samples.choicegroupAB (xmlToMarkdown 1) 0%Z
     = Ok (VStr checkboxes)) /\
  xmlhandlers.choicegroup MoreSamples.numericGroup (xmlToMarkdown 1) 0%Z
  = Throw TypeError /\
  xmlhandlers.checkboxgroup MoreSamples.numericGroup (xmlToMarkdown 1) 0%Z
  = Throw TypeError.
Proof.
  split.
  - apply (proj1 (choice_groups_need_plain_text Samples.choicegroupAB
                    (xmlToMarkdown 1) 0 eq_refl)).
    repeat constructor.
  - apply (proj2 (choice_groups_need_plain_text MoreSamples.numericGroup
                    (xmlToMarkdown 1) 0 eq_refl)).
    intros H. inversion H as [|x l P _]. exact P.
Defined.

Lemma lookup_indexed_none (k : string) :
  (forall u, (k =? NilEmpty.string_of_uint u) = false) ->
  forall i l, lookup k (indexed i l) = None.
Proof.
  intros Hk i l. revert i.
  induction l as [|x l IH]; intros i; cbn [indexed lookup]; [reflexivity|].
  unfold decimal. rewrite Hk. apply IH.
Qed.

Lemma text_not_index (u : Decimal.uint) :
  ("#text" =? NilEmpty.string_of_uint u) = false.
Proof. destruct u; reflexivity. Qed.

Lemma correct_not_index (u : Decimal.uint) :
  ("correct" =? NilEmpty.string_of_uint u) = false.
Proof. destruct u; reflexivity. Qed.

Lemma groupStep_bare (yes no s c : string) :
  groupStep yes no (VStr s) c = Ok (c ++ "- " ++ no ++ " " ++ nl).
Proof.
  unfold groupStep, xmlhandlers.trimmedText, getProp. cbn [spread].
  rewrite (lookup_indexed_none "correct" correct_not_index).
  rewrite (lookup_indexed_none "#text" text_not_index).
  reflexivity.
Qed.

Lemma groupLoop_bare (yes no : string) (ss : list string) (c : string) :
  forEach (map VStr ss) (groupStep yes no) c
  = Ok (c ++ repeatStr ("- " ++ no ++ " " ++ nl) (List.length ss)).
Proof.
  revert c. unfold forEach.
  induction ss as [|s ss IH]; intros c;
    cbn [map fold_left bind List.length repeatStr].
  - rewrite append_nil_r. reflexivity.
  - rewrite groupStep_bare, IH, append_assoc. reflexivity.
Qed.

(** X3.  A choice that reaches a group as a bare string (an element
    without attributes) loses its text: each such choice is rendered as
    an incorrect choice with an empty text. *)
Theorem bare_string_choices_lose_text
  (node c : value) (ss : list string)
  (transform : value -> Z -> res value) (depth : Z) :
  getProp node "choice" = Ok c ->
  ensureArray c = map VStr ss ->
  xmlhandlers.choicegroup node transform depth
  = Ok (VStr (nl ++ nl ++ repeatStr ("- [( )] " ++ nl) (List.length ss))) /\
  xmlhandlers.checkboxgroup node transform depth
  = Ok (VStr (nl ++ nl ++ repeatStr ("- [[ ]] " ++ nl) (List.length ss))).
Proof.
  intros Hc Hs. rewrite choicegroup_loop, checkboxgroup_loop, Hc.
  cbn [bind]. rewrite Hs, !groupLoop_bare. cbn [bind].
  rewrite !append_assoc. split; reflexivity.
Qed.

Lemma bare_string_choices_lose_text_witness :
  xmlhandlers.choicegroup MoreSamples.bareGroup (xmlToMarkdown 1) 0%Z
  = Ok (VStr (nl ++ nl ++ "- [( )] " ++ nl ++ "- [( )] " ++ nl)) /\
  xmlhandlers.checkboxgroup MoreSamples.bareGroup (xmlToMarkdown 1) 0%Z
  = Ok (VStr (nl ++ nl ++ "- [[ ]] " ++ nl ++ "- [[ ]] " ++ nl)).
Proof.
  apply (bare_string_choices_lose_text MoreSamples.bareGroup
           (VArr [VStr "Yes"; VStr "No"]) ["Yes"; "No"]).
  - reflexivity.
  - reflexivity.
Defined.

Lemma mapM_Forall2 {A B : Type} (g : A -> res B) (l : list A) (rs : list B) :
  Forall2 (fun a r => g a = Ok r) l rs -> mapM g l = Ok rs.
Proof.
  induction 1 as [|a r l rs H _ IH]; cbn [mapM]; [reflexivity|].
  rewrite H, IH. reflexivity.
Qed.



Lemma forEach_map {A B : Type} (g : A -> B) (l : list A)
  (f : B -> string -> res string) (c : string) :
  forEach (map g l) f c = forEach l (fun a => f (g a)) c.
Proof.
  unfold forEach. generalize (Ok c : res string) as acc.
  induction l as [|a l IH]; intros acc; cbn [map fold_left];
    [reflexivity | apply IH].
Qed.

Lemma forEach_filter {A : Type} (P : A -> bool) (l : list A)
  (f : A -> string -> res string) (c : string) :
  forEach l (fun a content => if P a then f a content else Ok content) c
  = forEach (filter P l) f c.
Proof.
  unfold forEach. revert c.
  induction l as [|a l IH]; intros c; cbn [filter fold_left bind];
    [reflexivity|].
  destruct (P a); cbn [fold_left bind].
  - destruct (f a c) as [c'|e]; [apply IH|].
    rewrite !forEach_throw. reflexivity.
  - apply IH.
Qed.

Lemma lookup_NoDup {A : Type} (o : list (string * A)) (k : string) (v : A) :
  NoDup (map fst o) -> In (k, v) o -> lookup k o = Some v.
Proof.
  induction o as [|[k' v'] o IH]; cbn [map fst In lookup]; intros N H;
    [destruct H|].
  inversion N as [|x l Hx N']. subst.
  destruct H as [H|H].
  - injection H as -> ->. rewrite String.eqb_refl. reflexivity.
  - destruct (k =? k') eqn:E.
    + apply String.eqb_eq in E. subst k'. exfalso. apply Hx.
      apply (in_map fst) in H. exact H.
    + apply IH; assumption.
Qed.

(** X5.  The root handler of a problem renders its element children
    (object-typed properties) in the order of the node's keys, leaving
    out the metadata fields [#text], [display_name] and [markdown] and
    every property that is not an element; a problem without such a
    child renders the empty string. *)
Theorem problem_renders_element_children
  (node : value) (transform : value -> Z -> res value) (depth : Z) :
  truthy node = true ->
  NoDup (map fst (spread node)) ->
  xmlhandlers.problem node transform depth
  = (parts <- mapM (fun kv =>
                      transform (xmlhandlers.tagged (snd kv) (fst kv) (fst kv))
                        depth)
                (filter problemChild (spread node)) ;;
     Ok (VStr (concatStr (map toStr parts)))) /\
  (filter problemChild (spread node) = [] ->
   xmlhandlers.problem node transform depth = Ok (VStr EmptyString)).
Proof.
  intros Hn Hd.
  assert (E : xmlhandlers.problem node transform depth
    = (parts <- mapM (fun kv =>
                        transform (xmlhandlers.tagged (snd kv) (fst kv) (fst kv))
                          depth)
                  (filter problemChild (spread node)) ;;
       Ok (VStr (concatStr (map toStr parts))))).
  { unfold xmlhandlers.problem. rewrite (keys_truthy node Hn). cbn [bind].
    rewrite forEach_map.
    rewrite (forEach_ext _ _
               (fun kv content =>
                  if problemChild kv
                  then s <- (r <- transform
                                    (xmlhandlers.tagged (snd kv) (fst kv) (fst kv))
                                    depth ;; Ok (toStr r)) ;;
                       Ok (content ++ s)
                  else Ok content)).
    2:{ intros [k v] c Hin. cbn [fst snd].
        rewrite (getProp_truthy node k Hn). unfold prop.
        rewrite (lookup_NoDup _ k v Hd Hin). cbn [bind].
        unfold problemChild. cbn [fst snd].
        destruct (negb (k =? "#text") && negb (k =? "display_name")
                  && negb (k =? "markdown") && isObjectType v);
          [|reflexivity].
        destruct (transform _ depth); reflexivity. }
    rewrite forEach_filter, forEach_mapM, mapM_map.
    match goal with |- context [mapM ?g ?l] => destruct (mapM g l) end;
      reflexivity. }
  split; [exact E|].
  intros F. rewrite E, F. reflexivity.
Qed.

Ltac distinct_keys :=
  repeat (constructor; [cbn; intuition discriminate|]); constructor.

Lemma problem_renders_element_children_witness :
  xmlhandlers.problem MoreSamples.problemNode (xmlToMarkdown 1) 0%Z
  = Ok (VStr ("Enter value" ++ nl ++ nl ++ "[[42]]" ++ nl)) /\
  xmlhandlers.problem MoreSamples.emptyProblem (xmlToMarkdown 1) 0%Z
  = Ok (VStr EmptyString).
Proof.
  split.
  - apply (proj1 (problem_renders_element_children MoreSamples.problemNode
                    (xmlToMarkdown 1) 0 eq_refl ltac:(distinct_keys))).
  - apply (proj2 (problem_renders_element_children MoreSamples.emptyProblem
                    (xmlToMarkdown 1) 0 eq_refl ltac:(distinct_keys))).
    reflexivity.
Defined.

Lemma lookup_removeKey (k k' : string) (o : object) :
  k' <> k -> lookup k' (removeKey k o) = lookup k' o.
Proof.
  intros N. induction o as [|[k0 v0] o IH]; cbn [removeKey filter lookup fst];
    [reflexivity|].
  destruct (k0 =? k) eqn:E; cbn [negb lookup].
  - apply String.eqb_eq in E. subst k0.
    apply String.eqb_neq in N. rewrite N. exact IH.
  - fold (removeKey k o). rewrite IH. reflexivity.
Qed.

(** Dropping a key whose callback leaves the content alone does not
    change what the loop over the keys builds. *)
Lemma forEach_removeKey (f f' : string -> string -> res string) (k : string)
  (l : object) (c : string) :
  (forall c, f k c = Ok c) ->
  (forall k' c, k' <> k -> f k' c = f' k' c) ->
  forEach (map fst l) f c = forEach (map fst (removeKey k l)) f' c.
Proof.
  intros Hk Ho. unfold forEach. revert c.
  induction l as [|[k0 v0] l IH]; intros c;
    cbn [removeKey filter map fst fold_left bind]; [reflexivity|].
  destruct (k0 =? k) eqn:E; cbn [negb map fst fold_left bind].
  - apply String.eqb_eq in E. subst k0. rewrite Hk. apply IH.
  - apply String.eqb_neq in E. rewrite (Ho k0 c E).
    destruct (f' k0 c) as [c'|e]; [apply IH|].
    rewrite !forEach_throw. reflexivity.
Qed.

Ltac same_without K :=
  cbn [keys spread bind];
  erewrite (forEach_removeKey _ _ K);
  [ reflexivity
  | intros c; reflexivity
  | intros k' c Hk'; unfold getProp; cbn [spread];
    rewrite (lookup_removeKey K k' _ Hk'); reflexivity ].

(** X6.  Direct text inside a response element never reaches the
    output: each of the five pass-through handlers renders a node as it
    renders the node without its [#text]. *)
Theorem responses_ignore_direct_text
  (o : object) (transform : value -> Z -> res value) (depth : Z) :
  xmlhandlers.multiplechoiceresponse (VObj o) transform depth
  = xmlhandlers.multiplechoiceresponse (VObj (removeKey "#text" o))
      transform depth /\
  xmlhandlers.choiceresponse (VObj o) transform depth
  = xmlhandlers.choiceresponse (VObj (removeKey "#text" o)) transform depth /\
  xmlhandlers.optionresponse (VObj o) transform depth
  = xmlhandlers.optionresponse (VObj (removeKey "#text" o)) transform depth /\
  xmlhandlers.stringresponse (VObj o) transform depth
  = xmlhandlers.stringresponse (VObj (removeKey "#text" o)) transform depth /\
  xmlhandlers.numericalresponse (VObj o) transform depth
  = xmlhandlers.numericalresponse (VObj (removeKey "#text" o)) transform depth.
Proof.
  assert (A : xmlhandlers.answerText (VObj o)
              = xmlhandlers.answerText (VObj (removeKey "#text" o))).
  { unfold xmlhandlers.answerText, getProp. cbn [spread].
    rewrite lookup_removeKey by discriminate. reflexivity. }
  repeat split.
  - unfold xmlhandlers.multiplechoiceresponse. same_without "#text".
  - unfold xmlhandlers.choiceresponse. same_without "#text".
  - unfold xmlhandlers.optionresponse. same_without "#text".
  - unfold xmlhandlers.stringresponse, xmlhandlers.stringresponse_content.
    rewrite A. same_without "#text".
  - unfold xmlhandlers.numericalresponse,
      xmlhandlers.numericalresponse_content.
    rewrite A. same_without "#text".
Qed.

(** X7.  The additional answers of a string response, and what its
    [type] attribute holds, never reach the output: the handler renders
    a node as it renders the node without them. *)
Theorem stringresponse_ignores_additional_answers
  (o : object) (transform : value -> Z -> res value) (depth : Z) :
  xmlhandlers.stringresponse (VObj o) transform depth
  = xmlhandlers.stringresponse (VObj (removeKey "additional_answer" o))
      transform depth /\
  xmlhandlers.stringresponse (VObj o) transform depth
  = xmlhandlers.stringresponse (VObj (removeKey "type" o)) transform depth.
Proof.
  split.
  - assert (A : xmlhandlers.answerText (VObj o)
                = xmlhandlers.answerText
                    (VObj (removeKey "additional_answer" o))).
    { unfold xmlhandlers.answerText, getProp. cbn [spread].
      rewrite lookup_removeKey by discriminate. reflexivity. }
    unfold xmlhandlers.stringresponse, xmlhandlers.stringresponse_content.
    rewrite A. same_without "additional_answer".
  - assert (A : xmlhandlers.answerText (VObj o)
                = xmlhandlers.answerText (VObj (removeKey "type" o))).
    { unfold xmlhandlers.answerText, getProp. cbn [spread].
      rewrite lookup_removeKey by discriminate. reflexivity. }
    unfold xmlhandlers.stringresponse, xmlhandlers.stringresponse_content.
    rewrite A. same_without "type".
Qed.

Lemma droppedParagraph_skipped (v : value) :
  droppedParagraph v -> xmlhandlers.skipParagraph v = Ok true.
Proof.
  intros [s|l|o H|o t H [T|T]];
    unfold xmlhandlers.skipParagraph, xmlhandlers.trimmedText, getProp;
    cbn [spread].
  - rewrite (lookup_indexed_none "#text" text_not_index). reflexivity.
  - rewrite (lookup_indexed_none "#text" text_not_index). reflexivity.
  - rewrite H. reflexivity.
  - rewrite H. cbn [bind]. rewrite T. reflexivity.
  - rewrite H. cbn [bind]. rewrite T. reflexivity.
Qed.

Ltac same_without_p Hp Hs :=
  cbn [keys spread bind];
  erewrite (forEach_removeKey _ _ "p");
  [ reflexivity
  | intros c; unfold getProp; cbn [spread]; rewrite Hp;
    cbn [bind negb andb orb String.eqb Ascii.eqb Bool.eqb];
    try rewrite Hs; cbn [bind];
    repeat match goal with
           | |- context [if ?b then _ else _] => destruct b
           end;
    cbn [bind]; try rewrite Hs; reflexivity
  | intros k' c Hk'; unfold getProp; cbn [spread];
    rewrite (lookup_removeKey "p" k' _ Hk'); reflexivity ].

(** X8.  The five pass-through handlers drop a paragraph child that is
    a bare string or a list of paragraphs, that has no text, or whose
    trimmed text is empty or holds the template phrase: the node renders
    as it does without its [p]. *)
Theorem dropped_paragraphs_leave_no_trace
  (o : object) (p : value) (transform : value -> Z -> res value) (depth : Z) :
  lookup "p" o = Some p ->
  droppedParagraph p ->
  xmlhandlers.multiplechoiceresponse (VObj o) transform depth
  = xmlhandlers.multiplechoiceresponse (VObj (removeKey "p" o))
      transform depth /\
  xmlhandlers.choiceresponse (VObj o) transform depth
  = xmlhandlers.choiceresponse (VObj (removeKey "p" o)) transform depth /\
  xmlhandlers.optionresponse (VObj o) transform depth
  = xmlhandlers.optionresponse (VObj (removeKey "p" o)) transform depth /\
  xmlhandlers.stringresponse (VObj o) transform depth
  = xmlhandlers.stringresponse (VObj (removeKey "p" o)) transform depth /\
  xmlhandlers.numericalresponse (VObj o) transform depth
  = xmlhandlers.numericalresponse (VObj (removeKey "p" o)) transform depth.
Proof.
  intros Hp Hd. pose proof (droppedParagraph_skipped p Hd) as Hs.
  assert (A : xmlhandlers.answerText (VObj o)
              = xmlhandlers.answerText (VObj (removeKey "p" o))).
  { unfold xmlhandlers.answerText, getProp. cbn [spread].
    rewrite lookup_removeKey by discriminate. reflexivity. }
  repeat split.
  - unfold xmlhandlers.multiplechoiceresponse. same_without_p Hp Hs.
  - unfold xmlhandlers.choiceresponse. same_without_p Hp Hs.
  - unfold xmlhandlers.optionresponse. same_without_p Hp Hs.
  - unfold xmlhandlers.stringresponse, xmlhandlers.stringresponse_content.
    rewrite A. same_without_p Hp Hs.
  - unfold xmlhandlers.numericalresponse,
      xmlhandlers.numericalresponse_content.
    rewrite A. same_without_p Hp Hs.
Qed.

Lemma dropped_paragraphs_leave_no_trace_witness :
  xmlhandlers.stringresponse (VObj MoreSamples.promptInParagraph)
    (xmlToMarkdown 1) 0%Z
  = Ok (VStr (nl ++ nl ++ "[[Paris]]" ++ nl)) /\
  xmlhandlers.stringresponse
    (VObj (removeKey "p" MoreSamples.promptInParagraph)) (xmlToMarkdown 1) 0%Z
  = Ok (VStr (nl ++ nl ++ "[[Paris]]" ++ nl)).
Proof.
  pose proof (dropped_paragraphs_leave_no_trace MoreSamples.promptInParagraph
                (VStr "Name the capital of France") (xmlToMarkdown 1) 0
                eq_refl (DropBare _)) as [_ [_ [_ [H _]]]].
  split; [rewrite H|]; reflexivity.
Defined.

(* ------------------------------------------------------------------ *)
(** ** More on the tree builder *)

(** X9.  The expected kind matters only when it is "about": for any two
    other kinds the builder returns the same result, so the kind of the
    node is decided by what the file holds. *)
Theorem buildTree_ignores_expected_kind
  (h : Host) (stack : nat) (filePath type1 type2 : string) :
  type1 <> "about" ->
  type2 <> "about" ->
  buildTree h stack filePath type1 = buildTree h stack filePath type2.
Proof.
  intros N1 N2. destruct stack as [|k]; [reflexivity|].
  cbn [buildTree].
  apply String.eqb_neq in N1. apply String.eqb_neq in N2.
  rewrite N1, N2. reflexivity.
Qed.

Lemma buildTree_ignores_expected_kind_witness :
  buildTree Samples.host 4 "c/chapter/ch1.xml" "problem"
  = buildTree Samples.host 4 "c/chapter/ch1.xml" "chapter" /\
  exists n : tnode,
    buildTree Samples.host 4 "c/chapter/ch1.xml" "problem" = Ok (Some n) /\
    type n = "chapter".
Proof.
  split.
  - apply (buildTree_ignores_expected_kind Samples.host 4
             "c/chapter/ch1.xml" "problem" "chapter"); discriminate.
  - eexists. split; [vm_compute; reflexivity | reflexivity].
Defined.

(** X10.  Every node the builder returns has one of eight kinds, records
    the path it was built from, carries a list of children and no
    [verticals] or [problems] list; a problem or video node has no
    child. *)
Theorem buildTree_node_shape
  (h : Host) (stack : nat) (filePath type0 : string) (n : tnode) :
  buildTree h stack filePath type0 = Ok (Some n) ->
  In (type n) ["about"; "course"; "chapter"; "sequential"; "vertical";
               "problem"; "html"; "video"] /\
  file n = Some filePath /\
  (exists cs, children n = Some cs) /\
  verticals n = None /\
  problems n = None /\
  (type n = "problem" \/ type n = "video" -> children n = Some []).
Proof.
  intros H.
  split; [|split; [exact (proj1 (buildTree_some _ _ _ _ _ H))|]].
  - destruct stack as [|k]; cbn [buildTree] in H; [discriminate|].
    repeat build_step H; try discriminate; injection H as <-;
      cbn [type inner In]; tauto.
  - split; [exact (buildTree_has_children _ _ _ _ _ H)|].
    destruct stack as [|k]; cbn [buildTree] in H; [discriminate|].
    repeat build_step H; try discriminate; injection H as <-;
      cbn [type inner verticals problems children];
      (split; [reflexivity|]; split; [reflexivity|]);
      intros [T|T]; try discriminate T; reflexivity.
Qed.

Lemma buildTree_node_shape_witness :
  exists n : tnode,
    buildTree Samples.host 1 "c/problem/p1.xml" "problem" = Ok (Some n) /\
    type n = "problem" /\
    file n = Some "c/problem/p1.xml" /\
    children n = Some [].
Proof.
  destruct (buildTree Samples.host 1 "c/problem/p1.xml" "problem")
    as [[n|]|e] eqn:B; try (vm_compute in B; discriminate B).
  exists n. split; [reflexivity|].
  assert (T : type n = "problem").
  { vm_compute in B. injection B as <-. reflexivity. }
  destruct (buildTree_node_shape Samples.host 1 "c/problem/p1.xml" "problem"
              n B) as [_ [F [_ [_ [_ L]]]]].
  split; [exact T|]. split; [exact F|]. apply L. left. exact T.
Defined.

Lemma mapM_throws {A B : Type} (f : A -> res B) (l : list A) (a : A) (e : exn) :
  In a l -> f a = Throw e -> exists e', mapM f l = Throw e'.
Proof.
  induction l as [|x l IH]; intros Hin Hf; [destruct Hin|].
  cbn [mapM]. destruct Hin as [->|Hin].
  - rewrite Hf. cbn [bind]. eauto.
  - destruct (f x) as [b|e1]; cbn [bind]; [|eauto].
    destruct (IH Hin Hf) as [e' He']. rewrite He'. cbn [bind]. eauto.
Qed.

(** X11.  The builder does not detect a cycle: for a course file that
    lists itself among its chapters, no stack is enough and the call
    never returns a tree. *)
Theorem buildTree_loops_on_self_reference
  (h : Host) (filePath type0 : string) (ref : value) :
  existsSync h filePath = true ->
  endsWith filePath ".xml" = true ->
  truthy (parseXmlFile h filePath) = true ->
  truthy (prop (parseXmlFile h filePath) "course") = true ->
  In ref (ensureArray
            (prop (prop (parseXmlFile h filePath) "course") "chapter")) ->
  refPath h (dirname h (dirname h filePath)) "chapter" ref = Ok filePath ->
  type0 <> "about" ->
  forall stack : nat, exists e : exn,
    buildTree h stack filePath type0 = Throw e.
Proof.
  intros Ex En Tr Co Hin Hp Ht stack. revert type0 Ht.
  induction stack as [|k IH]; intros type0 Ht; cbn [buildTree].
  - eauto.
  - rewrite Ex, En, Tr. cbn [negb orb].
    apply String.eqb_neq in Ht. rewrite Ht. cbn [andb]. rewrite Co.
    destruct (IH "chapter" ltac:(discriminate)) as [e He].
    destruct (mapM_throws
                (fun ch =>
                   chapterPath <- refPath h (dirname h (dirname h filePath))
                                    "chapter" ch ;;
                   buildTree h k chapterPath "chapter")
                _ ref e Hin) as [e' He'].
    { rewrite Hp. cbn [bind]. exact He. }
    rewrite He'. cbn [bind]. eauto.
Qed.

Lemma buildTree_loops_on_self_reference_witness :
  exists e : exn,
    buildTree MoreSamples.loopHost 7 "c/chapter/loop.xml" "course" = Throw e.
Proof.
  apply (buildTree_loops_on_self_reference MoreSamples.loopHost
           "c/chapter/loop.xml" "course" (Samples.ref "loop")).
  - reflexivity.
  - reflexivity.
  - reflexivity.
  - reflexivity.
  - left. reflexivity.
  - reflexivity.
  - discriminate.
Defined.
Lemma mapM_mono {A B : Type} (f g : A -> res B) (l : list A) (rs : list B) :
  mapM f l = Ok rs ->
  (forall a r, In a l -> f a = Ok r -> g a = Ok r) ->
  mapM g l = Ok rs.
Proof.
  revert rs. induction l as [|a l IH]; intros rs M H; cbn [mapM] in *;
    [exact M|].
  destruct (f a) as [b|e] eqn:Fa; cbn [bind] in M; [|discriminate].
  destruct (mapM f l) as [bs|e] eqn:Fl; cbn [bind] in M; [|discriminate].
  rewrite (H a b (or_introl eq_refl) Fa). cbn [bind].
  rewrite (IH bs); [exact M | reflexivity |].
  intros a' r Hin. apply H. right. exact Hin.
Qed.

Ltac more_stack IH :=
  match goal with
  | M : mapM _ _ = Ok ?a |- context [mapM ?g ?l] =>
      rewrite (mapM_mono _ g l a M);
      [ cbn [bind]
      | let x := fresh "x" in let r := fresh "r" in
        let Hx := fresh "Hx" in
        intros x r _ Hx;
        repeat build_step Hx; try discriminate; cbn [bind];
        repeat match goal with
               | E : ?c = _ |- context [if ?c then _ else _] => rewrite E
               end;
        first [ exact Hx
              | apply IH; exact Hx
              | repeat match goal with
                       | E : buildTree _ _ _ _ = Ok _ |- _ =>
                           rewrite (IH _ _ _ E); clear E
                       end;
                cbn [bind]; exact Hx ] ]
  end.

Lemma buildTree_one_more (h : Host) (stack : nat) :
  forall (filePath type0 : string) (r : option tnode),
    buildTree h stack filePath type0 = Ok r ->
    buildTree h (S stack) filePath type0 = Ok r.
Proof.
  induction stack as [|k IH]; intros filePath type0 r H;
    [discriminate H|].
  cbn [buildTree] in H.
  set (k' := S k). cbn [buildTree]. subst k'.
  repeat build_step H; try discriminate; try exact H;
    repeat more_stack IH; exact H.
Qed.

(** X12.  More stack never changes what the builder returned: a result
    obtained with some stack is the result with any larger one. *)
Theorem buildTree_result_independent_of_stack
  (h : Host) (stack stack' : nat) (filePath type0 : string)
  (r : option tnode) :
  (stack <= stack')%nat ->
  buildTree h stack filePath type0 = Ok r ->
  buildTree h stack' filePath type0 = Ok r.
Proof.
  intros L H. induction L as [|m L IH]; [exact H|].
  apply buildTree_one_more. exact IH.
Qed.

Lemma buildTree_result_independent_of_stack_witness :
  buildTree Samples.host 9 "c/vertical/v1.xml" "vertical"
  = buildTree Samples.host 2 "c/vertical/v1.xml" "vertical".
Proof.
  destruct (buildTree Samples.host 2 "c/vertical/v1.xml" "vertical")
    as [r|e] eqn:B; [|vm_compute in B; discriminate B].
  apply (buildTree_result_independent_of_stack Samples.host 2 9
           "c/vertical/v1.xml" "vertical" r).
  - repeat constructor.
  - exact B.
Defined.

(* ------------------------------------------------------------------ *)
(** ** Rendering what the builder returns *)

Lemma mapM_ok {A B : Type} (f : A -> res B) (l : list A) :
  (forall a, In a l -> exists b, f a = Ok b) -> exists bs, mapM f l = Ok bs.
Proof.
  induction l as [|a l IH]; intros H; cbn [mapM]; [eauto|].
  destruct (H a (or_introl eq_refl)) as [b Hb]. rewrite Hb. cbn [bind].
  destruct IH as [bs Hbs]; [intros a' Hin; apply H; right; exact Hin|].
  rewrite Hbs. cbn [bind]. eauto.
Qed.

Lemma renderAll_ok (transform : tnode -> Z -> res string) (t : tnode)
  (depth : Z) :
  (forall c, In c (childList t) -> exists md, transform c depth = Ok md) ->
  exists md, markdownHandlers.renderAll transform (children t) depth = Ok md.
Proof.
  unfold childList, markdownHandlers.renderAll.
  destruct (children t) as [l|]; intros H; [|eauto].
  destruct (mapM_ok (fun c => transform c depth) l H) as [parts Hp].
  rewrite Hp. cbn [bind]. eauto.
Qed.

Lemma title_of_file (h : Host) (t : tnode) (f : string) :
  file t = Some f -> exists name, markdownHandlers.title h t = Ok name.
Proof.
  intros F. unfold markdownHandlers.title. rewrite F.
  destruct (truthy (display_name t)); eauto.
Qed.

Lemma tree_dispatch (h : Host) (xmlStack k : nat) (t : tnode) (depth : Z) :
  treeToMarkdown h xmlStack (S k) t depth
  = match lookup (type t) (markdownHandlers.table h xmlStack) with
    | Some fn => fn t (treeToMarkdown h xmlStack k) depth
    | None => markdownHandlers.default t (treeToMarkdown h xmlStack k) depth
    end.
Proof.
  unfold treeToMarkdown. cbn [makeTransformer].
  unfold markdownHandlers.mhandler.
  destruct (lookup (type t) (markdownHandlers.table h xmlStack));
    reflexivity.
Qed.

Ltac dispatch T :=
  rewrite tree_dispatch, <- T;
  cbn [lookup String.eqb Ascii.eqb Bool.eqb markdownHandlers.table].

(** A plain node renders when its children do. *)
Lemma plain_node_renders (h : Host) (xmlStack k : nat) (t : tnode)
  (depth : Z) :
  (0 <= depth)%Z ->
  plainShape t ->
  (forall c d, In c (childList t) -> (0 <= d)%Z ->
               exists md, treeToMarkdown h xmlStack k c d = Ok md) ->
  exists md, treeToMarkdown h xmlStack (S k) t depth = Ok md.
Proof.
  intros Hd [V [P S]] Hc.
  assert (R0 : exists md,
             markdownHandlers.renderAll (treeToMarkdown h xmlStack k)
               (children t) depth = Ok md).
  { apply renderAll_ok. intros c Hin. apply Hc; assumption. }
  assert (R1 : exists md,
             markdownHandlers.renderAll (treeToMarkdown h xmlStack k)
               (children t) (depth + 1) = Ok md).
  { apply renderAll_ok. intros c Hin. apply Hc; [assumption | lia]. }
  destruct R0 as [b0 R0]. destruct R1 as [b1 R1].
  destruct S as [[T|[T|[T|[T|[T|[T|[T|[]]]]]]]]|[[T|[T|[T|[]]]] [f F]]];
    dispatch T.
  - rewrite (about_heading t _ depth _ Hd eq_refl).
    unfold headingBody. cbn [String.eqb Ascii.eqb Bool.eqb].
    rewrite R1. cbn [bind]. eauto.
  - unfold markdownHandlers.vertical. eauto.
  - unfold markdownHandlers.html. eauto.
  - unfold markdownHandlers.problem. rewrite R0. cbn [bind]. eauto.
  - unfold markdownHandlers.video.
    repeat match goal with
           | |- context [if ?c then _ else _] => destruct c
           end; eauto.
  - unfold markdownHandlers.htmlContent.
    destruct (markdownHandlers.htmlContent_read h xmlStack t) as [[b v]|];
      eauto.
  - unfold markdownHandlers.default. eauto.
  - destruct (title_of_file h t f F) as [name N].
    rewrite (course_heading h t _ depth name Hd N).
    unfold headingBody. cbn [String.eqb Ascii.eqb Bool.eqb].
    rewrite R1. cbn [bind]. eauto.
  - destruct (title_of_file h t f F) as [name N].
    rewrite (chapter_heading h t _ depth name Hd N).
    unfold headingBody. cbn [String.eqb Ascii.eqb Bool.eqb].
    rewrite R1. cbn [bind]. eauto.
  - destruct (title_of_file h t f F) as [name N].
    rewrite (sequential_heading h t _ depth name Hd N).
    unfold headingBody. cbn [String.eqb Ascii.eqb Bool.eqb].
    rewrite V, P, R1. cbn [markdownHandlers.renderAll bind]. eauto.
Qed.

Lemma plainTree_renders (h : Host) (xmlStack k : nat) :
  forall (t : tnode) (depth : Z),
    (0 <= depth)%Z ->
    plainTree k t ->
    exists md, treeToMarkdown h xmlStack k t depth = Ok md.
Proof.
  induction k as [|k IH]; intros t depth Hd H; [destruct H|].
  destruct H as [S F].
  apply plain_node_renders; [exact Hd | exact S |].
  intros c d Hin Hd'. apply IH; [exact Hd'|].
  rewrite Forall_forall in F. apply F. exact Hin.
Qed.

Lemma plainTree_mono (k k' : nat) (t : tnode) :
  (k <= k')%nat -> plainTree k t -> plainTree k' t.
Proof.
  revert k' t. induction k as [|k IH]; intros k' t L H; [destruct H|].
  destruct k' as [|k']; [lia|].
  destruct H as [S F]. split; [exact S|].
  rewrite Forall_forall in *. intros c Hin.
  apply (IH k' c); [lia | apply F; exact Hin].
Qed.

Lemma plain_leaf (k : nat) (dn : value) (f : string) :
  plainTree (S k) (leaf "htmlContent" dn f).
Proof.
  split.
  - split; [reflexivity|]. split; [reflexivity|]. left. cbn. tauto.
  - constructor.
Qed.

(** What the builder returns is a plain tree, two levels higher at most
    than the stack it was built with. *)
Lemma buildTree_plain (h : Host) (s : nat) :
  forall (filePath type0 : string) (t : tnode),
    buildTree h s filePath type0 = Ok (Some t) ->
    plainTree (s + 2) t.
Proof.
  induction s as [|s IH]; intros filePath type0 t H; [discriminate H|].
  cbn [buildTree] in H.
  repeat build_step H; try discriminate; injection H as <-.
  all: replace (S s + 2)%nat with (S (S (S s))) by lia.
  all: split; [split; [reflexivity|]; split; [reflexivity|]; cbn; eauto 12|].
  all: cbn [childList children inner].
  all: repeat match goal with
         | |- Forall _ [] => constructor
         | |- Forall _ (_ :: _) => constructor
         | |- Forall _ (_ ++ _) => apply Forall_app; split
         | |- plainTree (S _) (leaf _ _ _) => apply plain_leaf
         end.
  all: try (split;
            [ split; [reflexivity|]; split; [reflexivity|]; cbn; tauto
            | cbn [childList children inner];
              constructor; [apply plain_leaf | constructor] ]).
  all: rewrite Forall_forall; intros c Hin;
    match goal with
    | M : mapM _ _ = Ok ?a, Hin : In _ (compact ?a) |- _ =>
        destruct (In_compact_mapM _ _ _ _ M Hin) as [x [_ Hx]]
    end;
    repeat (build_step Hx || option_step Hx); try discriminate;
    try (injection Hx as <-).
  all: try (replace (S (S s)) with (s + 2)%nat by lia; eapply IH; eassumption).
  (* a container around the children of a built vertical *)
  match goal with
  | B : buildTree h s _ _ = Ok (Some ?v) |- _ =>
      pose proof (IH _ _ _ B) as Pv
  end.
  replace (s + 2)%nat with (S (S s)) in Pv by lia.
  destruct Pv as [_ Fv]. unfold childList in Fv.
  match goal with
  | C : children _ = Some _ |- _ => rewrite C in Fv
  end.
  split.
  - split; [reflexivity|]. split; [reflexivity|]. left. cbn. tauto.
  - exact Fv.
Qed.

(** X13.  The renderer never throws on a tree the builder returned,
    given two more levels of stack than the builder had: every heading
    finds a name, and a quiz that fails to render has become a banner. *)
Theorem built_tree_always_renders
  (h : Host) (xmlStack stack k : nat) (filePath type0 : string)
  (tree : option tnode) :
  buildTree h stack filePath type0 = Ok tree ->
  (stack + 2 <= k)%nat ->
  exists markdown : string, renderTree h xmlStack k tree = Ok markdown.
Proof.
  intros B L. destruct tree as [t|]; cbn [renderTree]; [|eauto].
  apply plainTree_renders; [lia|].
  apply (plainTree_mono (stack + 2) k t L).
  exact (buildTree_plain h stack filePath type0 t B).
Qed.

Lemma built_tree_always_renders_witness :
  exists markdown : string,
    renderTree Samples.host 5 7
      (match buildTree Samples.host 5 "c/course/course.xml" "course" with
       | Ok tree => tree
       | Throw _ => None
       end)
    = Ok markdown.
Proof.
  destruct (buildTree Samples.host 5 "c/course/course.xml" "course")
    as [tree|e] eqn:B; [|vm_compute in B; discriminate B].
  apply (built_tree_always_renders Samples.host 5 5 7
           "c/course/course.xml" "course" tree B).
  repeat constructor.
Defined.

Lemma renderAll_same (tr tr' : tnode -> Z -> res string) (t : tnode)
  (d d' : Z) :
  (forall c, In c (childList t) -> tr c d = tr' c d') ->
  markdownHandlers.renderAll tr (children t) d
  = markdownHandlers.renderAll tr' (children t) d'.
Proof.
  unfold childList, markdownHandlers.renderAll.
  destruct (children t) as [l|]; intros H; [|reflexivity].
  rewrite (mapM_ext (fun c => tr c d) (fun c => tr' c d') l H).
  reflexivity.
Qed.

(** The handler of a kind that bears no heading. *)
Lemma lookup_below_headings (h : Host) (xmlStack : nat) (ty : string) :
  ~ In ty ["about"; "course"; "chapter"; "sequential"] ->
  In (lookup ty (markdownHandlers.table h xmlStack))
    [Some markdownHandlers.vertical;
     Some (markdownHandlers.problem h xmlStack);
     Some markdownHandlers.html;
     Some (markdownHandlers.htmlContent h xmlStack);
     Some (markdownHandlers.image h);
     Some markdownHandlers.video;
     Some markdownHandlers.default;
     None].
Proof.
  intros N. unfold markdownHandlers.table. cbn [lookup].
  repeat match goal with
         | |- context [if ?x =? ?y then _ else _] =>
             let E := fresh "E" in
             destruct (x =? y) eqn:E;
             [ apply String.eqb_eq in E;
               try (exfalso; apply N; subst ty; cbn; tauto)
             | ]
         end; cbn [In]; tauto.
Qed.

(** X14.  Below the headings the depth is irrelevant: a tree without a
    heading-bearing node renders the same at every depth, so the deeper
    level at which a container hands its children on leaves no trace in
    the output. *)
Theorem depth_irrelevant_below_headings
  (h : Host) (xmlStack k : nat) (t : tnode) (d d' : Z) :
  headingFree t ->
  treeToMarkdown h xmlStack k t d = treeToMarkdown h xmlStack k t d'.
Proof.
  revert t d d'. induction k as [|k IH]; intros t d d' H; [reflexivity|].
  destruct H as [t N F]. rewrite Forall_forall in F.
  rewrite !tree_dispatch.
  assert (C : forall a a', markdownHandlers.renderAll
                (treeToMarkdown h xmlStack k) (children t) a
              = markdownHandlers.renderAll
                  (treeToMarkdown h xmlStack k) (children t) a').
  { intros a a'. apply renderAll_same. intros c Hin.
    apply IH. apply F. exact Hin. }
  pose proof (lookup_below_headings h xmlStack (type t) N) as L.
  cbn [In] in L.
  destruct L as [L|[L|[L|[L|[L|[L|[L|[L|[]]]]]]]]]; rewrite <- L.
  - apply C.
  - unfold markdownHandlers.problem. rewrite (C d d'). reflexivity.
  - apply C.
  - reflexivity.
  - reflexivity.
  - reflexivity.
  - apply C.
  - apply C.
Qed.

Lemma depth_irrelevant_below_headings_witness :
  treeToMarkdown Samples.host 1 3 MoreSamples.containerOfProblem 0
  = treeToMarkdown Samples.host 1 3 MoreSamples.containerOfProblem 5.
Proof.
  apply (depth_irrelevant_below_headings Samples.host 1 3
           MoreSamples.containerOfProblem 0 5).
  constructor.
  - cbn. intuition discriminate.
  - constructor; [|constructor].
    constructor.
    + cbn. intuition discriminate.
    + constructor.
Defined.

(* ------------------------------------------------------------------ *)
(** ** Lists in the HTML handlers *)

Lemma trimEnd_items (xs : list string) :
  xs <> [] ->
  Forall (fun x => x <> EmptyString /\ trimEnd x = x) xs ->
  trimEnd (concatStr (map (fun x => "- " ++ x ++ nl) xs))
  = joinStr nl (map (fun x => "- " ++ x) xs).
Proof.
  induction xs as [|x xs IH]; intros N F; [contradiction|].
  inversion F as [|x0 l [Hx Tx] F']. subst.
  unfold concatStr. cbn [map fold_right].
  fold (concatStr (map (fun x => "- " ++ x ++ nl) xs)).
  destruct xs as [|y ys].
  - cbn [map concatStr fold_right joinStr]. rewrite append_nil_r.
    change ("- " ++ x ++ nl) with (String "-" (String " " (x ++ nl))).
    replace (String "-" (String " " (x ++ nl))) with (("- " ++ x) ++ nl)
      by (rewrite append_assoc; reflexivity).
    rewrite trimEnd_line_break.
    change ("- " ++ x) with (String "-" (String " " x)).
    rewrite trimEnd_dash, trimEnd_space, Tx; [reflexivity|].
    destruct (blank x) eqn:B; [|reflexivity].
    rewrite (trimEnd_blank x B) in Tx. congruence.
  - assert (R : trimEnd (concatStr (map (fun x => "- " ++ x ++ nl) (y :: ys)))
                = joinStr nl (map (fun x => "- " ++ x) (y :: ys))).
    { apply IH; [discriminate | exact F']. }
    assert (D : exists r,
               concatStr (map (fun x => "- " ++ x ++ nl) (y :: ys))
               = String "-" r).
    { unfold concatStr. cbn [map fold_right]. eexists. reflexivity. }
    destruct D as [r D].
    rewrite D, trimEnd_before_dash, <- D, R.
    cbn [map joinStr]. rewrite !append_assoc. reflexivity.
Qed.

Lemma split_not_nil (sep : ascii) (s : string) : split sep s <> [].
Proof.
  destruct s as [|c r]; cbn [split]; [discriminate|].
  destruct (c =? sep)%char; [discriminate|].
  destruct (split sep r); discriminate.
Qed.

Lemma split_line (sep : ascii) (a : string) :
  hasChar sep a = false -> split sep a = [a].
Proof.
  induction a as [|c a IH]; cbn [hasChar split]; [reflexivity|].
  intros H. apply orb_false_iff in H as [C H].
  rewrite C, (IH H). reflexivity.
Qed.

Lemma split_first_line (sep : ascii) (a rest : string) :
  hasChar sep a = false ->
  split sep (a ++ String sep rest) = a :: split sep rest.
Proof.
  induction a as [|c a IH]; cbn [hasChar append split].
  - intros _. rewrite Ascii.eqb_refl. reflexivity.
  - intros H. apply orb_false_iff in H as [C H].
    rewrite C, (IH H). reflexivity.
Qed.

Lemma split_join (lines : list string) :
  lines <> [] ->
  Forall (fun l => hasChar "010"%char l = false) lines ->
  split "010"%char (joinStr nl lines) = lines.
Proof.
  induction lines as [|l lines IH]; intros N F; [contradiction|].
  inversion F as [|l0 ls Hl F']. subst.
  destruct lines as [|m ms].
  - cbn [joinStr]. apply split_line. exact Hl.
  - change (joinStr nl (l :: m :: ms))
      with (l ++ String "010"%char (joinStr nl (m :: ms))).
    rewrite (split_first_line _ _ _ Hl), IH; [reflexivity | discriminate | exact F'].
Qed.

Lemma trimEnd_head (s : string) :
  exists r, trimEnd (String "-" s) = String "-" r.
Proof. eexists. apply trimEnd_dash. Qed.

Lemma numberedLines_items (counter : nat) (xs : list string) :
  htmlHandlers.numberedLines counter (map (fun x => "- " ++ x) xs)
  = numbered counter xs.
Proof.
  revert counter. induction xs as [|x xs IH]; intros counter;
    cbn [map htmlHandlers.numberedLines numbered]; [reflexivity|].
  unfold trim. change (trimStart ("- " ++ x)) with (String "-" (String " " x)).
  destruct (trimEnd_head (String " " x)) as [r Hr].
  rewrite Hr, IH.
  assert (P : forall s, String.prefix "-" (String "-" s) = true).
  { intros s. cbn [String.prefix].
    destruct (ascii_dec "-" "-") as [_|N]; [|contradiction].
    destruct s; reflexivity. }
  rewrite P. f_equal.
  change ("- " ++ x) with (String "-" (String " " x)).
  cbn [replace]. rewrite P.
  cbn [String.length dropChars]. rewrite append_assoc. reflexivity.
Qed.

Lemma hasChar_app (c : ascii) (a b : string) :
  hasChar c (a ++ b) = hasChar c a || hasChar c b.
Proof.
  induction a as [|x a IH]; cbn [append hasChar]; [reflexivity|].
  rewrite IH, orb_assoc. reflexivity.
Qed.

(** X15.  List items compose with the two list handlers: the items,
    each on one line, rendered by [li] and handed to [ul] give the
    dashed lines followed by a blank line, and handed to [ol] give the
    same lines numbered from 1 in order. *)
Theorem list_items_compose (items : list string) :
  items <> [] ->
  Forall oneLine items ->
  htmlHandlers.ul (concatStr (map htmlHandlers.li items))
  = joinStr nl (map (fun t => "- " ++ trim t) items) ++ nl ++ nl /\
  htmlHandlers.ol (concatStr (map htmlHandlers.li items))
  = joinStr nl (numbered 1 (map trim items)) ++ nl ++ nl.
Proof.
  intros N F.
  assert (E : map htmlHandlers.li items
              = map (fun x => "- " ++ x ++ nl) (map trim items)).
  { rewrite map_map. reflexivity. }
  assert (T : trim (concatStr (map htmlHandlers.li items))
              = joinStr nl (map (fun x => "- " ++ x) (map trim items))).
  { rewrite E. unfold trim at 1.
    destruct items as [|t ts]; [contradiction|].
    cbn [map]. unfold concatStr at 1. cbn [fold_right].
    change (trimStart (("- " ++ trim t ++ nl) ++ ?r))
      with (("- " ++ trim t ++ nl) ++ r).
    change (("- " ++ trim t ++ nl)
            ++ fold_right append EmptyString
                 (map (fun x => "- " ++ x ++ nl) (map trim ts)))
      with (concatStr (map (fun x => "- " ++ x ++ nl)
                         (map trim (t :: ts)))).
    apply trimEnd_items; [discriminate|].
    rewrite Forall_map. revert F. apply Forall_impl.
    intros a [Ha _]. split; [exact Ha | apply trimEnd_idem]. }
  split.
  - unfold htmlHandlers.ul. rewrite T, map_map. reflexivity.
  - unfold htmlHandlers.ol. rewrite T. cbv zeta.
    rewrite split_join.
    + rewrite numberedLines_items. reflexivity.
    + destruct items; [contradiction | discriminate].
    + rewrite !Forall_map. revert F. apply Forall_impl.
      intros a [_ Ha]. cbn [hasChar Ascii.eqb Bool.eqb orb]. exact Ha.
Qed.

Lemma list_items_compose_witness :
  htmlHandlers.ul (concatStr (map htmlHandlers.li ["Item 1"; " Item 2 "]))
  = "- Item 1" ++ nl ++ "- Item 2" ++ nl ++ nl /\
  htmlHandlers.ol (concatStr (map htmlHandlers.li ["Item 1"; " Item 2 "]))
  = "1. Item 1" ++ nl ++ "2. Item 2" ++ nl ++ nl.
Proof.
  apply (list_items_compose ["Item 1"; " Item 2 "]).
  - discriminate.
  - repeat constructor; discriminate.
Defined.

(* ------------------------------------------------------------------ *)
(** ** Attributes in the fallback handler *)

Lemma mapM_pure {A B : Type} (F : A -> B) (l : list A) :
  mapM (fun a => Ok (F a)) l = Ok (map F l).
Proof.
  induction l as [|a l IH]; cbn [mapM map bind]; [reflexivity|].
  rewrite IH. reflexivity.
Qed.

Lemma appendValue_scalar (transform : value -> Z -> res value) (key : string)
  (v : value) (depth : Z) (content : string) :
  isElement v = false ->
  xmlhandlers.appendValue transform key v depth content
  = Ok (content ++ scalarText v).
Proof.
  destruct v; cbn [isElement xmlhandlers.appendValue scalarText];
    intros H; try discriminate; try (rewrite append_nil_r); reflexivity.
Qed.

Lemma default_of_scalars
  (o : object) (transform : value -> Z -> res value) (depth : Z) :
  NoDup (map fst o) ->
  truthy (prop (VObj o) "#text") = false ->
  Forall (fun kv => isElement (snd kv) = false) (filter walked o) ->
  xmlhandlers.default_content (VObj o) transform depth
  = Ok (concatStr (map (fun kv => scalarText (snd kv)) (filter walked o))) /\
  (trim (concatStr (map (fun kv => scalarText (snd kv)) (filter walked o)))
   <> EmptyString ->
   xmlhandlers.default (VObj o) transform depth
   = Ok (VStr (concatStr (map (fun kv => scalarText (snd kv))
                            (filter walked o))))).
Proof.
  intros Hd Ht Hs.
  assert (C : xmlhandlers.default_content (VObj o) transform depth
              = Ok (concatStr (map (fun kv => scalarText (snd kv))
                                 (filter walked o)))).
  { unfold xmlhandlers.default_content.
    cbn [isObjectType negb andb keys spread bind].
    rewrite forEach_map.
    rewrite (forEach_ext _ _
               (fun kv content =>
                  if walked kv
                  then xmlhandlers.appendValue transform (fst kv) (snd kv)
                         depth content
                  else Ok content)).
    2:{ intros [k v] c Hin. unfold walked. cbn [fst snd].
        destruct ((k =? "#text") || (k =? "tagName") || (k =? "type"));
          cbn [negb]; [reflexivity|].
        unfold getProp. cbn [spread].
        rewrite (lookup_NoDup o k v Hd Hin). reflexivity. }
    rewrite forEach_filter.
    rewrite (forEach_ext _ _
               (fun kv content =>
                  s <- Ok (scalarText (snd kv)) ;; Ok (content ++ s))).
    2:{ intros kv c Hin. cbn [bind]. apply appendValue_scalar.
        rewrite Forall_forall in Hs. apply Hs. exact Hin. }
    rewrite forEach_mapM, mapM_pure. reflexivity. }
  split; [exact C|].
  intros N. unfold xmlhandlers.default.
  cbn [truthy andb]. rewrite (getProp_truthy (VObj o) "#text" eq_refl).
  cbn [bind]. rewrite Ht, C. cbn [bind].
  apply String.eqb_neq in N. rewrite N. reflexivity.
Qed.

(** X16.  The fallback handler prints attributes: for an element no
    handler knows, without text and without child elements, the content
    is the concatenation of the string values of its properties (other
    scalars add nothing), and this content is what the element renders
    as whenever it is not blank. *)
Theorem fallback_prints_attributes
  (o : object) (transform : value -> Z -> res value) (depth : Z) :
  NoDup (map fst o) ->
  truthy (prop (VObj o) "#text") = false ->
  Forall (fun kv => isElement (snd kv) = false) (filter walked o) ->
  xmlhandlers.default_content (VObj o) transform depth
  = Ok (concatStr (map (fun kv => scalarText (snd kv)) (filter walked o))) /\
  (trim (concatStr (map (fun kv => scalarText (snd kv)) (filter walked o)))
   <> EmptyString ->
   xmlhandlers.default (VObj o) transform depth
   = Ok (VStr (concatStr (map (fun kv => scalarText (snd kv))
                            (filter walked o))))).
Proof.
  exact (default_of_scalars o transform depth).
Qed.

Lemma fallback_prints_attributes_witness :
  xmlhandlers.default (VObj MoreSamples.figureAttributes) (xmlToMarkdown 1) 0%Z
  = Ok (VStr "widef1").
Proof.
  apply (proj2 (fallback_prints_attributes MoreSamples.figureAttributes
                  (xmlToMarkdown 1) 0 ltac:(distinct_keys) eq_refl
                  ltac:(repeat constructor))).
  discriminate.
Defined.

(* ------------------------------------------------------------------ *)
(** ** Demand hints *)

Lemma lookup_setProp_eq (o : object) (k : string) (v : value) :
  lookup k (setProp o k v) = Some v.
Proof.
  induction o as [|[k' v'] o IH]; cbn [setProp lookup].
  - rewrite String.eqb_refl. reflexivity.
  - destruct (k =? k') eqn:E; cbn [lookup].
    + rewrite String.eqb_refl. reflexivity.
    + rewrite E. exact IH.
Qed.

Lemma lookup_setProp_other (o : object) (k k' : string) (v : value) :
  (k =? k') = false -> lookup k (setProp o k' v) = lookup k o.
Proof.
  intros N. induction o as [|[k1 v1] o IH]; cbn [setProp lookup].
  - rewrite N. reflexivity.
  - destruct (k' =? k1) eqn:E; cbn [lookup].
    + apply String.eqb_eq in E. subst k1. rewrite N. reflexivity.
    + rewrite IH. reflexivity.
Qed.

Lemma setProp_fresh (o : object) (k : string) (v : value) :
  lookup k o = None -> setProp o k v = (o ++ [(k, v)])%list.
Proof.
  induction o as [|[k1 v1] o IH]; cbn [setProp lookup app]; [reflexivity|].
  destruct (k =? k1); [discriminate|]. intros H. rewrite IH; auto.
Qed.

Lemma decimal_inj (n m : nat) : decimal n = decimal m -> n = m.
Proof.
  unfold decimal. intros H.
  apply DecimalNat.Unsigned.to_uint_inj.
  apply (f_equal NilEmpty.uint_of_string) in H.
  rewrite !NilEmpty.usu in H. injection H. auto.
Qed.

Lemma indexed_keys (i : nat) (l : list value) (k : string) :
  In k (map fst (indexed i l)) -> exists j, i <= j /\ k = decimal j.
Proof.
  revert i. induction l as [|x l IH]; intros i; cbn [indexed map fst In];
    [intros []|].
  intros [H|H].
  - exists i. split; [lia | symmetry; exact H].
  - destruct (IH _ H) as [j [L E]]. exists j. split; [lia | exact E].
Qed.

Lemma NoDup_indexed (i : nat) (l : list value) :
  NoDup (map fst (indexed i l)).
Proof.
  revert i. induction l as [|x l IH]; intros i; cbn [indexed map fst];
    constructor; [|apply IH].
  intros H. destruct (indexed_keys _ _ _ H) as [j [L E]].
  apply decimal_inj in E. lia.
Qed.

Lemma type_not_index (u : Decimal.uint) :
  ("type" =? NilEmpty.string_of_uint u) = false.
Proof. destruct u; reflexivity. Qed.

Lemma tagName_not_index (u : Decimal.uint) :
  ("tagName" =? NilEmpty.string_of_uint u) = false.
Proof. destruct u; reflexivity. Qed.

Lemma indexed_walked (i : nat) (l : list value) :
  filter walked (indexed i l) = indexed i l.
Proof.
  revert i. induction l as [|x l IH]; intros i; cbn [indexed filter];
    [reflexivity|].
  unfold walked at 1. cbn [fst]. unfold decimal at 1 2 3.
  rewrite !(String.eqb_sym (NilEmpty.string_of_uint _)).
  rewrite text_not_index, tagName_not_index, type_not_index.
  cbn [orb negb]. rewrite IH. reflexivity.
Qed.

Lemma indexed_chars (i : nat) (s : string) :
  concatStr (map (fun kv => scalarText (snd kv)) (indexed i (chars s))) = s.
Proof.
  revert i. induction s as [|c s IH]; intros i; [reflexivity|].
  cbn [chars indexed map snd scalarText]. unfold concatStr in *.
  cbn [fold_right]. rewrite IH. reflexivity.
Qed.

Lemma indexed_chars_scalar (i : nat) (s : string) :
  Forall (fun kv : string * value => isElement (snd kv) = false)
    (indexed i (chars s)).
Proof.
  revert i. induction s as [|c s IH]; intros i; cbn [chars indexed];
    constructor; [reflexivity | apply IH].
Qed.

(** The object [{ ...s, type: "_", tagName: "hint" }] of a string [s]:
    its characters under their indices, then the two names. *)
Lemma tagged_string (s type tagName : string) :
  (tagName =? type) = false ->
  xmlhandlers.tagged (VStr s) type tagName
  = VObj (indexed 0 (chars s)
          ++ [("type", VStr type)] ++ [("tagName", VStr tagName)])%list.
Proof.
  intros _. unfold xmlhandlers.tagged. cbn [spread].
  rewrite (setProp_fresh _ "type"),  (setProp_fresh _ "tagName").
  - rewrite <- app_assoc. reflexivity.
  - assert (L : forall o : object,
               lookup "tagName" o = None ->
               lookup "tagName" (o ++ [("type", VStr type)])%list = None).
    { induction o as [|[k v] o IH]; cbn [app lookup]; [reflexivity|].
      destruct ("tagName" =? k); [discriminate | exact IH]. }
    apply L, lookup_indexed_none, tagName_not_index.
  - apply lookup_indexed_none, type_not_index.
Qed.

Lemma tagged_dispatch (h : value) (tagName : string) (stack : nat) (depth : Z) :
  xmlToMarkdown (S stack) (xmlhandlers.tagged h "_" tagName) depth
  = xmlhandlers.default (xmlhandlers.tagged h "_" tagName)
      (xmlToMarkdown stack) depth.
Proof.
  unfold xmlToMarkdown. cbn [makeTransformer].
  unfold kindOfValue, xmlhandlers.tagged. cbn [truthy spread].
  rewrite lookup_setProp_other, lookup_setProp_eq by reflexivity.
  reflexivity.
Qed.

Lemma hint_renders (h : value) (s : string) (stack : nat) (depth : Z) :
  hintText h s ->
  xmlToMarkdown (S stack) (xmlhandlers.tagged h "_" "hint") depth
  = Ok (VStr s).
Proof.
  intros H. rewrite tagged_dispatch. destruct H as [o s T N|s N].
  - unfold xmlhandlers.tagged, xmlhandlers.default. cbn [spread truthy andb].
    unfold getProp. cbn [spread bind].
    rewrite !lookup_setProp_other, T by reflexivity.
    cbn [truthy]. apply String.eqb_neq in N. rewrite N. reflexivity.
  - rewrite tagged_string by reflexivity.
    set (o := (indexed 0 (chars s) ++ _)%list).
    assert (F : filter walked o = indexed 0 (chars s)).
    { unfold o. rewrite filter_app, indexed_walked. cbn [filter app].
      apply app_nil_r. }
    destruct (default_of_scalars o (xmlToMarkdown stack) depth) as [_ D].
    + unfold o. rewrite map_app. apply NoDup_app.
      * apply NoDup_indexed.
      * cbn [map fst app]. repeat constructor; cbn [In]; intuition discriminate.
      * intros k Hk [E|[E|[]]]; subst k;
          destruct (indexed_keys _ _ _ Hk) as [j [_ E]]; unfold decimal in E.
        -- pose proof (type_not_index (Nat.to_uint j)) as Q.
           rewrite <- E, String.eqb_refl in Q. discriminate.
        -- pose proof (tagName_not_index (Nat.to_uint j)) as Q.
           rewrite <- E, String.eqb_refl in Q. discriminate.
    + unfold prop, o. cbn [spread].
      assert (L : forall a b : object,
                 lookup "#text" a = None ->
                 lookup "#text" (a ++ b)%list = lookup "#text" b).
      { intros a b. induction a as [|[k v] a IH]; cbn [app lookup];
          [reflexivity|].
        destruct ("#text" =? k); [discriminate | exact IH]. }
      rewrite L by (apply lookup_indexed_none, text_not_index).
      reflexivity.
    + rewrite F. apply indexed_chars_scalar.
    + rewrite F, indexed_chars in D. apply D. exact N.
Qed.

Lemma hint_lines (hints : list value) (texts : list string)
  (stack : nat) (depth : Z) :
  Forall2 hintText hints texts ->
  mapM (fun h =>
          r <- xmlToMarkdown (S stack) (xmlhandlers.tagged h "_" "hint") depth ;;
          match r with
          | VStr s => Ok ("- [[?]] " ++ trim s)
          | _ => Throw TypeError
          end) hints
  = Ok (map hintLine texts).
Proof.
  intros F. apply mapM_Forall2.
  induction F as [|h s hints texts H _ IH]; cbn [map]; constructor;
    [|exact IH].
  rewrite (hint_renders h s stack depth H). reflexivity.
Qed.

(** X17.  Every hint of a demand-hint element becomes one line
    [- [[?]] text], with the text trimmed, whether the hint arrives as
    an element with a text or as a bare string; the lines are joined by
    a line break with none after the last, and no hint gives the empty
    string. *)
Theorem demandhint_one_line_per_hint
  (node h : value) (texts : list string) (stack : nat) (depth : Z) :
  getProp node "hint" = Ok h ->
  Forall2 hintText (ensureArray h) texts ->
  xmlhandlers.demandhint node (xmlToMarkdown (S stack)) depth
  = Ok (VStr (joinStr nl (map hintLine texts))).
Proof.
  intros G F. unfold xmlhandlers.demandhint. rewrite G. cbn [bind].
  pose proof (hint_lines _ _ stack depth F) as M.
  destruct (ensureArray h) as [|h0 hs].
  - inversion F. reflexivity.
  - rewrite M. reflexivity.
Qed.

Lemma demandhint_one_line_per_hint_witness :
  xmlhandlers.demandhint MoreSamples.twoHints (xmlToMarkdown 1) 0%Z
  = Ok (VStr ("- [[?]] Count again" ++ nl ++ "- [[?]] Try 42")).
Proof.
  apply (demandhint_one_line_per_hint MoreSamples.twoHints _
           [" Count again "; "Try 42"] 0 0 eq_refl).
  repeat constructor; discriminate.
Defined.

(** X18.  A hint whose text is not a string breaks the whole element:
    when the hints before it are well formed and its [#text] is a
    number, [true], an array or an object, the handler throws
    [TypeError] (the text is returned as it is and then trimmed). *)
Theorem demandhint_text_must_be_string
  (node h : value) (before after : list value) (texts : list string)
  (o : object) (t : value) (stack : nat) (depth : Z) :
  getProp node "hint" = Ok h ->
  ensureArray h = (before ++ VObj o :: after)%list ->
  Forall2 hintText before texts ->
  lookup "#text" o = Some t ->
  truthy t = true ->
  (forall s, t <> VStr s) ->
  xmlhandlers.demandhint node (xmlToMarkdown (S stack)) depth
  = Throw TypeError.
Proof.
  intros G E F T Y N. unfold xmlhandlers.demandhint. rewrite G. cbn [bind].
  rewrite E.
  assert (M : forall f : value -> res string,
             (forall a s, hintText a s -> exists r, f a = Ok r) ->
             f (VObj o) = Throw TypeError ->
             mapM f (before ++ VObj o :: after)%list = Throw TypeError).
  { intros f Hf Ho. clear E. induction F as [|a s l ts H _ IH];
      cbn [app mapM].
    - rewrite Ho. reflexivity.
    - destruct (Hf a s H) as [r ->]. cbn [bind]. rewrite IH. reflexivity. }
  match goal with
  | |- context [mapM ?f _] => pose proof (M f) as Mf
  end.
  assert (T' : mapM
                 (fun h =>
                    r <- xmlToMarkdown (S stack)
                           (xmlhandlers.tagged h "_" "hint") depth ;;
                    match r with
                    | VStr s => Ok ("- [[?]] " ++ trim s)
                    | _ => Throw TypeError
                    end) (before ++ VObj o :: after)%list
               = Throw TypeError).
  { apply Mf.
    - intros a s H. rewrite (hint_renders a s stack depth H). cbn [bind].
      eauto.
    - rewrite tagged_dispatch.
      unfold xmlhandlers.tagged, xmlhandlers.default.
      cbn [spread truthy andb].
      unfold getProp. cbn [spread bind].
      rewrite !lookup_setProp_other, T by reflexivity.
      rewrite Y. cbn [bind]. destruct t; try reflexivity.
      exfalso. exact (N _ eq_refl). }
  clear Mf M.
  destruct (before ++ VObj o :: after)%list.
  - cbn [mapM] in T'. discriminate.
  - rewrite T'. reflexivity.
Qed.

Lemma demandhint_text_must_be_string_witness :
  xmlhandlers.demandhint MoreSamples.numberedHint (xmlToMarkdown 1) 0%Z
  = Throw TypeError.
Proof.
  apply (demandhint_text_must_be_string MoreSamples.numberedHint _ [] [] []
           _ _ 0 0 eq_refl eq_refl ltac:(constructor) eq_refl eq_refl).
  discriminate.
Defined.

(* ------------------------------------------------------------------ *)
(** ** Assets *)

Lemma collectAssets_fold (h : Host) (dir baseName : string)
  (files : list string) (acc : list tnode) :
  fold_left
    (fun assets file =>
       if endsWith file ".xml" then assets
       else if basenameExt h file (extname h file) =? baseName
            then (assets
                  ++ [leaf (assetType (extname h file)) (VStr file)
                        (join h [dir; file])])%list
            else assets)
    files acc
  = (acc
     ++ map (fun file => leaf (assetType (extname h file)) (VStr file)
                           (join h [dir; file]))
          (filter (fun file =>
                     negb (endsWith file ".xml")
                     && (basenameExt h file (extname h file) =? baseName))
             files))%list.
Proof.
  revert acc. induction files as [|f files IH]; intros acc;
    cbn [fold_left filter map].
  - rewrite app_nil_r. reflexivity.
  - rewrite IH. destruct (endsWith f ".xml"); cbn [negb andb]; [reflexivity|].
    destruct (basenameExt h f (extname h f) =? baseName); [|reflexivity].
    cbn [map]. rewrite <- app_assoc. reflexivity.
Qed.

(** X19.  The assets of an XML file are the files of its directory that
    share its base name and are not XML files, in directory order: each
    asset is named after its file, records the file's path inside the
    directory and has the kind its extension gives; no asset is an XML
    file. *)
Theorem collectAssets_lists_companions
  (h : Host) (readdirSync : string -> res (list string))
  (filePath : string) (files : list string) :
  readdirSync (dirname h filePath) = Ok files ->
  map display_name (collectAssets h readdirSync filePath)
  = map VStr (filter (companion h filePath) files) /\
  Forall (fun a =>
            exists f,
              In f files /\ endsWith f ".xml" = false /\
              display_name a = VStr f /\
              file a = Some (join h [dirname h filePath; f]) /\
              type a = assetType (extname h f) /\
              children a = None)
    (collectAssets h readdirSync filePath).
Proof.
  intros R. unfold collectAssets. rewrite R. cbv zeta.
  rewrite (collectAssets_fold h (dirname h filePath)
             (basenameExt h filePath ".xml") files []).
  cbn [app]. split.
  - rewrite map_map. reflexivity.
  - rewrite Forall_map, Forall_forall. intros f Hf.
    apply filter_In in Hf. destruct Hf as [Hin Hc].
    apply andb_prop in Hc. destruct Hc as [Hx _].
    exists f. cbn [leaf display_name file type children].
    destruct (endsWith f ".xml"); [discriminate|]. auto 8.
Qed.

Lemma collectAssets_lists_companions_witness :
  map display_name
    (collectAssets Samples.host MoreSamples.listing "c/html/h1.xml")
  = [VStr "h1.html"; VStr "h1"].
Proof.
  exact (proj1 (collectAssets_lists_companions Samples.host
                  MoreSamples.listing "c/html/h1.xml" _ eq_refl)).
Defined.

(* ------------------------------------------------------------------ *)
(** ** Images and file contents *)

(** X20.  An image link keeps the file name only: a leading slash of
    the source makes no difference, an empty [alt] is the same as none,
    and the link is [![alt](../images/name)] followed by a blank line,
    where [alt] falls back to [Image]. *)
Theorem img_links_by_file_name
  (h : Host) (src : string) (alt : option string) :
  src <> EmptyString ->
  (forall r, src <> String "/" r) ->
  htmlHandlers.img h (Some (String "/" src)) alt
  = htmlHandlers.img h (Some src) alt /\
  htmlHandlers.img h (Some src) (Some EmptyString)
  = htmlHandlers.img h (Some src) None /\
  htmlHandlers.img h (Some src) alt
  = "![" ++ htmlHandlers.attributeOr alt "Image"
    ++ "](../images/" ++ basename h src ++ ")" ++ nl ++ nl.
Proof.
  intros N S. unfold htmlHandlers.img.
  cbn [htmlHandlers.attributeOr String.eqb Ascii.eqb Bool.eqb].
  cbv zeta. apply String.eqb_neq in N. rewrite N.
  destruct src as [|c r]; [discriminate|].
  assert (C : match String c r with
              | String "/"%char r' => r'
              | _ => String c r
              end = String c r).
  { destruct c as [[] [] [] [] [] [] [] []]; try reflexivity.
    exfalso. exact (S r eq_refl). }
  rewrite C. repeat split.
Qed.

Lemma img_links_by_file_name_witness :
  htmlHandlers.img Samples.host (Some "/static/uq_duck_meeting.jpg")
    (Some "UQ Ducks")
  = "![UQ Ducks](../images/uq_duck_meeting.jpg)" ++ nl ++ nl.
Proof.
  rewrite (proj1 (img_links_by_file_name Samples.host
                    "static/uq_duck_meeting.jpg" (Some "UQ Ducks")
                    ltac:(discriminate) ltac:(discriminate))).
  exact (proj2 (proj2 (img_links_by_file_name Samples.host
                         "static/uq_duck_meeting.jpg" (Some "UQ Ducks")
                         ltac:(discriminate) ltac:(discriminate)))).
Defined.

(** X21.  For a file whose extension is [.xml] in any letter case, the
    [type] argument of [readFileContent] makes no difference: the file
    is read as XML also when [html] is asked for. *)
Theorem xml_extension_overrides_type
  (h : Host) (stack : nat) (filePath type1 type2 : string) :
  toLowerCase (extname h filePath) = ".xml" ->
  readFileContent h stack filePath type1
  = readFileContent h stack filePath type2.
Proof.
  intros E. unfold readFileContent, readFileContent_at. cbv zeta.
  rewrite E. change (".xml" =? ".xml") with true.
  rewrite !orb_true_r. reflexivity.
Qed.

Lemma xml_extension_overrides_type_witness :
  readFileContent Samples.host 9 "c/problem/p1.xml" "html"
  = readFileContent Samples.host 9 "c/problem/p1.xml" "auto".
Proof.
  apply (xml_extension_overrides_type Samples.host 9 "c/problem/p1.xml").
  reflexivity.
Defined.

(** X22.  An XML file the parser finds empty is not reported as a parse
    error: its root node has no kind, so the fallback handler renders it
    and the result is the banner for unsupported content named
    [unknown]. *)
Theorem empty_document_is_unsupported
  (h : Host) (stack : nat) (filePath type text : string) :
  existsSync h filePath = true ->
  toLowerCase (extname h filePath) = ".xml" ->
  readFileSync h filePath = Ok text ->
  xmlParse h text = Ok (VObj []) ->
  readFileContent_at h (S stack) filePath type
  = (XmlRendered, VStr (xmlhandlers.unsupported "unknown")).
Proof.
  intros X E R P. unfold readFileContent_at, readXmlFile. cbv zeta.
  rewrite X, E, R, P. change (".xml" =? ".xml") with true.
  rewrite orb_true_r. reflexivity.
Qed.

Lemma empty_document_is_unsupported_witness :
  readFileContent_at MoreSamples.emptyHost 1 "c/problem/empty.XML" "auto"
  = (XmlRendered, VStr (xmlhandlers.unsupported "unknown")).
Proof.
  apply (empty_document_is_unsupported MoreSamples.emptyHost 0
           "c/problem/empty.XML" "auto" EmptyString);
    reflexivity.
Defined.

(* ------------------------------------------------------------------ *)
(** ** The fallback handler *)

Lemma appendValue_elements (transform : value -> Z -> res value)
  (key : string) (depth : Z) (l rs : list value) (content : string) :
  Forall2 (fun child r =>
             transform (xmlhandlers.childNode key child) depth = Ok r) l rs ->
  xmlhandlers.appendValue transform key (VArr l) depth content
  = Ok (content ++ concatStr (map toStr rs)).
Proof.
  intros F. cbn [xmlhandlers.appendValue]. unfold forEach. revert content.
  induction F as [|child r l rs H _ IH]; intros content;
    cbn [fold_left map bind].
  - cbn [concatStr fold_right]. rewrite append_nil_r. reflexivity.
  - rewrite H. cbn [bind]. rewrite IH.
    unfold concatStr. cbn [fold_right]. rewrite append_assoc. reflexivity.
Qed.

Lemma appendValue_contributes (transform : value -> Z -> res value)
  (depth : Z) (kv : string * value) (piece content : string) :
  contributes transform depth kv piece ->
  xmlhandlers.appendValue transform (fst kv) (snd kv) depth content
  = Ok (content ++ piece).
Proof.
  intros [key l rs F|key o r H|key v S]; cbn [fst snd].
  - apply appendValue_elements. exact F.
  - cbn [xmlhandlers.appendValue]. rewrite H. reflexivity.
  - apply appendValue_scalar. exact S.
Qed.

Lemma forEach_pieces {A : Type} (f : A -> string -> res string)
  (l : list A) (pieces : list string) :
  Forall2 (fun a piece => forall c, f a c = Ok (c ++ piece)) l pieces ->
  forall c, forEach l f c = Ok (c ++ concatStr pieces).
Proof.
  unfold forEach.
  induction 1 as [|a piece l pieces H _ IH]; intros c; cbn [fold_left bind].
  - cbn [concatStr fold_right]. rewrite append_nil_r. reflexivity.
  - rewrite H, IH. unfold concatStr. cbn [fold_right].
    rewrite append_assoc. reflexivity.
Qed.

(** The content the fallback handler builds is the concatenation of
    what the properties it walks through contribute. *)
Lemma default_content_pieces
  (o : object) (pieces : list string)
  (transform : value -> Z -> res value) (depth : Z) :
  NoDup (map fst o) ->
  Forall2 (contributes transform depth) (filter walked o) pieces ->
  xmlhandlers.default_content (VObj o) transform depth
  = Ok (concatStr pieces).
Proof.
  intros Hd F. unfold xmlhandlers.default_content.
  cbn [isObjectType negb andb keys spread bind].
  rewrite forEach_map.
  rewrite (forEach_ext _ _
             (fun kv content =>
                if walked kv
                then xmlhandlers.appendValue transform (fst kv) (snd kv)
                       depth content
                else Ok content)).
  2:{ intros [k v] c Hin. unfold walked. cbn [fst snd].
      destruct ((k =? "#text") || (k =? "tagName") || (k =? "type"));
        cbn [negb]; [reflexivity|].
      unfold getProp. cbn [spread].
      rewrite (lookup_NoDup o k v Hd Hin). reflexivity. }
  rewrite forEach_filter.
  rewrite (forEach_pieces _ _ pieces); [reflexivity|].
  revert F. apply Forall2_impl. intros kv piece C c.
  apply appendValue_contributes. exact C.
Qed.



(* ------------------------------------------------------------------ *)
(** ** References to absent files *)

Lemma buildTree_absent (h : Host) (stack : nat) (filePath type0 : string) :
  absentFile h filePath ->
  buildTree h (S stack) filePath type0 = Ok None.
Proof.
  intros A. cbn [buildTree].
  destruct (parseXmlFile_absent h filePath A) as [H|[H|H]].
  - rewrite H. reflexivity.
  - rewrite H, orb_true_r. reflexivity.
  - destruct (negb (existsSync h filePath)
              || negb (endsWith filePath ".xml")); [reflexivity|].
    rewrite H. reflexivity.
Qed.

Lemma referenced_built (h : Host) (stack : nat) (parentDir kind : string)
  (ref : value) (r : option tnode) :
  referenced h (S stack) parentDir kind ref r ->
  (p <- refPath h parentDir kind ref ;; buildTree h (S stack) p kind) = Ok r.
Proof.
  intros [p P A|p r' P B]; rewrite P; cbn [bind].
  - apply buildTree_absent. exact A.
  - exact B.
Qed.

Lemma referenced_guarded (h : Host) (stack : nat) (parentDir kind : string)
  (ref : value) (r : option tnode) :
  referenced h (S stack) parentDir kind ref r ->
  (p <- refPath h parentDir kind ref ;;
   if existsSync h p then buildTree h (S stack) p kind else Ok None) = Ok r.
Proof.
  intros [p P A|p r' P B]; rewrite P; cbn [bind].
  - destruct (existsSync h p); [|reflexivity].
    apply buildTree_absent. exact A.
  - destruct (existsSync h p) eqn:E; [exact B|].
    cbn [buildTree] in B. rewrite E in B. cbn [negb orb] in B.
    exact B.
Qed.

Lemma referenced_containers (h : Host) (stack : nat) (parentDir : string)
  (refs : list value) (rs : list (option tnode)) :
  Forall2 (referenced h (S stack) parentDir "vertical") refs rs ->
  exists cs : list (option tnode),
    mapM (fun vert =>
            verticalPath <- refPath h parentDir "vertical" vert ;;
            verticalNode <- buildTree h (S stack) verticalPath "vertical" ;;
            u <- getProp vert "url_name" ;;
            Ok (match verticalNode with
                | Some v =>
                    match children v with
                    | Some cs =>
                        Some {| type := "vertical-container";
                                display_name := display_name v;
                                file := None;
                                children := Some cs;
                                verticals := None; problems := None;
                                url_name := u;
                                problemData := VUndef;
                                videoData := VUndef |}
                    | None => None
                    end
                | None => None
                end))
      refs = Ok cs /\
    compact cs = containers refs rs.
Proof.
  induction 1 as [|ref r refs rs R _ [cs [M C]]].
  - exists []. split; reflexivity.
  - assert (B : exists p u,
               refPath h parentDir "vertical" ref = Ok p /\
               getProp ref "url_name" = Ok u /\ u = prop ref "url_name" /\
               buildTree h (S stack) p "vertical" = Ok r).
    { destruct R as [p P A|p r' P B].
      - unfold refPath in P.
        destruct (getProp ref "url_name") as [u|e] eqn:U; [|discriminate P].
        exists p, u. unfold refPath. rewrite U.
        repeat split; [exact P | apply (getProp_ok _ _ _ U)|].
        apply buildTree_absent. exact A.
      - unfold refPath in P.
        destruct (getProp ref "url_name") as [u|e] eqn:U; [|discriminate P].
        exists p, u. unfold refPath. rewrite U.
        repeat split; [exact P | apply (getProp_ok _ _ _ U) | exact B]. }
    destruct B as [p [u [P [U [Eu B]]]]].
    destruct r as [v|].
    + destruct (buildTree_has_children h (S stack) p "vertical" v B)
        as [vs V].
      eexists. cbn [mapM]. rewrite P. cbn [bind]. rewrite B. cbn [bind].
      rewrite U. cbn [bind]. rewrite V, M. cbn [bind].
      split; [reflexivity|].
      cbn [compact containers]. rewrite C. f_equal.
      unfold containerOf. rewrite V, Eu. reflexivity.
    + exists (None :: cs). cbn [mapM]. rewrite P. cbn [bind].
      rewrite B. cbn [bind]. rewrite U. cbn [bind]. rewrite M.
      split; [reflexivity | exact C].
Qed.

Lemma rootElement_truthy (obj : value) (kind : string) :
  rootElement obj kind -> truthy obj = true.
Proof.
  intros [T _]. unfold prop in T.
  destruct obj as [| |b|n|s|l|o]; try reflexivity;
    cbn [spread lookup truthy] in *; try discriminate.
  destruct s; [discriminate T | reflexivity].
Qed.

Ltac other_root R k :=
  rewrite (proj2 R k) by (cbn [In]; first [tauto | discriminate]).

(** One step into the builder for an existing [.xml] file that parses
    and is not an [about] file. *)
Ltac enter_builder X E R :=
  match goal with
  | |- buildTree _ (S ?k) _ _ = _ =>
      let k' := fresh "k" in
      set (k' := k); cbn [buildTree]; subst k'
  end;
  rewrite X, E; cbn [negb orb];
  rewrite (rootElement_truthy _ _ R); cbn [negb];
  try (other_root R "about"; rewrite andb_false_r).

(** C6.  [buildTree] returns [null], without throwing, for a file that
    does not exist, is not an [.xml] file, or cannot be read or parsed.
    At each of the four places where a node collects its children (the
    chapters of a course, the sequentials of a chapter, the verticals of
    a sequential, the problems, htmls and videos of a vertical) a
    reference to such a file contributes nothing: the parent is returned
    all the same, and its children are exactly the nodes built for the
    other references, in order. *)
Theorem buildTree_fails_softly
  (h : Host) (stack : nat) (filePath type0 : string) :
  (absentFile h filePath ->
   buildTree h (S stack) filePath type0 = Ok None) /\
  (existsSync h filePath = true ->
   endsWith filePath ".xml" = true ->
   let obj := parseXmlFile h filePath in
   let parentDir := dirname h (dirname h filePath) in
   let refs (parent kind : string) :=
     ensureArray (prop (prop obj parent) kind) in
   let name (parent : string) :=
     orElse (prop (prop obj parent) "display_name") VNull in
   (forall rs : list (option tnode),
      rootElement obj "course" ->
      Forall2 (referenced h (S stack) parentDir "chapter")
        (refs "course" "chapter") rs ->
      buildTree h (S (S stack)) filePath type0
      = Ok (Some (inner "course" (prop (prop obj "course") "display_name")
                    (Some filePath)
                    (aboutFirst h parentDir ++ compact rs)))) /\
   (forall rs : list (option tnode),
      rootElement obj "chapter" ->
      Forall2 (referenced h (S stack) parentDir "sequential")
        (refs "chapter" "sequential") rs ->
      buildTree h (S (S stack)) filePath type0
      = Ok (Some (inner "chapter" (name "chapter") (Some filePath)
                    (compact rs)))) /\
   (forall rs : list (option tnode),
      rootElement obj "sequential" ->
      Forall2 (referenced h (S stack) parentDir "vertical")
        (refs "sequential" "vertical") rs ->
      buildTree h (S (S stack)) filePath type0
      = Ok (Some (inner "sequential" (name "sequential") (Some filePath)
                    (containers (refs "sequential" "vertical") rs)))) /\
   (forall ps hs vs : list (option tnode),
      rootElement obj "vertical" ->
      Forall2 (referenced h (S stack) parentDir "problem")
        (refs "vertical" "problem") ps ->
      Forall2 (referenced h (S stack) parentDir "html")
        (refs "vertical" "html") hs ->
      Forall2 (referenced h (S stack) parentDir "video")
        (refs "vertical" "video") vs ->
      buildTree h (S (S stack)) filePath type0
      = Ok (Some (inner "vertical" (name "vertical") (Some filePath)
                    (compact ps ++ compact hs ++ compact vs))))).
Proof.
  split; [apply buildTree_absent|].
  intros X E. cbv beta zeta.
  split; [|split; [|split]].
  - intros rs R F. enter_builder X E R.
    rewrite (proj1 R).
    rewrite (mapM_Forall2 _ _ rs).
    + reflexivity.
    + revert F. apply Forall2_impl. intros ref r. apply referenced_built.
  - intros rs R F. enter_builder X E R.
    other_root R "course".
    rewrite (proj1 R).
    rewrite (mapM_Forall2 _ _ rs).
    + reflexivity.
    + revert F. apply Forall2_impl. intros ref r. apply referenced_built.
  - intros rs R F. enter_builder X E R.
    other_root R "course". other_root R "chapter".
    rewrite (proj1 R).
    destruct (referenced_containers h stack _ _ _ F) as [cs [M C]].
    rewrite M. cbn [bind]. rewrite C. reflexivity.
  - intros ps hs vs R Fp Fh Fv. enter_builder X E R.
    other_root R "course". other_root R "chapter".
    other_root R "sequential".
    rewrite (proj1 R).
    rewrite (mapM_Forall2 _ _ ps), (mapM_Forall2 _ _ hs),
      (mapM_Forall2 _ _ vs).
    + reflexivity.
    + revert Fv. apply Forall2_impl. intros ref r. apply referenced_guarded.
    + revert Fh. apply Forall2_impl. intros ref r. apply referenced_guarded.
    + revert Fp. apply Forall2_impl. intros ref r. apply referenced_guarded.
Qed.

Lemma buildTree_fails_softly_witness :
  buildTree Samples.host 1 "c/chapter/gone.xml" "chapter" = Ok None /\
  buildTree Samples.host 1 "c/html/h1.html" "html" = Ok None /\
  buildTree Samples.host 1 "c/html/broken.xml" "html" = Ok None /\
  (exists ch1 : tnode,
      buildTree Samples.host 4 "c/chapter/ch1.xml" "chapter" = Ok (Some ch1) /\
      map urlOf
        (ensureArray
           (prop (prop (parseXmlFile Samples.host "c/course/course.xml")
                    "course") "chapter"))
      = [VStr "ch1"; VStr "gone"] /\
      buildTree Samples.host 5 "c/course/course.xml" "course"
      = Ok (Some (inner "course" (VStr "X") (Some "c/course/course.xml")
                    [ch1]))).
Proof.
  split; [|split; [|split]].
  - apply (proj1 (buildTree_fails_softly Samples.host 0
                    "c/chapter/gone.xml" "chapter")).
    apply Missing. reflexivity.
  - apply (proj1 (buildTree_fails_softly Samples.host 0
                    "c/html/h1.html" "html")).
    apply NotXml. reflexivity.
  - apply (proj1 (buildTree_fails_softly Samples.host 0
                    "c/html/broken.xml" "html")).
    apply (Unparseable Samples.host "c/html/broken.xml" "<html" TypeError);
      reflexivity.
  - destruct (buildTree Samples.host 4 "c/chapter/ch1.xml" "chapter")
      as [[ch1|]|e] eqn:B; try (vm_compute in B; discriminate B).
    exists ch1. split; [reflexivity|]. split; [reflexivity|].
    apply (proj1 (proj2 (buildTree_fails_softly Samples.host 3
                           "c/course/course.xml" "course") eq_refl eq_refl)
             [Some ch1; None]).
    + split; [reflexivity|].
      intros k [<-|[<-|[<-|[<-|[<-|[]]]]]] N;
        first [reflexivity | contradiction].
    + constructor; [|constructor; [|constructor]].
      * apply (ReferenceBuilt Samples.host 4 "c" "chapter" _
                 "c/chapter/ch1.xml"); [reflexivity | exact B].
      * apply (ReferenceAbsent Samples.host 4 "c" "chapter" _
                 "c/chapter/gone.xml"); [reflexivity|].
        apply Missing. reflexivity.
Defined.
